(** * telegram-ms-cognitive-bot: dispatch protocol, orchestrator and
      annotation geometry

    A shallow embedding of [helper.go] and of the program's main file
    (command table, [init]).  Go strings are byte strings and are modelled
    by [string] (a list of 8-bit [ascii]); Go maps by stdpp's [gmap], with
    the zero value written out where the source reads a missing key; a
    run-time panic is an explicit [Panic] outcome; calls to the Telegram
    transport, to the vision services and to the drawing context are
    recorded, in program order, as a trace of events. *)

From Stdlib Require Import ZArith NArith Ascii String.
From Stdlib Require Import Floats.
From stdpp Require Import base option list gmap strings pretty.

Local Open Scope string_scope.

(** ** Outcomes: a Go computation returns or panics *)

Inductive outcome (A : Type) : Type :=
| Ok (a : A)
| Panic (msg : string).
Arguments Ok {A} a.
Arguments Panic {A} msg.

#[global] Instance outcome_ret : MRet outcome := fun _ a => Ok a.
#[global] Instance outcome_bind : MBind outcome := fun _ _ f m =>
  match m with
  | Ok a => f a
  | Panic msg => Panic msg
  end.

Definition is_panic {A} (o : outcome A) : bool :=
  match o with Ok _ => false | Panic _ => true end.

Definition index_out_of_range : string := "runtime error: index out of range".
Definition slice_out_of_range : string := "runtime error: slice bounds out of range".
Definition nil_dereference : string :=
  "runtime error: invalid memory address or nil pointer dereference".

(** [*p] for a pointer that may be nil. *)
Definition deref {A} (p : option A) : outcome A :=
  match p with
  | Some a => Ok a
  | None => Panic nil_dereference
  end.

(** ** Go strings *)

Module GoString.

(** [s[0]]: the first byte, a panic on the empty string. *)
Definition index0 (s : string) : outcome ascii :=
  match s with
  | EmptyString => Panic index_out_of_range
  | String b _ => Ok b
  end.

(** [s[1:]]. *)
Definition slice_from1 (s : string) : outcome string :=
  match s with
  | EmptyString => Panic slice_out_of_range
  | String _ rest => Ok rest
  end.

(** [string(b)] for a byte [b]: the UTF-8 encoding of the code point [b],
    one byte below 0x80 and two bytes from 0x80 on. *)
Definition of_byte (b : ascii) : string :=
  let n := N_of_ascii b in
  if (n <? 128)%N then String b EmptyString
  else String (ascii_of_N (192 + n / 64))
         (String (ascii_of_N (128 + n mod 64)) EmptyString).

(** [strings.HasPrefix]. *)
Fixpoint HasPrefix (s prefix : string) : bool :=
  match prefix, s with
  | EmptyString, _ => true
  | String p prefix', String c s' =>
      if Ascii.eqb p c then HasPrefix s' prefix' else false
  | String _ _, EmptyString => false
  end.

(** [strings.Contains]. *)
Fixpoint Contains (s substr : string) : bool :=
  if HasPrefix s substr then true
  else match s with
       | EmptyString => false
       | String _ s' => Contains s' substr
       end.

(** [strings.Join]. *)
Fixpoint Join (elems : list string) (sep : string) : string :=
  match elems with
  | [] => ""
  | [e] => e
  | e :: rest => e +:+ sep +:+ Join rest sep
  end.

Definition is_lower (c : ascii) : bool :=
  let n := N_of_ascii c in ((97 <=? n) && (n <=? 122))%N.
Definition is_upper (c : ascii) : bool :=
  let n := N_of_ascii c in ((65 <=? n) && (n <=? 90))%N.
Definition to_upper (c : ascii) : ascii :=
  if is_lower c then ascii_of_N (N_of_ascii c - 32) else c.

Definition is_digit (c : ascii) : bool :=
  let n := N_of_ascii c in ((48 <=? n) && (n <=? 57))%N.

(** [strings.Title] on ASCII text: a letter is put in upper case when the
    byte before it is neither a letter, nor a digit, nor an underscore. *)
Fixpoint title_from (in_word : bool) (s : string) : string :=
  match s with
  | EmptyString => EmptyString
  | String c s' =>
      let word := is_lower c || is_upper c || is_digit c || Ascii.eqb c "_" in
      String (if in_word then c else to_upper c) (title_from word s')
  end.
Definition Title (s : string) : string := title_from false s.

(** [unicode.IsSpace]: tab, line feed, vertical tab, form feed, carriage
    return, space, U+0085, U+00A0, and the other code points of the Unicode
    property White_Space. *)
Definition IsSpace (r : N) : bool :=
  (((9 <=? r) && (r <=? 13)) || (r =? 0x20) || (r =? 0x85) || (r =? 0xA0)
   || (r =? 0x1680) || ((0x2000 <=? r) && (r <=? 0x200A))
   || (r =? 0x2028) || (r =? 0x2029) || (r =? 0x202F) || (r =? 0x205F)
   || (r =? 0x3000))%N.

(** The byte [b] lies between [lo] and [hi]. *)
Definition between (lo hi : N) (b : ascii) : bool :=
  ((lo <=? N_of_ascii b) && (N_of_ascii b <=? hi))%N.

(** UTF-8 as [utf8.DecodeRuneInString] reads it: the bytes that form a rune
    of two or of three bytes (no overlong form, no surrogate), and the rune. *)
Definition valid2 (b0 b1 : ascii) : bool :=
  between 0xC2 0xDF b0 && between 0x80 0xBF b1.
Definition rune2 (b0 b1 : ascii) : N :=
  (N_of_ascii b0 mod 32 * 64 + N_of_ascii b1 mod 64)%N.
Definition valid3 (b0 b1 b2 : ascii) : bool :=
  between 0xE0 0xEF b0
  && between (if (N_of_ascii b0 =? 0xE0)%N then 0xA0 else 0x80)%N
             (if (N_of_ascii b0 =? 0xED)%N then 0x9F else 0xBF)%N b1
  && between 0x80 0xBF b2.
Definition rune3 (b0 b1 b2 : ascii) : N :=
  (N_of_ascii b0 mod 16 * 4096 + N_of_ascii b1 mod 64 * 64 + N_of_ascii b2 mod 64)%N.

(** [len(strings.TrimSpace(s)) > 0]: some rune of [s] is not white space.
    The runes are read from the left: a byte below 0x80 is its own rune;
    two or three bytes that are valid UTF-8 are the rune they encode; what
    is left is a rune of four bytes or a byte that is not UTF-8 (read as
    U+FFFD), neither of which is white space. *)
Fixpoint has_non_space (s : string) : bool :=
  match s with
  | EmptyString => false
  | String b0 s1 =>
      if (N_of_ascii b0 <? 0x80)%N then
        negb (IsSpace (N_of_ascii b0)) || has_non_space s1
      else
        match s1 with
        | String b1 s2 =>
            if valid2 b0 b1 then negb (IsSpace (rune2 b0 b1)) || has_non_space s2
            else
              match s2 with
              | String b2 s3 =>
                  if valid3 b0 b1 b2 then
                    negb (IsSpace (rune3 b0 b1 b2)) || has_non_space s3
                  else true
              | EmptyString => true
              end
        | EmptyString => true
        end
  end.

End GoString.

(** ** The command table (main file) *)

(** [type CognitiveCommand string]. *)
Abbreviation CognitiveCommand := string.

Definition Emotion : CognitiveCommand := "Emotion Recognition".
Definition Face : CognitiveCommand := "Face Detection".
Definition Describe : CognitiveCommand := "Describe This Image".
Definition Ocr : CognitiveCommand := "OCR".
Definition Handwritten : CognitiveCommand := "Handwritten Text Recognition".
Definition Tag : CognitiveCommand := "Tag This Image".
Definition CensorEyes : CognitiveCommand := "Censor Eyes".
Definition MaskFaces : CognitiveCommand := "Mask Faces".

Definition allCmds : list CognitiveCommand :=
  [Emotion; Face; Describe; Ocr; Handwritten; Tag; CensorEyes; MaskFaces].

Definition MessageActionImage : string := "Choose action for this image:".
Definition MessageUnprocessable : string := "Unprocessable message.".
Definition MessageFailedToGetFile : string := "Failed to get file from the server.".
Definition MessageCanceled : string := "Canceled.".
Definition CommandCancel : string := "cancel".
Definition MessageHelp : string :=
"Send any image to this bot, and select one of the following actions:

- Emotion Recognition
- Face Detection
- Describe This Image
- OCR
- Handwritten Text Recognition
- Tag This Image
- Censor Eyes
- Mask Faces

then it will send the result message and/or image back to you.

* Github: https://github.com/meinside/telegram-ms-cognitive-bot
".

(** The two package-level lookup tables, [shortCmdsMap] and [cmdsMap]. *)
Record Tables : Type := mkTables {
  shortCmdsMap : gmap string string;
  cmdsMap : gmap string string
}.

Definition emptyTables : Tables := mkTables ∅ ∅.

(** Reading a Go map: the zero value [""] for a missing key. *)
Definition lookupStr (m : gmap string string) (k : string) : string :=
  default "" (m !! k).

(** One iteration of the loop of [init] over the commands. *)
Definition registerCmd (t : Tables) (c : CognitiveCommand) : outcome Tables :=
  b ← GoString.index0 c;
  let firstLetter := GoString.of_byte b in
  mret (mkTables (<[c := firstLetter]> (shortCmdsMap t))
                 (<[firstLetter := c]> (cmdsMap t))).

Fixpoint registerCmds (t : Tables) (cmds : list CognitiveCommand) : outcome Tables :=
  match cmds with
  | [] => Ok t
  | c :: rest => t' ← registerCmd t c; registerCmds t' rest
  end.


(** ** Types of the Telegram client library (declarations only) *)

Record PhotoSize : Type := mkPhotoSize { PhotoFileId : string }.

Record Document : Type := mkDocument {
  DocFileId : string;
  MimeType : option string
}.

Record Chat : Type := mkChat { ChatId : Z }.

Record Message : Type := mkMessage {
  MessageId : Z;
  MsgChat : Chat;
  Photo : list PhotoSize;
  MsgDocument : option Document;
  Text : option string
}.

Record User : Type := mkUser {
  Username : option string;
  FirstName : string
}.

Record CallbackQuery : Type := mkCallbackQuery {
  QueryId : string;
  From : User;
  QueryMessage : option Message;
  Data : option string
}.

Record Update : Type := mkUpdate {
  UpdMessage : option Message;
  UpdCallbackQuery : option CallbackQuery
}.

Record InlineKeyboardButton : Type := mkButton {
  ButtonText : string;
  CallbackData : option string
}.

(** A value of a [map[string]interface{}] of options. *)
Inductive OptVal : Type :=
| OptInt (n : Z)
| OptStr (s : string)
| OptMarkup (InlineKeyboard : list (list InlineKeyboardButton)).

Abbreviation Options := (gmap string OptVal).

Record ApiResult : Type := mkApiResult {
  ResOk : bool;
  ResDescription : option string
}.

Record ApiResultMessage : Type := mkApiResultMessage {
  MsgOk : bool;
  MsgDescription : option string;
  MsgResult : option Message
}.

Record File : Type := mkFile { FilePath : string }.

Record ApiResultFile : Type := mkApiResultFile {
  FileOk : bool;
  FileDescription : option string;
  FileResult : option File
}.

(** [Message.HasPhoto], [Message.HasDocument], [Update.HasMessage] and
    [Update.HasCallbackQuery] of the client library. *)
Definition HasPhoto (m : Message) : bool :=
  match Photo m with [] => false | _ :: _ => true end.
Definition HasDocument (m : Message) : bool :=
  match MsgDocument m with None => false | Some _ => true end.
Definition HasMessage (u : Update) : bool :=
  match UpdMessage u with None => false | Some _ => true end.
Definition HasCallbackQuery (u : Update) : bool :=
  match UpdCallbackQuery u with None => false | Some _ => true end.

(** [bot.NewInlineKeyboardButtonsAsRowsWithCallbackData]: one row of one
    button per entry of the map (Go leaves the order of the entries open;
    nothing below depends on it). *)
Definition NewInlineKeyboardButtonsAsRowsWithCallbackData
    (values : gmap string string) : list (list InlineKeyboardButton) :=
  (fun kv : string * string => [mkButton kv.1 (Some kv.2)]) <$> map_to_list values.

(** ** Go [int] (64 bits, wrap-around on overflow) *)

Module GoInt.
Definition wrap (z : Z) : Z := ((z + 2 ^ 63) mod 2 ^ 64 - 2 ^ 63)%Z.
Definition add (a b : Z) : Z := wrap (a + b).
(** [a / b] for a constant [b > 0]: truncation towards zero. *)
Definition div (a b : Z) : Z := wrap (Z.quot a b).
(** [a % b] for [b <> 0]: the sign of the dividend. *)
Definition rem (a b : Z) : Z := Z.rem a b.
(** [float64(n)]: the nearest binary64 value, ties to even. *)
Definition to_float64 (n : Z) : float :=
  SF2Prim (binary_normalize prec emax n 0 false).
(** [l[i]]: a panic outside [0 <= i < len(l)]. *)
Definition index {A} (l : list A) (i : Z) : outcome A :=
  if (i <? 0)%Z then Panic index_out_of_range
  else match l !! Z.to_nat i with
       | Some a => Ok a
       | None => Panic index_out_of_range
       end.
End GoInt.

(** ** Types of the Cognitive Services client library (declarations only) *)

Record Point : Type := mkPoint { X : float; Y : float }.

Record Rectangle : Type := mkRectangle {
  Left : Z; Top : Z; Width : Z; Height : Z
}.

Record FaceAttributes : Type := mkFaceAttributes {
  FacialHair : gmap string float;
  HeadPose : gmap string float;
  AttrEmotion : gmap string float
}.

Record DetectedFace : Type := mkDetectedFace {
  FaceRectangle : Rectangle;
  FaceLandmarks : gmap string Point;
  FaceAttrs : FaceAttributes
}.

Record RecognizedEmotion : Type := mkRecognizedEmotion {
  EmoFaceRectangle : Rectangle;
  Scores : gmap string float
}.

Record Caption : Type := mkCaption { CaptionText : string; CaptionConfidence : float }.
Record Described : Type := mkDescribed {
  Captions : list Caption;
  DescriptionTags : list string
}.
Record ImageTag : Type := mkImageTag { TagName : string; TagConfidence : float }.

(** ** The [math] package, as far as [helper.go] calls it *)

Record Math : Type := mkMath {
  Sqrt : float → float;
  Pow : float → float → float;
  Max : float → float → float;
  Abs : float → float
}.

Set Warnings "-inexact-float".

(** ** Geometry of [helper.go] *)

Section Geometry.
Variable math : Math.
Local Open Scope float_scope.

(** [genMaskPoints]: the four corners of the mask over both eyes.  The
    comparison [lEyeHeight > rEyeHeight] is [rEyeHeight <? lEyeHeight]. *)
Definition genMaskPoints (lt lb lo rt rb ro : Point) : Point * Point * Point * Point :=
  let lEyeHeight :=
    Sqrt math (Pow math (X lt - X lb) 2.0 + Pow math (Y lt - Y lb) 2.0) in
  let rEyeHeight :=
    Sqrt math (Pow math (X rt - X rb) 2.0 + Pow math (Y rt - Y rb) 2.0) in
  let eyesWidth :=
    Sqrt math (Pow math (X lo - X ro) 2.0 + Pow math (Y lo - Y ro) 2.0) in
  let marginX := eyesWidth * 0.2 in
  let marginY := Max math lEyeHeight rEyeHeight * 0.3 in
  let '(dX, dY) :=
    if rEyeHeight <? lEyeHeight then
      (Max math (Abs math (X lt - X lo)) (Abs math (X lb - X lo)) + marginX,
       Max math (Abs math (Y lt - Y lo)) (Abs math (Y lb - Y lo)) + marginY)
    else
      (Max math (Abs math (X rt - X ro)) (Abs math (X rb - X ro)) + marginX,
       Max math (Abs math (Y rt - Y ro)) (Abs math (Y rb - Y ro)) + marginY) in
  (mkPoint (X lt - dX) (Y lt - dY),
   mkPoint (X lb - dX) (Y lb + dY),
   mkPoint (X rb + dX) (Y rb + dY),
   mkPoint (X rt + dX) (Y rt - dY)).

End Geometry.

(** [hasAllKeys]: every requested key is in the map of landmarks. *)
Fixpoint hasAllKeys (keys : list string) (points : gmap string Point) : bool :=
  match keys with
  | [] => true
  | k :: rest =>
      match points !! k with
      | None => false
      | Some _ => hasAllKeys rest points
      end
  end.

(** Colors. *)
Inductive Color : Type :=
| RGBA (r g b a : Z)
| Transparent.

Definition colors : list Color :=
  [ RGBA 255 255 0 255;   (* yellow *)
    RGBA 0 255 255 255;   (* cyan *)
    RGBA 255 0 255 255;   (* purple *)
    RGBA 0 255 0 255;     (* green *)
    RGBA 0 0 255 255;     (* blue *)
    RGBA 255 0 0 255 ].   (* red *)
Definition maskColor : Color := RGBA 0 0 0 255.

Definition CircleRadius : float := 6%float.
Definition StrokeWidth : float := 7.0%float.

(** [colorForIndex]: rotate through [colors]. *)
Definition colorForIndex (i : Z) : outcome Color :=
  let length := Z.of_nat (length colors) in
  GoInt.index colors (GoInt.rem i length).

(** ** Effects: the calls the program makes, in program order *)

(** Calls on the drawing contexts ([draw2dimg], [freetype], [gift]). *)
Inductive Draw : Type :=
| NewCanvas (dx dy : Z)
| GcSetLineWidth (w : float)
| GcSetFillColor (c : Color)
| GcSetStrokeColor (c : Color)
| GcMoveTo (x y : float)
| GcLineTo (x y : float)
| GcArcTo (cx cy rx ry startAngle angle : float)
| GcClose
| GcFillStroke
| GcFill
| GcSave
| FcNewContext (dpi : float) (fontSize : float)  (* font, DPI, clip, destination, size *)
| FcSetSrc (c : Color)
| FcDrawString (s : string) (x y : Z)
| GiftPixelateDrawAt (size : Z) (x0 y0 x1 y1 : Z) (ptX ptY : Z).

(** Calls to the three vision clients. *)
Inductive VisionCall : Type :=
| EmotionRecognizeImage (url : string)
| FaceDetect (url : string) (returnFaceId returnLandmarks : bool) (attrs : list string)
| CvDescribeImage (url : string) (maxCandidates : Z)
| CvOcr (url lang : string) (detectOrientation : bool)
| CvRecognizeHandwritten (url : string) (wait : bool)
| CvTagImage (url : string).

(** The object of a request log: user name, file URL, command. *)
Record RequestLog : Type := mkRequestLog {
  LogUsername : string;
  LogFileURL : string;
  LogCommand : CognitiveCommand
}.

Record LogglyLog : Type := mkLogglyLog {
  Application : string;
  Severity : string;
  LogMessage : string;
  Object : option RequestLog
}.

Definition appName : string := "MSCognitiveServicesBot".

Inductive Event : Type :=
| EvSendMessage (chatId : Z) (text : string) (options : Options)
| EvGetFile (fileId : string)
| EvAnswerCallbackQuery (queryId : string)
| EvEditMessageText (text : string) (options : Options)
| EvSendChatAction (chatId : Z) (action : string)
| EvSendPhotoWithBytes (chatId : Z) (bytes : string) (options : Options)
| EvDeleteMessage (chatId : Z) (messageId : Z)
| EvGo (chatId : Z) (messageIdToDelete : Z) (fileUrl : string) (command : CognitiveCommand)
| EvVision (call : VisionCall)
| EvHttpGet (url : string)
| EvBodyClose
| EvDraw (d : Draw)
| EvLogPrintln (message : string)
| EvLoggly (entry : LogglyLog).

Record Image : Type := mkImage { Dx : Z; Dy : Z }.

(** What the collaborators answer.  A Go [(value, err)] pair is a sum with
    the text of the error on the right. *)
Record Env : Type := mkEnv {
  bot_SendMessage : Z → string → Options → ApiResultMessage;
  bot_GetFile : string → ApiResultFile;
  bot_GetFileUrl : File → string;
  bot_AnswerCallbackQuery : string → ApiResult;
  bot_EditMessageText : string → Options → ApiResult;
  bot_SendPhotoWithBytes : Z → string → Options → ApiResultMessage;
  emotion_RecognizeImage : string → list RecognizedEmotion + string;
  face_Detect : string → list DetectedFace + string;
  cv_DescribeImage : string → Described + string;
  cv_Ocr : string → list (list (list string)) + string;
  cv_RecognizeHandwritten : string → list string + string;
  cv_TagImage : string → list ImageTag + string;
  http_Get : string → string + string;
  image_Decode : string → Image + string;
  jpeg_Encode : Image → list Event → string + string;
  ft_DrawString : string → Z → Z → option string;
  ft_PointToFixed : float → Z;
  env_math : Math;
  fmt_f3 : float → string;
  fmt_f2 : float → string;
  fmt_query : CallbackQuery → string
}.

(** A computation with effects: it extends the trace and returns or panics. *)
Definition M (A : Type) : Type := list Event → outcome A * list Event.

#[global] Instance M_ret : MRet M := fun _ a tr => (Ok a, tr).
#[global] Instance M_bind : MBind M := fun _ _ f m tr =>
  match m tr with
  | (Ok a, tr') => f a tr'
  | (Panic msg, tr') => (Panic msg, tr')
  end.

Definition emit (e : Event) : M unit := fun tr => (Ok tt, (tr ++ [e])%list).
Definition lift {A} (o : outcome A) : M A := fun tr => (o, tr).
Definition get_trace : M (list Event) := fun tr => (Ok tr, tr).
Definition run {A} (m : M A) : outcome A * list Event := m [].
Definition trace_of {A} (m : M A) : list Event := (run m).2.
Definition result_of {A} (m : M A) : outcome A := (run m).1.

Definition is_draw (e : Event) : bool :=
  match e with EvDraw _ => true | _ => false end.
Definition is_vision (e : Event) : bool :=
  match e with EvVision _ => true | _ => false end.
Definition is_go (e : Event) : bool :=
  match e with EvGo _ _ _ _ => true | _ => false end.
Definition is_get_file (e : Event) : bool :=
  match e with EvGetFile _ => true | _ => false end.
Definition is_edit_message (e : Event) : bool :=
  match e with EvEditMessageText _ _ => true | _ => false end.
Definition is_log (e : Event) : bool :=
  match e with EvLogPrintln _ => true | _ => false end.

(** ** The handlers of [helper.go] *)

Section Bot.
(** Package-level state after [init]: the lookup tables and whether a
    Loggly logger is configured ([logger != nil]). *)
Variable tables : Tables.
Variable logger : bool.
Variable env : Env.

Definition logMessage (message : string) : M unit :=
  emit (EvLogPrintln message);;
  if logger then emit (EvLoggly (mkLogglyLog appName "Log" message None))
  else mret tt.

Definition logError (message : string) : M unit :=
  emit (EvLogPrintln message);;
  if logger then emit (EvLoggly (mkLogglyLog appName "Error" message None))
  else mret tt.

Definition logRequest (username fileURL : string) (command : CognitiveCommand) : M unit :=
  if logger then
    emit (EvLoggly (mkLogglyLog appName "Verbose" ""
                      (Some (mkRequestLog username fileURL command))))
  else mret tt.

(** The callback data of the button of [cmd]:
    [fmt.Sprintf("%s%s", shortCmdsMap[cmd], fileId)]. *)
Definition callbackData (cmd : CognitiveCommand) (fileId : string) : string :=
  lookupStr (shortCmdsMap tables) cmd +:+ fileId.

(** [genImageInlineKeyboards]: a button per command and the cancel button. *)
Definition genImageInlineKeyboards (fileId : string) : list (list InlineKeyboardButton) :=
  let data : gmap string string :=
    foldl (fun data cmd => <[cmd := callbackData cmd fileId]> data) ∅ allCmds in
  let cancel := CommandCancel in
  (NewInlineKeyboardButtonsAsRowsWithCallbackData data
     ++ [[mkButton (GoString.Title CommandCancel) (Some cancel)]])%list.

(** [processUpdate]: answer a message with the keyboard or the help. *)
Definition processUpdate (update : Update) : M bool :=
  msg ← lift (deref (UpdMessage update));
  let options : Options := {[ "reply_to_message_id" := OptInt (MessageId msg) ]} in
  '(message, options) ←
    (if HasPhoto msg then
       let lastIndex := (Z.of_nat (length (Photo msg)) - 1)%Z in
       p ← lift (GoInt.index (Photo msg) lastIndex);
       mret (MessageActionImage,
             <["reply_markup" := OptMarkup (genImageInlineKeyboards (PhotoFileId p))]> options)
     else if HasDocument msg then
       doc ← lift (deref (MsgDocument msg));
       mime ← lift (deref (MimeType doc));
       if GoString.HasPrefix mime "image/" then
         mret (MessageActionImage,
               <["reply_markup" := OptMarkup (genImageInlineKeyboards (DocFileId doc))]> options)
       else mret (MessageHelp, options)
     else mret (MessageHelp, options));
  emit (EvSendMessage (ChatId (MsgChat msg)) message options);;
  let sent := bot_SendMessage env (ChatId (MsgChat msg)) message options in
  if MsgOk sent then mret true
  else
    desc ← lift (deref (MsgDescription sent));
    logError ("Failed to send message: " +:+ desc);;
    mret false.

(** The two lines of [processCallbackQuery] that take a token apart:
    [command := cmdsMap[string(data[0])]] and [fileId := string(data[1:])]. *)
Definition decodeData (data : string) : outcome (CognitiveCommand * string) :=
  b ← GoString.index0 data;
  let command := lookupStr (cmdsMap tables) (GoString.of_byte b) in
  fileId ← GoString.slice_from1 data;
  mret (command, fileId).

(** The first half of [processCallbackQuery] (the [if data == CommandCancel]
    statement): the text that will replace the prompt, and the start of the
    task. *)
Definition selectReply (query : CallbackQuery) (data : string) : M string :=
  if String.eqb data CommandCancel then mret MessageCanceled
  else
    '(command, fileId) ← lift (decodeData data);
    emit (EvGetFile fileId);;
    let fileResult := bot_GetFile env fileId in
    if FileOk fileResult then
      file ← lift (deref (FileResult fileResult));
      let fileUrl := bot_GetFileUrl env file in
      qmsg ← lift (deref (QueryMessage query));
      text ← lift (deref (Text qmsg));
      if GoString.Contains text "image" then
        emit (EvGo (ChatId (MsgChat qmsg)) (MessageId qmsg) fileUrl command);;
        let message := "Processing '" +:+ command +:+ "' on received image..." in
        let username :=
          match Username (From query) with
          | None => FirstName (From query)
          | Some u => u
          end in
        logRequest username fileUrl command;;
        mret message
      else mret MessageUnprocessable
    else
      desc ← lift (deref (FileDescription fileResult));
      logError ("Failed to get file from url: " +:+ desc);;
      mret MessageFailedToGetFile.

Definition editOptions (qmsg : Message) : Options :=
  <["message_id" := OptInt (MessageId qmsg)]>
    {[ "chat_id" := OptInt (ChatId (MsgChat qmsg)) ]}.

(** The second half of [processCallbackQuery]: answer the callback query,
    then replace the prompt by [message]. *)
Definition answerAndEdit (query : CallbackQuery) (message : string) : M bool :=
  emit (EvAnswerCallbackQuery (QueryId query));;
  let apiResult := bot_AnswerCallbackQuery env (QueryId query) in
  if ResOk apiResult then
    qmsg ← lift (deref (QueryMessage query));
    let options := editOptions qmsg in
    emit (EvEditMessageText message options);;
    let apiResult := bot_EditMessageText env message options in
    if ResOk apiResult then mret true
    else
      desc ← lift (deref (ResDescription apiResult));
      logError ("Failed to edit message text: " +:+ desc);;
      mret false
  else
    logError ("Failed to answer callback query: " +:+ fmt_query env query);;
    mret false.

(** [processCallbackQuery]: a pressed button. *)
Definition processCallbackQuery (update : Update) : M bool :=
  query ← lift (deref (UpdCallbackQuery update));
  data ← lift (deref (Data query));
  message ← selectReply query data;
  answerAndEdit query message.

(** *** The annotation of one detected face *)

Definition emits (es : list Event) : M unit := fun tr => (Ok tt, (tr ++ es)%list).
Definition draws (ds : list Draw) : M unit := emits (EvDraw <$> ds).

(** [for i, x := range xs { acc = body(i, x, acc) }]. *)
Fixpoint range_from {A S} (i : Z) (xs : list A) (acc : S)
    (body : Z → A → S → M S) : M S :=
  match xs with
  | [] => mret acc
  | x :: rest => acc' ← body i x acc; range_from (GoInt.add i 1) rest acc' body
  end.
Definition range {A S} (xs : list A) (acc : S) (body : Z → A → S → M S) : M S :=
  range_from 0 xs acc body.

(** [p, _ := points[k]]: the zero point for a missing key. *)
Definition landmark (points : gmap string Point) (k : string) : Point :=
  default (mkPoint 0 0) (points !! k).

Definition LF : string := String (ascii_of_N 10) EmptyString.
Definition ChatActionTyping : string := "typing".
Definition ChatActionUploadPhoto : string := "upload_photo".

(** The outline of the face rectangle. *)
Definition rectOutline (rect : Rectangle) : list Draw :=
  let f := GoInt.to_float64 in
  [ GcMoveTo (f (Left rect)) (f (Top rect));
    GcLineTo (f (GoInt.add (Left rect) (Width rect))) (f (Top rect));
    GcLineTo (f (GoInt.add (Left rect) (Width rect)))
             (f (GoInt.add (Top rect) (Height rect)));
    GcLineTo (f (Left rect)) (f (GoInt.add (Top rect) (Height rect)));
    GcLineTo (f (Left rect)) (f (Top rect));
    GcClose;
    GcFillStroke ].

(** The label [Face #<i+1>] under the rectangle; a failure is logged. *)
Definition drawFaceLabel (fontSize : float) (i : Z) (rect : Rectangle) : M unit :=
  let s := "Face #" +:+ pretty (GoInt.add i 1) in
  let y := Z.shiftr (ft_PointToFixed env
                       (GoInt.to_float64 (GoInt.add (Top rect) (Height rect)) + fontSize)%float) 6 in
  draws [FcDrawString s (Left rect) y];;
  match ft_DrawString env s (Left rect) y with
  | Some err => logError ("Failed to draw string: " +:+ err)
  | None => mret tt
  end.

(** A circle of radius [CircleRadius] around a landmark. *)
Definition markCircle (p : Point) : list Draw :=
  [ GcMoveTo (X p) (Y p);
    GcArcTo (X p) (Y p) CircleRadius CircleRadius 0%float (-6.283185307179586)%float;
    GcClose;
    GcFillStroke ].

Definition faceMarkerKeys : list string :=
  ["noseTip"; "pupilRight"; "pupilLeft"; "mouthRight"; "mouthLeft"].

Definition eyeKeys : list string :=
  ["eyeLeftTop"; "eyeLeftBottom"; "eyeLeftOuter";
   "eyeRightTop"; "eyeRightBottom"; "eyeRightOuter"].

(** The marks on nose tip, pupils and mouth. *)
Definition faceMarkers (points : gmap string Point) : list Draw :=
  let n := landmark points "noseTip" in
  let r := landmark points "pupilRight" in
  let l := landmark points "pupilLeft" in
  let m1 := landmark points "mouthRight" in
  let m2 := landmark points "mouthLeft" in
  (markCircle n ++ markCircle r ++ markCircle l ++
   [ GcMoveTo (X m1) (Y m1); GcLineTo (X m2) (Y m2); GcClose; GcFillStroke ])%list.

(** The filled mask over the eyes. *)
Definition eyeMask (points : gmap string Point) : list Draw :=
  let lt := landmark points "eyeLeftTop" in
  let lb := landmark points "eyeLeftBottom" in
  let lo := landmark points "eyeLeftOuter" in
  let rt := landmark points "eyeRightTop" in
  let rb := landmark points "eyeRightBottom" in
  let ro := landmark points "eyeRightOuter" in
  let '(lu, ll, rl, ru) := genMaskPoints (env_math env) lt lb lo rt rb ro in
  [ GcSetFillColor maskColor;
    GcMoveTo (X lu) (Y lu);
    GcLineTo (X ll) (Y ll);
    GcLineTo (X rl) (Y rl);
    GcLineTo (X ru) (Y ru);
    GcLineTo (X lu) (Y lu);
    GcClose;
    GcFill ].

(** The argument of [gift.Pixelate] for a face rectangle. *)
Definition pixelateSize (rect : Rectangle) : Z := GoInt.div (Width rect) 8.

(** The pixelation of a face rectangle; the four coordinates are the
    arguments of [image.Rect]. *)
Definition pixelateFace (rect : Rectangle) : list Draw :=
  [ GiftPixelateDrawAt (pixelateSize rect)
      (Left rect) (Top rect)
      (GoInt.add (Left rect) (Width rect)) (GoInt.add (Top rect) (Height rect))
      (Left rect) (Top rect) ].

Definition percentLine (kv : string * float) : string :=
  "  " +:+ kv.1 +:+ ": " +:+ fmt_f3 env (kv.2 * 100.0)%float +:+ "%".
Definition degreeLine (kv : string * float) : string :=
  "  " +:+ kv.1 +:+ ": " +:+ fmt_f2 env kv.2 +:+ "°".

(** The text section of one face (the entries of a Go map come in no fixed
    order). *)
Definition faceDescription (i : Z) (a : FaceAttributes) : string :=
  let facialHairs := percentLine <$> map_to_list (FacialHair a) in
  let headPoses := degreeLine <$> map_to_list (HeadPose a) in
  let emotions := percentLine <$> map_to_list (AttrEmotion a) in
  "[Face #" +:+ pretty (GoInt.add i 1) +:+ "]" +:+ LF +:+
  "> Facial Hair" +:+ LF +:+ GoString.Join facialHairs LF +:+ LF +:+
  "> Head Pose" +:+ LF +:+ GoString.Join headPoses LF +:+ LF +:+
  "> Emotion" +:+ LF +:+ GoString.Join emotions LF.

(** The body of the loop over the detected faces: the inner
    [switch command]. *)
Definition annotateFace (command : CognitiveCommand) (newImg : Image)
    (i : Z) (f : DetectedFace) (strs : list string) : M (list string) :=
  if String.eqb command Face then
    let fontSize := (GoInt.to_float64 (Dy newImg) / 24.0)%float in
    draws [FcNewContext 72%float fontSize];;
    color ← lift (colorForIndex i);
    draws [GcSetStrokeColor color; FcSetSrc color];;
    let rect := FaceRectangle f in
    draws (rectOutline rect);;
    drawFaceLabel fontSize i rect;;
    (if hasAllKeys faceMarkerKeys (FaceLandmarks f)
     then draws (faceMarkers (FaceLandmarks f))
     else mret tt);;
    mret (strs ++ [faceDescription i (FaceAttrs f)])%list
  else if String.eqb command CensorEyes then
    (if hasAllKeys eyeKeys (FaceLandmarks f)
     then draws (eyeMask (FaceLandmarks f))
     else mret tt);;
    mret strs
  else if String.eqb command MaskFaces then
    draws (pixelateFace (FaceRectangle f));;
    mret strs
  else mret strs.

(** *** [processImage], case by case

    Every case returns the [errorMessage] it leaves and whether a response
    body was opened (its [Close] is deferred to the end of
    [processImage]). *)

Definition caption (command : CognitiveCommand) : Options :=
  {[ "caption" := OptStr ("Process result of '" +:+ command +:+ "'") ]}.

Definition replyTo (m : Message) : Options :=
  {[ "reply_to_message_id" := OptInt (MessageId m) ]}.

(** The loop body of the emotion case. *)
Definition annotateEmotion (fontSize : float) (i : Z) (e : RecognizedEmotion)
    (emos : list string) : M (list string) :=
  let rect := EmoFaceRectangle e in
  color ← lift (colorForIndex i);
  draws [GcSetStrokeColor color; FcSetSrc color];;
  draws (rectOutline rect);;
  drawFaceLabel fontSize i rect;;
  let scores := percentLine <$> map_to_list (Scores e) in
  mret (emos ++ [GoString.Join scores LF])%list.

Definition emotionSection (ie : Z * string) : string :=
  "[Face #" +:+ pretty (GoInt.add ie.1 1) +:+ "]" +:+ LF +:+ ie.2.

Definition caseEmotion (chatId : Z) (fileUrl : string) (command : CognitiveCommand)
    : M (string * bool) :=
  emit (EvVision (EmotionRecognizeImage fileUrl));;
  match emotion_RecognizeImage env fileUrl with
  | inl emotions =>
      if (0 <? Z.of_nat (length emotions))%Z then
        emit (EvHttpGet fileUrl);;
        match http_Get env fileUrl with
        | inl body =>
            match image_Decode env body with
            | inl img =>
                let newImg := mkImage (Dx img) (Dy img) in
                let fontSize := (GoInt.to_float64 (Dy newImg) / 24.0)%float in
                draws [ NewCanvas (Dx img) (Dy img);
                        GcSetLineWidth StrokeWidth;
                        GcSetFillColor Transparent;
                        FcNewContext 72%float fontSize ];;
                emos ← range emotions [] (annotateEmotion fontSize);
                draws [GcSave];;
                let strs := emotionSection <$> imap (fun i e => (Z.of_nat i, e)) emos in
                let message := GoString.Join strs (LF +:+ LF) in
                emit (EvSendChatAction chatId ChatActionUploadPhoto);;
                tr ← get_trace;
                match jpeg_Encode env newImg (filter (fun e => is_draw e = true) tr) with
                | inl bytes =>
                    emit (EvSendPhotoWithBytes chatId bytes (caption command));;
                    let sent := bot_SendPhotoWithBytes env chatId bytes (caption command) in
                    if MsgOk sent then
                      photo ← lift (deref (MsgResult sent));
                      emit (EvSendMessage chatId message (replyTo photo));;
                      let sent := bot_SendMessage env chatId message (replyTo photo) in
                      if negb (MsgOk sent) then
                        desc ← lift (deref (MsgDescription sent));
                        mret ("Failed to send emotions: " +:+ desc, true)
                      else mret ("", true)
                    else
                      desc ← lift (deref (MsgDescription sent));
                      mret ("Failed to send image: " +:+ desc, true)
                | inr _ => mret ("", true)
                end
            | inr err => mret ("Failed to decode image: " +:+ err, true)
            end
        | inr err => mret ("Failed to open image: " +:+ err, false)
        end
      else mret ("No emotion recognized on this image.", false)
  | inr err => mret ("Failed to recognize emotion: " +:+ err, false)
  end.

Definition faceAttributeNames : list string :=
  ["age"; "gender"; "headPose"; "smile"; "facialHair"; "glasses"; "emotion"].

Definition caseFaces (chatId : Z) (fileUrl : string) (command : CognitiveCommand)
    : M (string * bool) :=
  emit (EvVision (FaceDetect fileUrl true true faceAttributeNames));;
  match face_Detect env fileUrl with
  | inl faces =>
      if (0 <? Z.of_nat (length faces))%Z then
        emit (EvHttpGet fileUrl);;
        match http_Get env fileUrl with
        | inl body =>
            match image_Decode env body with
            | inl img =>
                let newImg := mkImage (Dx img) (Dy img) in
                draws [ NewCanvas (Dx img) (Dy img);
                        GcSetLineWidth StrokeWidth;
                        GcSetFillColor Transparent ];;
                strs ← range faces [] (annotateFace command newImg);
                draws [GcSave];;
                let message :=
                  if String.eqb command Face then GoString.Join strs (LF +:+ LF) else "" in
                emit (EvSendChatAction chatId ChatActionUploadPhoto);;
                tr ← get_trace;
                match jpeg_Encode env newImg (filter (fun e => is_draw e = true) tr) with
                | inl bytes =>
                    emit (EvSendPhotoWithBytes chatId bytes (caption command));;
                    let sent := bot_SendPhotoWithBytes env chatId bytes (caption command) in
                    if MsgOk sent then
                      reply ←
                        (if String.eqb command Face then
                           photo ← lift (deref (MsgResult sent));
                           mret (replyTo photo)
                         else mret (∅ : Options));
                      if (0 <? Z.of_nat (String.length message))%Z then
                        emit (EvSendMessage chatId message reply);;
                        let sent := bot_SendMessage env chatId message reply in
                        if negb (MsgOk sent) then
                          desc ← lift (deref (MsgDescription sent));
                          mret ("Failed to send faces: " +:+ desc, true)
                        else mret ("", true)
                      else mret ("", true)
                    else
                      desc ← lift (deref (MsgDescription sent));
                      mret ("Failed to send image: " +:+ desc, true)
                | inr err => mret ("Failed to encode image: " +:+ err, true)
                end
            | inr err => mret ("Failed to decode image: " +:+ err, true)
            end
        | inr err => mret ("Failed to open image: " +:+ err, false)
        end
      else mret ("No face detected on this image.", false)
  | inr err => mret ("Failed to detect faces: " +:+ err, false)
  end.

(** The common end of the four text cases: send [message] unless it is
    blank. *)
Definition sendText (chatId : Z) (message failedToSend blank : string) : M (string * bool) :=
  if GoString.has_non_space message then
    emit (EvSendMessage chatId message ∅);;
    let sent := bot_SendMessage env chatId message ∅ in
    if negb (MsgOk sent) then
      desc ← lift (deref (MsgDescription sent));
      mret (failedToSend +:+ desc, false)
    else mret ("", false)
  else mret (blank, false).

Definition confidenceLine (text : string) (confidence : float) : string :=
  text +:+ " (" +:+ fmt_f3 env (confidence * 100.0)%float +:+ "%)".

Definition caseDescribe (chatId : Z) (fileUrl : string) : M (string * bool) :=
  emit (EvVision (CvDescribeImage fileUrl 0));;
  match cv_DescribeImage env fileUrl with
  | inl described =>
      let captions :=
        (fun c => confidenceLine (CaptionText c) (CaptionConfidence c)) <$> Captions described in
      let message :=
        GoString.Join captions LF +:+ LF +:+ LF +:+
        "(" +:+ GoString.Join (DescriptionTags described) ", " +:+ ")" in
      sendText chatId message "Failed to send described text: "
        "Could not describe given image."
  | inr err => mret ("Failed to describe image: " +:+ err, false)
  end.

Definition caseOcr (chatId : Z) (fileUrl : string) : M (string * bool) :=
  emit (EvVision (CvOcr fileUrl "unk" true));;
  match cv_Ocr env fileUrl with
  | inl regions =>
      let words := concat (concat regions) in
      let message := GoString.Join words " " +:+ LF in
      sendText chatId message "Failed to send recognized text: "
        "Could not recognize any text from given image."
  | inr err => mret ("Failed to recognize text: " +:+ err, false)
  end.

Definition caseHandwritten (chatId : Z) (fileUrl : string) : M (string * bool) :=
  emit (EvVision (CvRecognizeHandwritten fileUrl true));;
  match cv_RecognizeHandwritten env fileUrl with
  | inl lines =>
      let message := GoString.Join lines " " in
      sendText chatId message "Failed to send recognized text: "
        "Could not recognize any text from given image."
  | inr err => mret ("Failed to recognize handwritten text: " +:+ err, false)
  end.

Definition caseTag (chatId : Z) (fileUrl : string) : M (string * bool) :=
  emit (EvVision (CvTagImage fileUrl));;
  match cv_TagImage env fileUrl with
  | inl recognized =>
      let tags := (fun t => confidenceLine (TagName t) (TagConfidence t)) <$> recognized in
      let message := GoString.Join tags LF in
      sendText chatId message "Failed to send tags: " "Could not tag given image."
  | inr err => mret ("Failed to tag image: " +:+ err, false)
  end.

(** [processImage]: the task started by [go processImage(...)]. *)
Definition processImage (chatId messageIdToDelete : Z) (fileUrl : string)
    (command : CognitiveCommand) : M unit :=
  emit (EvSendChatAction chatId ChatActionTyping);;
  '(errorMessage, opened) ←
    (if String.eqb command Emotion then caseEmotion chatId fileUrl command
     else if String.eqb command Face || String.eqb command CensorEyes
             || String.eqb command MaskFaces then caseFaces chatId fileUrl command
     else if String.eqb command Describe then caseDescribe chatId fileUrl
     else if String.eqb command Ocr then caseOcr chatId fileUrl
     else if String.eqb command Handwritten then caseHandwritten chatId fileUrl
     else if String.eqb command Tag then caseTag chatId fileUrl
     else mret ("Command not supported: " +:+ command, false));
  emit (EvDeleteMessage chatId messageIdToDelete);;
  (if negb (String.eqb errorMessage "") then
     emit (EvSendMessage chatId errorMessage ∅);;
     logError errorMessage
   else mret tt);;
  if opened : bool then emit EvBodyClose else mret tt.

(** The handler that [main] gives to the client library. *)
Definition handleUpdate (update : Update) (err : option string) : M unit :=
  match err with
  | None =>
      if HasMessage update then processUpdate update ;; mret tt
      else if HasCallbackQuery update then processCallbackQuery update ;; mret tt
      else logError "Update not processable"
  | Some e => logError ("Error while receiving update (" +:+ e +:+ ")")
  end.

End Bot.

(** ** [init] (main file) *)

Record Config : Type := mkConfig {
  TelegramAPIToken : string;
  TelegramMonitorIntervalSeconds : Z;
  MsEmotionSubscriptionKey : string;
  MsComputervisionSubscriptionKey : string;
  MsFaceSubscriptionKey : string;
  LogglyToken : string;
  IsVerbose : bool
}.

Definition configFilename : string := "config.json".
Definition fontFilepath : string := "fonts/RobotoCondensed-Regular.ttf".

(** The files and parsers [init] depends on; [Font] is the parsed font. *)
Record InitEnv (Font : Type) : Type := mkInitEnv {
  ioutil_ReadFile : string → string + string;
  json_Unmarshal : string → Config + string;
  truetype_Parse : string → Font + string
}.
Arguments ioutil_ReadFile {Font}.
Arguments json_Unmarshal {Font}.
Arguments truetype_Parse {Font}.

(** The package-level variables [init] sets. *)
Record Globals (Font : Type) : Type := mkGlobals {
  conf : Config;
  globalTables : Tables;
  hasLogger : bool;
  font : Font
}.
Arguments mkGlobals {Font}.
Arguments conf {Font}.
Arguments globalTables {Font}.
Arguments hasLogger {Font}.
Arguments font {Font}.

Definition checkInterval (c : Config) : Config :=
  if (TelegramMonitorIntervalSeconds c <=? 0)%Z then
    mkConfig (TelegramAPIToken c) 1 (MsEmotionSubscriptionKey c)
      (MsComputervisionSubscriptionKey c) (MsFaceSubscriptionKey c)
      (LogglyToken c) (IsVerbose c)
  else c.

(** [init], over the list of commands it registers ([allCmds] in the
    program). *)
Definition initWith {Font} (cmds : list CognitiveCommand) (ienv : InitEnv Font)
    : outcome (Globals Font) :=
  match ioutil_ReadFile ienv configFilename with
  | inr err => Panic err
  | inl file =>
      match json_Unmarshal ienv file with
      | inr err => Panic err
      | inl c =>
          let c := checkInterval c in
          t ← registerCmds emptyTables cmds;
          let logger := negb (String.eqb (LogglyToken c) "") in
          match ioutil_ReadFile ienv fontFilepath with
          | inl bytes =>
              match truetype_Parse ienv bytes with
              | inl f => Ok (mkGlobals c t logger f)
              | inr err => Panic err
              end
          | inr err => Panic err
          end
      end
  end.

Definition init {Font} (ienv : InitEnv Font) : outcome (Globals Font) :=
  initWith allCmds ienv.

(** The lookup tables as [init] leaves them. *)
Definition initTables : Tables :=
  match registerCmds emptyTables allCmds with
  | Ok t => t
  | Panic _ => emptyTables
  end.

(** The code of a command label: [string(string(c)[0])]. *)
Definition codeOf (c : CognitiveCommand) : outcome string :=
  b ← GoString.index0 c; mret (GoString.of_byte b).

(** Two commands of a list get the same code. *)
Fixpoint codesCollide (cmds : list CognitiveCommand) : bool :=
  match cmds with
  | [] => false
  | c :: rest =>
      existsb (fun c' =>
                 match codeOf c, codeOf c' with
                 | Ok k, Ok k' => String.eqb k k'
                 | _, _ => false
                 end) rest
      || codesCollide rest
  end.

(** A reference starts with a registered code: its first byte, as a
    string, is a key of [cmdsMap]. *)
Definition startsWithCode (t : Tables) (ref : string) : bool :=
  match ref with
  | EmptyString => false
  | String b _ => bool_decide (is_Some (cmdsMap t !! GoString.of_byte b))
  end.

(** An [init] environment in which both files are read and parsed. *)
Definition sampleConfig : Config :=
  mkConfig "0123456789:token" 1 "key-emotion" "key-cv" "key-face" "" false.
Definition sampleInitEnv : InitEnv unit :=
  mkInitEnv unit (fun _ => inl "bytes") (fun _ => inl sampleConfig) (fun _ => inl tt).

(** ** Orderings on traces and sample collaborators *)

(** Every event that satisfies [Q] comes after some event that satisfies
    [P]; [seen] tells whether a [P] event was met already. *)
Fixpoint precededBy (P Q : Event → bool) (seen : bool) (tr : list Event) : bool :=
  match tr with
  | [] => true
  | e :: rest => (if Q e then seen else true) && precededBy P Q (seen || P e) rest
  end.

(** The acknowledgment of a selection is not delivered: answering the query
    or editing the prompt fails. *)
Definition ackFailed (env : Env) (query : CallbackQuery) (qmsg : Message)
    (message : string) : bool :=
  negb (ResOk (bot_AnswerCallbackQuery env (QueryId query)))
  || negb (ResOk (bot_EditMessageText env message (editOptions qmsg))).

(** The user name that [processCallbackQuery] logs. *)
Definition requestUser (query : CallbackQuery) : string :=
  match Username (From query) with
  | None => FirstName (From query)
  | Some u => u
  end.

Definition processingMessage (command : CognitiveCommand) : string :=
  "Processing '" +:+ command +:+ "' on received image...".

(** Truncation of a binary64 value to an integer. *)
Definition truncate (x : float) : Z :=
  match Prim2SF x with
  | S754_finite s m e =>
      let v := if (0 <=? e)%Z then (Z.pos m * 2 ^ e)%Z else (Z.pos m / 2 ^ (- e))%Z in
      if s then (- v)%Z else v
  | _ => 0%Z
  end.

(** A sample [math]: IEEE square root and absolute value, the square for
    the power (every call has the exponent 2), the larger argument for the
    maximum. *)
Definition sampleMath : Math :=
  mkMath PrimFloat.sqrt (fun x _ => (x * x)%float)
         (fun x y => if (x <? y)%float then y else x) PrimFloat.abs.

Definition samplePoints (l : list (string * (float * float))) : gmap string Point :=
  list_to_map ((fun kv => (kv.1, mkPoint kv.2.1 kv.2.2)) <$> l).

(** A face with every landmark that [helper.go] asks for. *)
Definition sampleFace : DetectedFace :=
  mkDetectedFace (mkRectangle 100 80 96 120)
    (samplePoints
       [ ("noseTip", (148, 140)); ("pupilRight", (170, 118)); ("pupilLeft", (126, 120));
         ("mouthRight", (166, 168)); ("mouthLeft", (130, 170));
         ("eyeLeftTop", (126, 114)); ("eyeLeftBottom", (126, 124));
         ("eyeLeftOuter", (112, 120));
         ("eyeRightTop", (170, 113)); ("eyeRightBottom", (170, 122));
         ("eyeRightOuter", (184, 118)) ]%float)
    (mkFaceAttributes ∅ ∅ ∅).

(** The same face without its left mouth corner. *)
Definition samplePartialFace : DetectedFace :=
  mkDetectedFace (mkRectangle 10 20 7 9)
    (delete "mouthLeft" (FaceLandmarks sampleFace))
    (mkFaceAttributes ∅ ∅ ∅).

(** Sample collaborators: every file is found; answering the callback query
    and editing the prompt succeed as [answerOk] and [editOk] tell; the face
    service detects [faces]. *)
Definition sampleEnv (answerOk editOk : bool) (faces : list DetectedFace) : Env :=
  {| bot_SendMessage := fun _ _ _ =>
       mkApiResultMessage true None (Some (mkMessage 44 (mkChat 7) [] None None));
     bot_GetFile := fun fileId => mkApiResultFile true None (Some (mkFile fileId));
     bot_GetFileUrl := fun f => "https://api.telegram.org/file/bot/" +:+ FilePath f;
     bot_AnswerCallbackQuery := fun _ =>
       mkApiResult answerOk (if answerOk then None else Some "query is too old");
     bot_EditMessageText := fun _ _ =>
       mkApiResult editOk (if editOk then None else Some "message not found");
     bot_SendPhotoWithBytes := fun _ _ _ =>
       mkApiResultMessage true None (Some (mkMessage 43 (mkChat 7) [] None None));
     emotion_RecognizeImage := fun _ => inr "unavailable";
     face_Detect := fun _ => inl faces;
     cv_DescribeImage := fun _ => inr "unavailable";
     cv_Ocr := fun _ => inl [[["Hello"; "world"]]];
     cv_RecognizeHandwritten := fun _ => inl [];
     cv_TagImage := fun _ => inr "unavailable";
     http_Get := fun _ => inl "jpeg-bytes";
     image_Decode := fun _ => inl (mkImage 400 300);
     jpeg_Encode := fun _ _ => inl "annotated-jpeg-bytes";
     ft_DrawString := fun _ _ _ => None;
     ft_PointToFixed := fun x => truncate (x * 72 * (64 / 72))%float;
     env_math := sampleMath;
     fmt_f3 := fun _ => "0.000";
     fmt_f2 := fun _ => "0.00";
     fmt_query := fun q => "{Id:" +:+ QueryId q +:+ "}" |}.

Definition samplePrompt : Message :=
  mkMessage 42 (mkChat 7) [] None (Some MessageActionImage).

(** A press on a button that carries [data]. *)
Definition sampleSelection (data : string) : Update :=
  mkUpdate None
    (Some (mkCallbackQuery "q1" (mkUser (Some "alice") "Alice") (Some samplePrompt)
             (Some data))).

(** An event that is neither a file fetch, nor the start of a task, nor a
    call to a vision service. *)
Definition quiet (e : Event) : Prop :=
  is_go e = false ∧ is_get_file e = false ∧ is_vision e = false.

(** The events that follow the file fetch in [selectReply]: no second fetch,
    no vision call, and a task only for the command of the code byte. *)
Definition afterFetch (command : CognitiveCommand) (e : Event) : Prop :=
  is_get_file e = false ∧ is_vision e = false
  ∧ ∀ c mid u cmd, e = EvGo c mid u cmd → cmd = command.

(** ** The mask geometry in the words of the specification

    A second definition of the four corners, worded after the specification
    and compared with [genMaskPoints] below. *)
Inductive Eye : Type := LeftEye | RightEye.

Section MaskSpec.
Variable math : Math.
Local Open Scope float_scope.

(** The Euclidean distance between two points. *)
Definition distance (p q : Point) : float :=
  Sqrt math (Pow math (X p - X q) 2.0 + Pow math (Y p - Y q) 2.0).

(** The maximum absolute horizontal (vertical) offset of the top and bottom
    points of an eye from its outer point. *)
Definition maxOffsetX (top bottom outer : Point) : float :=
  Max math (Abs math (X top - X outer)) (Abs math (X bottom - X outer)).
Definition maxOffsetY (top bottom outer : Point) : float :=
  Max math (Abs math (Y top - Y outer)) (Abs math (Y bottom - Y outer)).

(** The four corners, with [eye] as the reference eye. *)
Definition maskCorners_spec (eye : Eye) (lt lb lo rt rb ro : Point)
    : Point * Point * Point * Point :=
  let lEyeHeight := distance lt lb in
  let rEyeHeight := distance rt rb in
  let eyesWidth := distance lo ro in
  let marginX := 0.2 * eyesWidth in
  let marginY := 0.3 * Max math lEyeHeight rEyeHeight in
  let dX :=
    match eye with
    | LeftEye => maxOffsetX lt lb lo + marginX
    | RightEye => maxOffsetX rt rb ro + marginX
    end in
  let dY :=
    match eye with
    | LeftEye => maxOffsetY lt lb lo + marginY
    | RightEye => maxOffsetY rt rb ro + marginY
    end in
  (mkPoint (X lt - dX) (Y lt - dY),
   mkPoint (X lb - dX) (Y lb + dY),
   mkPoint (X rb + dX) (Y rb + dY),
   mkPoint (X rt + dX) (Y rt - dY)).

(** [eye] has the larger height: the other eye is not higher. *)
Definition largerEye (lEyeHeight rEyeHeight : float) (eye : Eye) : Prop :=
  match eye with
  | LeftEye => (lEyeHeight <? rEyeHeight) = false
  | RightEye => (rEyeHeight <? lEyeHeight) = false
  end.

(** The eye [genMaskPoints] takes: the left one when it is strictly higher. *)
Definition referenceEye (lEyeHeight rEyeHeight : float) : Eye :=
  if rEyeHeight <? lEyeHeight then LeftEye else RightEye.

End MaskSpec.

(** A computation only extends the trace it is given. *)
Definition extends {A} (m : M A) : Prop :=
  ∀ tr, ∃ evs, (m tr).2 = (tr ++ evs)%list.

(** The call that [processImage] makes for a registered command. *)
Definition visionCallOf (command : CognitiveCommand) (fileUrl : string) : VisionCall :=
  if String.eqb command Emotion then EmotionRecognizeImage fileUrl
  else if String.eqb command Describe then CvDescribeImage fileUrl 0
  else if String.eqb command Ocr then CvOcr fileUrl "unk" true
  else if String.eqb command Handwritten then CvRecognizeHandwritten fileUrl true
  else if String.eqb command Tag then CvTagImage fileUrl
  else FaceDetect fileUrl true true faceAttributeNames.

(** ** Definitions for the further properties *)

(** The options of a reply without keyboard. *)
Definition replyOptions (msg : Message) : Options :=
  {[ "reply_to_message_id" := OptInt (MessageId msg) ]}.

(** The message has no image: no photo, and no document or a document whose
    MIME type does not start with "image/". *)
Definition noImage (msg : Message) : Prop :=
  Photo msg = []
  ∧ (MsgDocument msg = None
     ∨ ∃ doc mime, MsgDocument msg = Some doc ∧ MimeType doc = Some mime
                   ∧ GoString.HasPrefix mime "image/" = false).

(** The error of the vision service that [processImage] calls for a
    command, when that call fails. *)
Definition serviceError (env : Env) (command : CognitiveCommand) (fileUrl : string)
    : option string :=
  let err {A} (r : A + string) := match r with inl _ => None | inr e => Some e end in
  if String.eqb command Emotion then err (emotion_RecognizeImage env fileUrl)
  else if String.eqb command Describe then err (cv_DescribeImage env fileUrl)
  else if String.eqb command Ocr then err (cv_Ocr env fileUrl)
  else if String.eqb command Handwritten then err (cv_RecognizeHandwritten env fileUrl)
  else if String.eqb command Tag then err (cv_TagImage env fileUrl)
  else err (face_Detect env fileUrl).

(** The text that precedes the error of the service in the reply. *)
Definition failureNotice (command : CognitiveCommand) : string :=
  if String.eqb command Emotion then "Failed to recognize emotion: "
  else if String.eqb command Describe then "Failed to describe image: "
  else if String.eqb command Ocr then "Failed to recognize text: "
  else if String.eqb command Handwritten then "Failed to recognize handwritten text: "
  else if String.eqb command Tag then "Failed to tag image: "
  else "Failed to detect faces: ".

(** The notice for a detection that finds nothing. *)
Definition nothingNotice (command : CognitiveCommand) : string :=
  if String.eqb command Emotion then "No emotion recognized on this image."
  else "No face detected on this image.".

(** The service of a detecting command answers with an empty list. *)
Definition detectsNothing (env : Env) (command : CognitiveCommand) (fileUrl : string) : Prop :=
  (command = Emotion ∧ emotion_RecognizeImage env fileUrl = inl [])
  ∨ (command ∈ [Face; CensorEyes; MaskFaces] ∧ face_Detect env fileUrl = inl []).

(** A byte that is ASCII and not white space, and a text with such a byte. *)
Definition visible (c : ascii) : bool :=
  (N_of_ascii c <? 128)%N && negb (GoString.IsSpace (N_of_ascii c)).
Fixpoint has_visible (s : string) : bool :=
  match s with
  | EmptyString => false
  | String c s' => visible c || has_visible s'
  end.

(** The message of the describe case. *)
Definition describeMessage (env : Env) (d : Described) : string :=
  GoString.Join
    ((fun c => confidenceLine env (CaptionText c) (CaptionConfidence c)) <$> Captions d) LF
  +:+ LF +:+ LF +:+ "(" +:+ GoString.Join (DescriptionTags d) ", " +:+ ")".

(** The notice for a recognition that yields no text. *)
Definition blankNotice (command : CognitiveCommand) : string :=
  if String.eqb command Tag then "Could not tag given image."
  else "Could not recognize any text from given image.".

(** The service of a text command succeeds with nothing but white space. *)
Definition recognizesNothing (env : Env) (command : CognitiveCommand) (fileUrl : string)
    : Prop :=
  (command = Ocr
   ∧ ∃ regions, cv_Ocr env fileUrl = inl regions
       ∧ GoString.has_non_space (GoString.Join (concat (concat regions)) " ") = false)
  ∨ (command = Handwritten
     ∧ ∃ lines, cv_RecognizeHandwritten env fileUrl = inl lines
         ∧ GoString.has_non_space (GoString.Join lines " ") = false)
  ∨ (command = Tag ∧ cv_TagImage env fileUrl = inl []).

(** A computation extends the trace by events that satisfy [P] only. *)
Definition emitsOnly (P : Event → bool) {A} (m : M A) : Prop :=
  ∀ tr, ∃ evs, (m tr).2 = (tr ++ evs)%list ∧ forallb P evs = true.

(** What the task of [processImage] may do in the chat [chatId] before it
    deletes the prompt: call a vision service, open the image, draw, announce
    an action, send a photo or a message to that chat, log. *)
Definition taskEvent (chatId : Z) (e : Event) : bool :=
  match e with
  | EvVision _ | EvHttpGet _ | EvDraw _ | EvLogPrintln _ | EvLoggly _ => true
  | EvSendChatAction c _ | EvSendPhotoWithBytes c _ _ | EvSendMessage c _ _ => Z.eqb c chatId
  | _ => false
  end.

(** The same, with the deletion of the prompt [mid] and the closing of the
    response body. *)
Definition taskOrEndEvent (chatId mid : Z) (e : Event) : bool :=
  match e with
  | EvDeleteMessage c m => Z.eqb c chatId && Z.eqb m mid
  | EvBodyClose => true
  | _ => taskEvent chatId e
  end.

(** The [switch] of [processImage]. *)
Definition dispatchCase (logger : bool) (env : Env) (chatId : Z) (fileUrl : string)
    (command : CognitiveCommand) : M (string * bool) :=
  if String.eqb command Emotion then caseEmotion logger env chatId fileUrl command
  else if String.eqb command Face || String.eqb command CensorEyes
          || String.eqb command MaskFaces then caseFaces logger env chatId fileUrl command
  else if String.eqb command Describe then caseDescribe env chatId fileUrl
  else if String.eqb command Ocr then caseOcr env chatId fileUrl
  else if String.eqb command Handwritten then caseHandwritten env chatId fileUrl
  else if String.eqb command Tag then caseTag env chatId fileUrl
  else mret ("Command not supported: " +:+ command, false).

(** What [processImage] does after the [switch]. *)
Definition endEvents (logger : bool) (chatId mid : Z) (errorMessage : string)
    (opened : bool) : list Event :=
  (EvDeleteMessage chatId mid
     :: (if String.eqb errorMessage "" then []
         else EvSendMessage chatId errorMessage ∅ :: trace_of (logError logger errorMessage))
     ++ (if opened then [EvBodyClose] else []))%list.

(** What the censor and the face-mask command draw for one face. *)
Definition overlay (env : Env) (command : CognitiveCommand) (f : DetectedFace) : list Draw :=
  if String.eqb command CensorEyes then
    if hasAllKeys eyeKeys (FaceLandmarks f) then eyeMask env (FaceLandmarks f) else []
  else if String.eqb command MaskFaces then pixelateFace (FaceRectangle f)
  else [].

(** The canvas of these two commands, as it is encoded. *)
Definition overlayCanvas (env : Env) (command : CognitiveCommand) (img : Image)
    (faces : list DetectedFace) : list Draw :=
  ([NewCanvas (Dx img) (Dy img); GcSetLineWidth StrokeWidth; GcSetFillColor Transparent]
     ++ concat (overlay env command <$> faces) ++ [GcSave])%list.

(** The events of the face-detection case for the face of index [i]. *)
Definition faceEvents (logger : bool) (env : Env) (img : Image) (i : Z) (f : DetectedFace)
    : list Event :=
  trace_of (annotateFace logger env Face img i f []).

(** The line of scores of one recognized face. *)
Definition scoreLines (env : Env) (e : RecognizedEmotion) : string :=
  GoString.Join (percentLine env <$> map_to_list (Scores e)) LF.

(** The events of the emotion case for the face of index [i]. *)
Definition emotionEvents (logger : bool) (env : Env) (fontSize : float) (i : Z)
    (e : RecognizedEmotion) : list Event :=
  trace_of (annotateEmotion logger env fontSize i e []).

(** The report of the emotion case. *)
Definition emotionMessage (env : Env) (emotions : list RecognizedEmotion) : string :=
  GoString.Join
    (emotionSection <$> imap (fun i e => (Z.of_nat i, e)) (scoreLines env <$> emotions))
    (LF +:+ LF).

(** What the emotion case draws and logs before it encodes the image. *)
Definition emotionCanvas (logger : bool) (env : Env) (img : Image)
    (emotions : list RecognizedEmotion) : list Event :=
  let fontSize := (GoInt.to_float64 (Dy img) / 24.0)%float in
  ((EvDraw <$> [ NewCanvas (Dx img) (Dy img); GcSetLineWidth StrokeWidth;
                 GcSetFillColor Transparent; FcNewContext 72%float fontSize ])
     ++ concat (imap (fun k e => emotionEvents logger env fontSize (Z.of_nat k) e) emotions)
     ++ [EvDraw GcSave])%list.

(** Neither a message nor a photo is sent. *)
Definition sendsNothing (tr : list Event) : Prop :=
  ∀ e, e ∈ tr →
    match e with
    | EvSendMessage _ _ _ | EvSendPhotoWithBytes _ _ _ => False
    | _ => True
    end.

Definition drawOrLog (e : Event) : bool :=
  match e with
  | EvDraw _ | EvLogPrintln _ | EvLoggly _ => true
  | _ => false
  end.

(** An event of [processUpdate] for the message [msg]: a message sent to its
    chat in reply to it, or a log entry. *)
Definition replyEvent (msg : Message) (e : Event) : Prop :=
  match e with
  | EvSendMessage c _ options =>
      c = ChatId (MsgChat msg)
      ∧ options !! "reply_to_message_id" = Some (OptInt (MessageId msg))
  | EvLogPrintln _ | EvLoggly _ => True
  | _ => False
  end.

(** ** More sample values *)

(** The lookup tables that the loop of [init] builds for [cmds]. *)
Definition tablesOf (cmds : list CognitiveCommand) : Tables :=
  match registerCmds emptyTables cmds with
  | Ok t => t
  | Panic _ => emptyTables
  end.

(** A label whose first byte is not ASCII: [Émotions] in UTF-8. *)
Definition sampleNonAsciiLabel : CognitiveCommand :=
  String (ascii_of_N 195) (String (ascii_of_N 137) "motions").

Definition sampleText : Message :=
  mkMessage 41 (mkChat 7) [] None (Some "hello").
Definition sampleImageDocument : Message :=
  mkMessage 41 (mkChat 7) [] (Some (mkDocument "doc-1" (Some "image/png"))) None.
Definition sampleUntypedDocument : Message :=
  mkMessage 41 (mkChat 7) [] (Some (mkDocument "doc-2" None)) None.

Definition sampleEmotion : RecognizedEmotion :=
  mkRecognizedEmotion (mkRectangle 100 80 96 120) {[ "happiness" := 0.75%float ]}.
Definition sampleDescribed : Described :=
  mkDescribed [mkCaption "a cat on a sofa" 0.75%float] ["cat"; "indoor"].

(** [env] with another answer of one collaborator. *)
Definition withGetFile (r : ApiResultFile) (env : Env) : Env :=
  mkEnv (bot_SendMessage env) (fun _ => r) (bot_GetFileUrl env)
    (bot_AnswerCallbackQuery env) (bot_EditMessageText env) (bot_SendPhotoWithBytes env)
    (emotion_RecognizeImage env) (face_Detect env) (cv_DescribeImage env) (cv_Ocr env)
    (cv_RecognizeHandwritten env) (cv_TagImage env) (http_Get env) (image_Decode env)
    (jpeg_Encode env) (ft_DrawString env) (ft_PointToFixed env) (env_math env)
    (fmt_f3 env) (fmt_f2 env) (fmt_query env).
Definition withEmotions (r : list RecognizedEmotion + string) (env : Env) : Env :=
  mkEnv (bot_SendMessage env) (bot_GetFile env) (bot_GetFileUrl env)
    (bot_AnswerCallbackQuery env) (bot_EditMessageText env) (bot_SendPhotoWithBytes env)
    (fun _ => r) (face_Detect env) (cv_DescribeImage env) (cv_Ocr env)
    (cv_RecognizeHandwritten env) (cv_TagImage env) (http_Get env) (image_Decode env)
    (jpeg_Encode env) (ft_DrawString env) (ft_PointToFixed env) (env_math env)
    (fmt_f3 env) (fmt_f2 env) (fmt_query env).
Definition withDescribed (r : Described + string) (env : Env) : Env :=
  mkEnv (bot_SendMessage env) (bot_GetFile env) (bot_GetFileUrl env)
    (bot_AnswerCallbackQuery env) (bot_EditMessageText env) (bot_SendPhotoWithBytes env)
    (emotion_RecognizeImage env) (face_Detect env) (fun _ => r) (cv_Ocr env)
    (cv_RecognizeHandwritten env) (cv_TagImage env) (http_Get env) (image_Decode env)
    (jpeg_Encode env) (ft_DrawString env) (ft_PointToFixed env) (env_math env)
    (fmt_f3 env) (fmt_f2 env) (fmt_query env).
Definition withEncode (r : string + string) (env : Env) : Env :=
  mkEnv (bot_SendMessage env) (bot_GetFile env) (bot_GetFileUrl env)
    (bot_AnswerCallbackQuery env) (bot_EditMessageText env) (bot_SendPhotoWithBytes env)
    (emotion_RecognizeImage env) (face_Detect env) (cv_DescribeImage env) (cv_Ocr env)
    (cv_RecognizeHandwritten env) (cv_TagImage env) (http_Get env) (image_Decode env)
    (fun _ _ => r) (ft_DrawString env) (ft_PointToFixed env) (env_math env)
    (fmt_f3 env) (fmt_f2 env) (fmt_query env).

(** Every event but the opening of the image. *)
Definition notHttpGet (e : Event) : bool :=
  match e with EvHttpGet _ => false | _ => true end.

(** A case of [processImage] that, when it returns, tells [b] about the
    response body. *)
Definition returnsFlag (b : bool) (m : M (string * bool)) : Prop :=
  ∀ tr r tr', m tr = (Ok r, tr') → r.2 = b.

(** A log line or a Loggly entry. *)
Definition logEvent (e : Event) : Prop :=
  match e with
  | EvLogPrintln _ | EvLoggly _ => True
  | _ => False
  end.

(** An update the handler of [main] cannot use: the client library reports
    an error, or the update has neither message nor callback query. *)
Definition unusable (u : Update) (err : option string) : Prop :=
  err ≠ None ∨ (UpdMessage u = None ∧ UpdCallbackQuery u = None).

(** The no-break space U+00A0, in UTF-8. *)
Definition sampleNoBreakSpace : string :=
  String (ascii_of_N 0xC2) (String (ascii_of_N 0xA0) EmptyString).

Definition withHandwritten (r : list string + string) (env : Env) : Env :=
  mkEnv (bot_SendMessage env) (bot_GetFile env) (bot_GetFileUrl env)
    (bot_AnswerCallbackQuery env) (bot_EditMessageText env) (bot_SendPhotoWithBytes env)
    (emotion_RecognizeImage env) (face_Detect env) (cv_DescribeImage env) (cv_Ocr env)
    (fun _ => r) (cv_TagImage env) (http_Get env) (image_Decode env)
    (jpeg_Encode env) (ft_DrawString env) (ft_PointToFixed env) (env_math env)
    (fmt_f3 env) (fmt_f2 env) (fmt_query env).

(** * Properties *)

(** ** The command table and the dispatch token *)

Lemma registerCmds_allCmds : registerCmds emptyTables allCmds = Ok initTables.
Proof. reflexivity. Qed.

Lemma shortCmdsMap_initTables :
  lookupStr (shortCmdsMap initTables) <$> allCmds = ["E"; "F"; "D"; "O"; "H"; "T"; "C"; "M"].
Proof. vm_compute. reflexivity. Qed.

Lemma allCmds_cases (P : CognitiveCommand → Prop) :
  P Emotion → P Face → P Describe → P Ocr → P Handwritten → P Tag →
  P CensorEyes → P MaskFaces → ∀ op, op ∈ allCmds → P op.
Proof.
  intros HE HF HD HO HH HT HC HM op Hop. unfold allCmds in Hop.
  repeat (apply elem_of_cons in Hop as [-> | Hop]; [assumption |]).
  by apply elem_of_nil in Hop.
Qed.

(** Case analysis on a registered command. *)
Ltac by_cmd op H := pattern op; revert op H; apply allCmds_cases.

Lemma decodeData_cons (t : Tables) (b : ascii) (rest : string) :
  decodeData t (String b rest)
  = Ok (lookupStr (cmdsMap t) (GoString.of_byte b), rest).
Proof. reflexivity. Qed.

Lemma decodeData_empty (t : Tables) : decodeData t "" = Panic index_out_of_range.
Proof. reflexivity. Qed.

(** The token of a registered command is its code byte followed by the
    reference, and the code byte is looked up to the command. *)
Lemma callbackData_code (op : CognitiveCommand) (ref : string) :
  op ∈ allCmds →
  ∃ b, callbackData initTables op ref = String b ref
       ∧ lookupStr (cmdsMap initTables) (GoString.of_byte b) = op.
Proof.
  intros Hop. by_cmd op Hop; eexists; split; vm_compute; reflexivity.
Qed.

Lemma callbackData_not_cancel (op : CognitiveCommand) (ref : string) :
  op ∈ allCmds → callbackData initTables op ref ≠ CommandCancel.
Proof.
  intros Hop. destruct (callbackData_code op ref Hop) as (b & -> & Hb).
  intros Heq. injection Heq as -> ->. revert Hb.
  by_cmd op Hop; vm_compute; discriminate.
Qed.

(** C1 (token round trip).  For every registered command [op] and every
    reference [ref] that does not begin with a registered code, taking apart
    the token [shortCmdsMap[op] ++ ref] the way [processCallbackQuery] does
    gives back [(op, ref)]; the token is a single code byte followed by
    [ref], the command is the table entry of that byte whatever follows it,
    and the token is never the cancel data. *)
Theorem token_round_trip (op : CognitiveCommand) (ref : string) :
  op ∈ allCmds →
  startsWithCode initTables ref = false →
  decodeData initTables (callbackData initTables op ref) = Ok (op, ref)
  ∧ (∃ b, callbackData initTables op ref = String b ref
          ∧ ∀ rest, decodeData initTables (String b rest) = Ok (op, rest))
  ∧ callbackData initTables op ref ≠ CommandCancel.
Proof.
  intros Hop _.
  destruct (callbackData_code op ref Hop) as (b & Htok & Hb).
  split; [| split].
  - by rewrite Htok, decodeData_cons, Hb.
  - exists b. split; [done |]. intros rest. by rewrite decodeData_cons, Hb.
  - by apply callbackData_not_cancel.
Qed.

Lemma token_round_trip_witness :
  decodeData initTables (callbackData initTables Face "AgADBAADq6cxG") = Ok (Face, "AgADBAADq6cxG").
Proof.
  apply (token_round_trip Face "AgADBAADq6cxG").
  - unfold allCmds. repeat constructor.
  - vm_compute. reflexivity.
Defined.

(** ** [init] and the uniqueness of the codes *)

Lemma registerCmd_cons (t : Tables) (b : ascii) (rest : string) :
  registerCmd t (String b rest)
  = Ok (mkTables (<[String b rest := GoString.of_byte b]> (shortCmdsMap t))
                 (<[GoString.of_byte b := String b rest]> (cmdsMap t))).
Proof. reflexivity. Qed.

Lemma codeOf_cons (b : ascii) (rest : string) :
  codeOf (String b rest) = Ok (GoString.of_byte b).
Proof. reflexivity. Qed.

Lemma registerCmds_app (t : Tables) (l1 l2 : list CognitiveCommand) :
  registerCmds t (l1 ++ l2)%list = (t' ← registerCmds t l1; registerCmds t' l2).
Proof.
  revert t. induction l1 as [| c l1 IH]; intros t; [reflexivity |].
  simpl. destruct (registerCmd t c) as [t1 | msg]; simpl; [apply IH | reflexivity].
Qed.

(** The loop never fails on labels that are not empty. *)
Lemma registerCmds_total (t : Tables) (cmds : list CognitiveCommand) :
  Forall (fun c => c ≠ "") cmds → ∃ t', registerCmds t cmds = Ok t'.
Proof.
  intros Hne. revert t. induction Hne as [| c cmds Hc _ IH]; intros t.
  - by exists t.
  - destruct c as [| b rest]; [done |]. simpl. apply IH.
Qed.

(** An entry of [cmdsMap] survives the commands with another code. *)
Lemma registerCmds_keeps (t t' : Tables) (cmds : list CognitiveCommand)
    (k : string) (c : CognitiveCommand) :
  registerCmds t cmds = Ok t' →
  cmdsMap t !! k = Some c →
  Forall (fun c' => codeOf c' ≠ Ok k) cmds →
  cmdsMap t' !! k = Some c.
Proof.
  intros Hrun Hk Hother. revert t Hrun Hk.
  induction Hother as [| c' cmds Hc' _ IH]; intros t Hrun Hk.
  - simpl in Hrun. by injection Hrun as <-.
  - destruct c' as [| b rest]; [discriminate |].
    simpl in Hrun. apply (IH _ Hrun). simpl.
    rewrite lookup_insert_ne; [done |].
    intros Heq. apply Hc'. by rewrite codeOf_cons, Heq.
Qed.

(** The last command with a given code owns the entry of that code. *)
Lemma registerCmds_last_wins (t t' : Tables) (cmds1 cmds2 : list CognitiveCommand)
    (c : CognitiveCommand) (k : string) :
  registerCmds t (cmds1 ++ c :: cmds2)%list = Ok t' →
  codeOf c = Ok k →
  Forall (fun c' => codeOf c' ≠ Ok k) cmds2 →
  cmdsMap t' !! k = Some c.
Proof.
  intros Hrun Hk Hother. rewrite registerCmds_app in Hrun.
  destruct (registerCmds t cmds1) as [t1 | msg]; [| discriminate].
  simpl in Hrun. destruct c as [| b rest]; [discriminate |].
  rewrite codeOf_cons in Hk. injection Hk as <-.
  simpl in Hrun. eapply registerCmds_keeps; [exact Hrun | | exact Hother].
  simpl. apply lookup_insert_eq.
Qed.

(** [init] returns whenever both files are read and parsed and the loop
    over the commands completes. *)
Lemma initWith_ok {Font} (cmds : list CognitiveCommand) (ienv : InitEnv Font)
    (t : Tables) (file bytes : string) (c : Config) (fnt : Font) :
  registerCmds emptyTables cmds = Ok t →
  ioutil_ReadFile ienv configFilename = inl file →
  json_Unmarshal ienv file = inl c →
  ioutil_ReadFile ienv fontFilepath = inl bytes →
  truetype_Parse ienv bytes = inl fnt →
  initWith cmds ienv
  = Ok (mkGlobals (checkInterval c) t
          (negb (String.eqb (LogglyToken (checkInterval c)) "")) fnt).
Proof.
  intros Hrun Hconf Hjson Hfont Hparse. unfold initWith.
  rewrite Hconf, Hjson, Hrun. simpl. by rewrite Hfont, Hparse.
Qed.

(** C3, as the code has it.  The codes of the eight commands are their first
    characters and are pairwise distinct; but [init] checks nothing: on any
    list of non-empty labels the loop completes, [init] returns whenever the
    configuration and the font load, and of the labels that share a first
    character the last one owns the entry of [cmdsMap]. *)
Theorem init_registers_without_check
    (cmds1 cmds2 : list CognitiveCommand) (c : CognitiveCommand) (k : string) :
  Forall (fun c' => c' ≠ "") (cmds1 ++ c :: cmds2)%list →
  codeOf c = Ok k →
  Forall (fun c' => codeOf c' ≠ Ok k) cmds2 →
  NoDup (lookupStr (shortCmdsMap initTables) <$> allCmds)
  ∧ Forall (fun op => codeOf op = Ok (lookupStr (shortCmdsMap initTables) op)) allCmds
  ∧ ∃ t', registerCmds emptyTables (cmds1 ++ c :: cmds2)%list = Ok t'
          ∧ cmdsMap t' !! k = Some c
          ∧ ∀ Font (ienv : InitEnv Font) file bytes conf fnt,
              ioutil_ReadFile ienv configFilename = inl file →
              json_Unmarshal ienv file = inl conf →
              ioutil_ReadFile ienv fontFilepath = inl bytes →
              truetype_Parse ienv bytes = inl fnt →
              initWith (cmds1 ++ c :: cmds2)%list ienv
              = Ok (mkGlobals (checkInterval conf) t'
                      (negb (String.eqb (LogglyToken (checkInterval conf)) "")) fnt).
Proof.
  intros Hne Hk Hother. split; [| split].
  - rewrite shortCmdsMap_initTables. apply (bool_decide_unpack _). vm_compute. reflexivity.
  - unfold allCmds. repeat constructor.
  - destruct (registerCmds_total emptyTables _ Hne) as [t' Hrun].
    exists t'. split; [done |]. split.
    + eapply registerCmds_last_wins; eauto.
    + intros Font ienv file bytes conf fnt. by apply initWith_ok.
Qed.

Lemma init_registers_without_check_witness :
  ∃ t', registerCmds emptyTables ([Emotion] ++ "Eye Censor" :: [Face])%list = Ok t'
        ∧ cmdsMap t' !! "E" = Some "Eye Censor".
Proof.
  destruct (init_registers_without_check [Emotion] [Face] "Eye Censor" "E")
    as (_ & _ & t' & Hrun & Hlast & _).
  - repeat constructor; discriminate.
  - reflexivity.
  - repeat constructor. vm_compute. discriminate.
  - exists t'. split; assumption.
Defined.

(** C3, as the claim has it, fails: a list in which two commands share the
    code [E] is registered and [init] returns. *)
Lemma init_accepts_colliding_codes :
  codesCollide [Emotion; "Eye Censor"] = true
  ∧ is_panic (initWith [Emotion; "Eye Censor"] sampleInitEnv) = false
  ∧ (∃ g, initWith [Emotion; "Eye Censor"] sampleInitEnv = Ok g
          ∧ lookupStr (cmdsMap (globalTables g)) "E" = "Eye Censor"
          ∧ lookupStr (shortCmdsMap (globalTables g)) Emotion = "E").
Proof.
  split; [reflexivity |]. split; [reflexivity |].
  eexists. split; [reflexivity |]. split; vm_compute; reflexivity.
Qed.

(** ** The empty token *)

(** C4, on the code: the empty data is not the cancel data, [data[0]] is out
    of range, and [processCallbackQuery] panics before it makes any call: no
    error result is returned and no message is prepared for the user. *)
Theorem empty_token_panics (tables : Tables) (logger : bool) (env : Env)
    (m : option Message) (id : string) (from : User) (qm : option Message) :
  decodeData tables "" = Panic index_out_of_range
  ∧ run (processCallbackQuery tables logger env
           (mkUpdate m (Some (mkCallbackQuery id from qm (Some "")))))
    = (Panic index_out_of_range, []).
Proof. split; reflexivity. Qed.

(** ** Running the effect monad *)

Ltac run_m :=
  repeat (progress (unfold mbind, mret, M_bind, M_ret, lift, emit, emits, draws, deref; cbn)).

Lemma logError_run (logger : bool) (msg : string) (tr : list Event) :
  logError logger msg tr = (Ok tt, (tr ++ trace_of (logError logger msg))%list).
Proof.
  unfold trace_of, run, logError. destruct logger; run_m; by rewrite <- ?app_assoc.
Qed.

Lemma logRequest_run (logger : bool) (u url c : string) (tr : list Event) :
  logRequest logger u url c tr = (Ok tt, (tr ++ trace_of (logRequest logger u url c))%list).
Proof.
  unfold trace_of, run, logRequest. destruct logger; run_m; by rewrite ?app_nil_r.
Qed.

Lemma answerAndEdit_run (logger : bool) (env : Env) (q : CallbackQuery)
    (msg : string) (tr : list Event) :
  answerAndEdit logger env q msg tr
  = (result_of (answerAndEdit logger env q msg),
     (tr ++ trace_of (answerAndEdit logger env q msg))%list).
Proof.
  unfold trace_of, result_of, run, answerAndEdit, logError. run_m.
  repeat (case_match; run_m; simplify_eq); rewrite <- ?app_assoc; reflexivity.
Qed.

Lemma answerAndEdit_quiet (logger : bool) (env : Env) (q : CallbackQuery) (msg : string) :
  Forall quiet (trace_of (answerAndEdit logger env q msg)).
Proof.
  unfold trace_of, run, answerAndEdit, logError. run_m.
  repeat (case_match; run_m; simplify_eq); repeat constructor.
Qed.

Lemma answerAndEdit_starts (logger : bool) (env : Env) (q : CallbackQuery) (msg : string) :
  ∃ tl, trace_of (answerAndEdit logger env q msg) = EvAnswerCallbackQuery (QueryId q) :: tl.
Proof.
  unfold trace_of, run, answerAndEdit, logError. run_m.
  repeat (case_match; run_m; simplify_eq); eexists; reflexivity.
Qed.

Lemma answerAndEdit_edits (logger : bool) (env : Env) (q : CallbackQuery) (msg : string)
    (t : string) (o : Options) :
  EvEditMessageText t o ∈ trace_of (answerAndEdit logger env q msg) →
  t = msg ∧ ResOk (bot_AnswerCallbackQuery env (QueryId q)) = true.
Proof.
  unfold trace_of, run, answerAndEdit, logError. run_m.
  repeat (case_match; run_m; simplify_eq); intros Hin;
    repeat (apply elem_of_cons in Hin as [Heq | Hin]; [by simplify_eq |]);
    by apply elem_of_nil in Hin.
Qed.


Lemma answerAndEdit_failed (logger : bool) (env : Env) (q : CallbackQuery)
    (qmsg : Message) (msg : string) :
  QueryMessage q = Some qmsg →
  ackFailed env q qmsg msg = true →
  (result_of (answerAndEdit logger env q msg) = Ok false
   ∧ existsb is_log (trace_of (answerAndEdit logger env q msg)) = true)
  ∨ result_of (answerAndEdit logger env q msg) = Panic nil_dereference.
Proof.
  intros Hq. unfold ackFailed, trace_of, result_of, run, answerAndEdit, logError. run_m.
  rewrite Hq. run_m.
  repeat (case_match; run_m; simplify_eq); intros Hf; try discriminate; auto.
Qed.

Lemma selectReply_launch (tables : Tables) (logger : bool) (env : Env) (q : CallbackQuery)
    (b : ascii) (rest : string) (file : File) (qmsg : Message) (text : string)
    (tr : list Event) :
  String b rest ≠ CommandCancel →
  FileOk (bot_GetFile env rest) = true →
  FileResult (bot_GetFile env rest) = Some file →
  QueryMessage q = Some qmsg →
  Text qmsg = Some text →
  GoString.Contains text "image" = true →
  let command := lookupStr (cmdsMap tables) (GoString.of_byte b) in
  let url := bot_GetFileUrl env file in
  selectReply tables logger env q (String b rest) tr
  = (Ok (processingMessage command),
     (tr ++ [EvGetFile rest; EvGo (ChatId (MsgChat qmsg)) (MessageId qmsg) url command]
         ++ trace_of (logRequest logger (requestUser q) url command))%list).
Proof.
  intros Hc Hok Hfile Hq Ht Himg command url. unfold selectReply.
  apply String.eqb_neq in Hc. rewrite Hc, decodeData_cons. run_m.
  rewrite Hok, Hfile, Hq, Ht, Himg. run_m. rewrite logRequest_run.
  by rewrite <- !app_assoc.
Qed.


Lemma processCallbackQuery_run (tables : Tables) (logger : bool) (env : Env)
    (m : option Message) (q : CallbackQuery) (data : string) :
  Data q = Some data →
  run (processCallbackQuery tables logger env (mkUpdate m (Some q)))
  = match selectReply tables logger env q data [] with
    | (Ok message, tr) => answerAndEdit logger env q message tr
    | (Panic msg, tr) => (Panic msg, tr)
    end.
Proof. intros Hd. unfold run, processCallbackQuery. run_m. by rewrite Hd. Qed.

(** ** Computations only extend the trace *)

Lemma extends_ret {A} (a : A) : extends (mret a : M A).
Proof. intros tr. exists []. by rewrite app_nil_r. Qed.

Lemma extends_lift {A} (o : outcome A) : extends (lift o).
Proof. intros tr. exists []. by rewrite app_nil_r. Qed.

Lemma extends_emit (e : Event) : extends (emit e).
Proof. intros tr. by exists [e]. Qed.

Lemma extends_emits (es : list Event) : extends (emits es).
Proof. intros tr. by exists es. Qed.

Lemma extends_draws (ds : list Draw) : extends (draws ds).
Proof. apply extends_emits. Qed.

Lemma extends_get_trace : extends get_trace.
Proof. intros tr. exists []. by rewrite app_nil_r. Qed.

Lemma extends_bind {A B} (m : M A) (f : A → M B) :
  extends m → (∀ a, extends (f a)) → extends (m ≫= f).
Proof.
  intros Hm Hf tr. unfold mbind, M_bind.
  destruct (Hm tr) as [evs Hevs]. destruct (m tr) as [[a | msg] tr']; simpl in Hevs; subst tr'.
  - destruct (Hf a (tr ++ evs)%list) as [evs' Hevs']. exists (evs ++ evs')%list.
    by rewrite Hevs', app_assoc.
  - by exists evs.
Qed.

Lemma extends_range_from {A S} (i : Z) (xs : list A) (acc : S) (body : Z → A → S → M S) :
  (∀ j x s, extends (body j x s)) → extends (range_from i xs acc body).
Proof.
  intros Hbody. revert i acc. induction xs as [| x xs IH]; intros i acc; simpl.
  - apply extends_ret.
  - apply extends_bind; [apply Hbody | intros acc'; apply IH].
Qed.

Lemma extends_logError (logger : bool) (msg : string) : extends (logError logger msg).
Proof.
  unfold logError. apply extends_bind; [apply extends_emit |].
  intros _. destruct logger; [apply extends_emit | apply extends_ret].
Qed.

Ltac extends_step :=
  first
    [ apply extends_ret | apply extends_lift | apply extends_emit | apply extends_emits
    | apply extends_draws | apply extends_get_trace | apply extends_logError
    | apply extends_bind; [| intros ?]
    | apply extends_range_from; intros ? ? ?
    | match goal with |- extends (match ?x with _ => _ end) => destruct x end
    | progress cbv zeta ].

Lemma extends_drawFaceLabel (logger : bool) (env : Env) (fs : float) (i : Z)
    (rect : Rectangle) : extends (drawFaceLabel logger env fs i rect).
Proof. unfold drawFaceLabel. repeat extends_step. Qed.

Lemma extends_annotateFace (logger : bool) (env : Env) (command : CognitiveCommand)
    (img : Image) (i : Z) (f : DetectedFace) (strs : list string) :
  extends (annotateFace logger env command img i f strs).
Proof. unfold annotateFace. repeat (extends_step || apply extends_drawFaceLabel). Qed.

Lemma extends_annotateEmotion (logger : bool) (env : Env) (fs : float) (i : Z)
    (emo : RecognizedEmotion) (emos : list string) :
  extends (annotateEmotion logger env fs i emo emos).
Proof. unfold annotateEmotion. repeat (extends_step || apply extends_drawFaceLabel). Qed.

Lemma extends_sendText (env : Env) (chatId : Z) (message failed blank : string) :
  extends (sendText env chatId message failed blank).
Proof. unfold sendText. repeat extends_step. Qed.

Lemma emit_emit_bind {A B} (e1 e2 : Event) (k : unit → M A) (k2 : A → M B) :
  extends (k tt) → (∀ a, extends (k2 a)) →
  ∃ tl, ((emit e1 ≫= λ _ : (), (emit e2 ≫= k) ≫= k2) []).2 = e1 :: e2 :: tl.
Proof.
  intros Hk Hk2.
  destruct (extends_bind (k tt) k2 Hk Hk2 [e1; e2]) as [evs Hevs].
  exists evs. exact Hevs.
Qed.

Lemma extends_processImage_tail (logger : bool) (chatId mid : Z) (r : string * bool) :
  extends (let '(errorMessage, opened) := r in
           emit (EvDeleteMessage chatId mid) ≫= λ _ : (),
             (if negb (String.eqb errorMessage "")
              then emit (EvSendMessage chatId errorMessage ∅) ≫= λ _ : (), logError logger errorMessage
              else mret ()) ≫= λ _ : (), if opened then emit EvBodyClose else mret ()).
Proof. destruct r as [errorMessage opened]. repeat extends_step. Qed.

(** The first act of the task of a registered command, after the chat
    action, is the call to its vision service. *)
Lemma processImage_calls_vision (logger : bool) (env : Env) (chatId mid : Z)
    (fileUrl : string) (op : CognitiveCommand) :
  op ∈ allCmds →
  ∃ tl, trace_of (processImage logger env chatId mid fileUrl op)
        = EvSendChatAction chatId ChatActionTyping
            :: EvVision (visionCallOf op fileUrl) :: tl.
Proof.
  intros Hop. unfold trace_of, run.
  by_cmd op Hop;
    (unfold processImage, visionCallOf; simpl (String.eqb _ _); cbv iota;
     simpl orb; cbv iota;
     unfold caseEmotion, caseFaces, caseDescribe, caseOcr, caseHandwritten, caseTag;
     apply emit_emit_bind;
     [ unfold range;
       repeat (extends_step || apply extends_annotateFace || apply extends_annotateEmotion
               || apply extends_sendText)
     | intros r; apply extends_processImage_tail ]).
Qed.

(** C2, as the code has it.  For a selection that carries the token of a
    registered command, with the file found and a prompt that contains
    "image": the file is fetched first, then the task is started with
    [go processImage], and only then is the callback query answered and the
    prompt replaced by the acknowledgment; nothing after the start fetches,
    starts or analyses anything.  When the acknowledgment fails the handler
    logs and returns [false] (or panics on a missing description), with the
    fetch and the start already done; and the first act of the started task,
    after its chat action, is the call to the vision service of the
    command. *)
Theorem task_started_before_acknowledgment (logger : bool) (env : Env)
    (m : option Message) (q : CallbackQuery) (op : CognitiveCommand) (ref : string)
    (file : File) (qmsg : Message) (text : string) :
  op ∈ allCmds →
  Data q = Some (callbackData initTables op ref) →
  FileOk (bot_GetFile env ref) = true →
  FileResult (bot_GetFile env ref) = Some file →
  QueryMessage q = Some qmsg →
  Text qmsg = Some text →
  GoString.Contains text "image" = true →
  let url := bot_GetFileUrl env file in
  let ack := answerAndEdit logger env q (processingMessage op) in
  let handler := processCallbackQuery initTables logger env (mkUpdate m (Some q)) in
  trace_of handler
  = ([EvGetFile ref; EvGo (ChatId (MsgChat qmsg)) (MessageId qmsg) url op]
       ++ trace_of (logRequest logger (requestUser q) url op) ++ trace_of ack)%list
  ∧ result_of handler = result_of ack
  ∧ (∃ tl, trace_of ack = EvAnswerCallbackQuery (QueryId q) :: tl)
  ∧ Forall quiet (trace_of (logRequest logger (requestUser q) url op) ++ trace_of ack)%list
  ∧ (∀ t o, EvEditMessageText t o ∈ trace_of handler →
            t = processingMessage op ∧ EvEditMessageText t o ∈ trace_of ack)
  ∧ (ackFailed env q qmsg (processingMessage op) = true →
     (result_of handler = Ok false ∧ existsb is_log (trace_of ack) = true)
     ∨ result_of handler = Panic nil_dereference)
  ∧ (∃ tl, trace_of (processImage logger env (ChatId (MsgChat qmsg)) (MessageId qmsg) url op)
           = EvSendChatAction (ChatId (MsgChat qmsg)) ChatActionTyping
               :: EvVision (visionCallOf op url) :: tl).
Proof.
  intros Hop Hd Hok Hfile Hq Ht Himg url ack handler.
  destruct (callbackData_code op ref Hop) as (b & Htok & Hb).
  assert (Hrun : run handler
                 = (result_of ack,
                    ([EvGetFile ref; EvGo (ChatId (MsgChat qmsg)) (MessageId qmsg) url op]
                       ++ trace_of (logRequest logger (requestUser q) url op)
                       ++ trace_of ack)%list)).
  { unfold handler. rewrite (processCallbackQuery_run _ _ _ _ _ _ Hd), Htok.
    rewrite (selectReply_launch _ _ _ _ _ _ file qmsg text); try done.
    - rewrite Hb. cbn -[trace_of]. rewrite answerAndEdit_run. reflexivity.
    - rewrite <- Htok. by apply callbackData_not_cancel. }
  assert (Htr : trace_of handler = (run handler).2) by reflexivity.
  assert (Hres : result_of handler = (run handler).1) by reflexivity.
  rewrite Hrun in Htr, Hres. simpl in Htr, Hres.
  split; [exact Htr |]. split; [exact Hres |].
  split; [apply answerAndEdit_starts |]. split; [| split; [| split]].
  - apply Forall_app. split; [| apply answerAndEdit_quiet].
    unfold trace_of, run, logRequest. destruct logger; run_m; repeat constructor.
  - intros t o Hin. rewrite Htr in Hin.
    assert (Hack : EvEditMessageText t o ∈ trace_of ack).
    { apply elem_of_cons in Hin as [Heq | Hin]; [discriminate |].
      apply elem_of_cons in Hin as [Heq | Hin]; [discriminate |].
      apply elem_of_app in Hin as [Hin | Hin]; [| done].
      unfold trace_of, run, logRequest in Hin. destruct logger; run_m.
      - apply elem_of_cons in Hin as [Heq | Hin]; [discriminate |].
        by apply elem_of_nil in Hin.
      - by apply elem_of_nil in Hin. }
    split; [| done]. by apply answerAndEdit_edits in Hack as [-> _].
  - intros Hfail. rewrite Hres. by apply (answerAndEdit_failed _ _ _ qmsg).
  - by apply processImage_calls_vision.
Qed.

Lemma task_started_before_acknowledgment_witness :
  trace_of (processCallbackQuery initTables false (sampleEnv false true [])
              (sampleSelection (callbackData initTables Face "AgAD")))
  = ([EvGetFile "AgAD"; EvGo 7 42 "https://api.telegram.org/file/bot/AgAD" Face]
       ++ trace_of (logRequest false "alice" "https://api.telegram.org/file/bot/AgAD" Face)
       ++ trace_of (answerAndEdit false (sampleEnv false true [])
                      (mkCallbackQuery "q1" (mkUser (Some "alice") "Alice")
                         (Some samplePrompt) (Some (callbackData initTables Face "AgAD")))
                      (processingMessage Face)))%list.
Proof.
  apply (task_started_before_acknowledgment false (sampleEnv false true []) None
           (mkCallbackQuery "q1" (mkUser (Some "alice") "Alice") (Some samplePrompt)
              (Some (callbackData initTables Face "AgAD")))
           Face "AgAD" (mkFile "AgAD") samplePrompt MessageActionImage).
  - unfold allCmds. repeat constructor.
  - reflexivity.
  - reflexivity.
  - reflexivity.
  - reflexivity.
  - reflexivity.
  - vm_compute. reflexivity.
Defined.

(** C2, as the claim has it, fails.  With every call succeeding the task is
    started before the acknowledgment is sent; and when answering the
    callback query fails, the file has been fetched and the task started all
    the same, and that task calls the face service. *)
Lemma acknowledgment_sent_after_task_start :
  trace_of (processCallbackQuery initTables false (sampleEnv true true [])
              (sampleSelection "FAgAD"))
  = [ EvGetFile "AgAD";
      EvGo 7 42 "https://api.telegram.org/file/bot/AgAD" Face;
      EvAnswerCallbackQuery "q1";
      EvEditMessageText "Processing 'Face Detection' on received image..."
        (editOptions samplePrompt) ]
  ∧ precededBy is_edit_message is_go false
      (trace_of (processCallbackQuery initTables false (sampleEnv true true [])
                   (sampleSelection "FAgAD"))) = false
  ∧ run (processCallbackQuery initTables false (sampleEnv false true [])
           (sampleSelection "FAgAD"))
    = (Ok false,
       [ EvGetFile "AgAD";
         EvGo 7 42 "https://api.telegram.org/file/bot/AgAD" Face;
         EvAnswerCallbackQuery "q1";
         EvLogPrintln "Failed to answer callback query: {Id:q1}" ])
  ∧ existsb is_vision
      (trace_of (processImage false (sampleEnv false true [])
                   7 42 "https://api.telegram.org/file/bot/AgAD" Face)) = true.
Proof. repeat split; vm_compute; reflexivity. Qed.

(** ** The substring test *)

Lemma append_cons (c : ascii) (s1 s2 : string) :
  String c s1 +:+ s2 = String c (s1 +:+ s2).
Proof. reflexivity. Qed.




Lemma quiet_no_go (tr : list Event) : Forall quiet tr → existsb is_go tr = false.
Proof.
  induction 1 as [| e tr (Hgo & _ & _) _ IH]; [done |]. simpl. by rewrite Hgo, IH.
Qed.





(** ** Tokens with an unknown code *)

Lemma selectReply_fetches (tables : Tables) (logger : bool) (env : Env)
    (q : CallbackQuery) (b : ascii) (rest : string) (tr : list Event) :
  String b rest ≠ CommandCancel →
  ∃ r evs, selectReply tables logger env q (String b rest) tr
           = (r, (tr ++ EvGetFile rest :: evs)%list)
           ∧ Forall (afterFetch (lookupStr (cmdsMap tables) (GoString.of_byte b))) evs.
Proof.
  intros Hc. unfold selectReply, logRequest, logError.
  apply String.eqb_neq in Hc. rewrite Hc, decodeData_cons. run_m.
  repeat (case_match; run_m; simplify_eq); rewrite <- ?app_assoc;
    eexists _, _; (split; [reflexivity |]);
    repeat constructor; intros; congruence.
Qed.

Lemma afterFetch_quiet (command : CognitiveCommand) (e : Event) :
  quiet e → afterFetch command e.
Proof.
  intros (Hgo & Hget & Hv). repeat split; [done | done |].
  intros c mid u cmd ->. discriminate.
Qed.

Lemma append_nonempty (c : ascii) (s1 s2 : string) :
  String.eqb (String c s1 +:+ s2) "" = false.
Proof. reflexivity. Qed.

(** A command that is none of the eight runs the default case of
    [processImage]: no vision call, and the reply is "Command not
    supported". *)
Lemma processImage_default (logger : bool) (env : Env) (chatId mid : Z)
    (fileUrl : string) (command : CognitiveCommand) :
  command ∉ allCmds →
  run (processImage logger env chatId mid fileUrl command)
  = (Ok tt,
     ([ EvSendChatAction chatId ChatActionTyping;
        EvDeleteMessage chatId mid;
        EvSendMessage chatId ("Command not supported: " +:+ command) ∅ ]
        ++ trace_of (logError logger ("Command not supported: " +:+ command)))%list).
Proof.
  intros Hnot. unfold run, processImage.
  assert (Hne : ∀ op, op ∈ allCmds → String.eqb command op = false).
  { intros op Hop. apply String.eqb_neq. by intros ->. }
  rewrite !Hne by (unfold allCmds; repeat constructor).
  run_m. rewrite append_nonempty. run_m. rewrite logError_run. by rewrite <- ?app_assoc.
Qed.

(** C5, as the code has it.  A token that is neither empty nor the cancel
    data and whose first character is no registered code is taken apart
    without any error: the command is the zero value [""] and the rest is the
    file reference.  The file is fetched all the same, and nothing else in
    the handler fetches or analyses; with the file found and a prompt that
    contains "image" the task is started for the command [""] and the prompt
    is replaced by the acknowledgment.  That task runs the default case of
    [processImage]: it calls no vision service and reports "Command not
    supported: ". *)
Theorem unknown_code_runs_default_case (logger : bool) (env : Env)
    (m : option Message) (q : CallbackQuery) (b : ascii) (rest : string) :
  Data q = Some (String b rest) →
  String b rest ≠ CommandCancel →
  cmdsMap initTables !! GoString.of_byte b = None →
  let handler := processCallbackQuery initTables logger env (mkUpdate m (Some q)) in
  decodeData initTables (String b rest) = Ok ("", rest)
  ∧ (∃ tl, trace_of handler = EvGetFile rest :: tl ∧ Forall (afterFetch "") tl)
  ∧ (∀ file qmsg text,
       FileOk (bot_GetFile env rest) = true →
       FileResult (bot_GetFile env rest) = Some file →
       QueryMessage q = Some qmsg →
       Text qmsg = Some text →
       GoString.Contains text "image" = true →
       trace_of handler
       = ([ EvGetFile rest;
            EvGo (ChatId (MsgChat qmsg)) (MessageId qmsg) (bot_GetFileUrl env file) "" ]
            ++ trace_of (logRequest logger (requestUser q) (bot_GetFileUrl env file) "")
            ++ trace_of (answerAndEdit logger env q "Processing '' on received image..."))%list)
  ∧ (∀ chatId mid fileUrl,
       run (processImage logger env chatId mid fileUrl "")
       = (Ok tt,
          ([ EvSendChatAction chatId ChatActionTyping;
             EvDeleteMessage chatId mid;
             EvSendMessage chatId "Command not supported: " ∅ ]
             ++ trace_of (logError logger "Command not supported: "))%list)).
Proof.
  intros Hd Hc Hnone handler.
  assert (Hcmd : lookupStr (cmdsMap initTables) (GoString.of_byte b) = "").
  { unfold lookupStr. by rewrite Hnone. }
  assert (Htr : trace_of handler = (run handler).2) by reflexivity.
  subst handler. rewrite (processCallbackQuery_run _ _ _ _ _ _ Hd) in Htr.
  split; [by rewrite decodeData_cons, Hcmd |]. split; [| split].
  - destruct (selectReply_fetches initTables logger env q b rest [] Hc)
      as (r & evs & Hsel & Hevs).
    rewrite Hcmd in Hevs. rewrite Hsel in Htr. destruct r as [message | msg].
    + rewrite answerAndEdit_run in Htr. cbn -[trace_of] in Htr.
      eexists. split; [exact Htr |]. apply Forall_app. split; [done |].
      eapply Forall_impl; [apply answerAndEdit_quiet | apply afterFetch_quiet].
    + eexists. split; [exact Htr | done].
  - intros file qmsg text Hok Hfile Hq Ht Himg.
    rewrite (selectReply_launch _ _ _ _ _ _ file qmsg text) in Htr by done.
    rewrite Hcmd in Htr. cbn -[trace_of] in Htr.
    rewrite answerAndEdit_run in Htr. exact Htr.
  - intros chatId mid fileUrl.
    apply (processImage_default logger env chatId mid fileUrl "").
    unfold allCmds. intros Hin.
    repeat (apply elem_of_cons in Hin as [Heq | Hin]; [discriminate |]).
    by apply elem_of_nil in Hin.
Qed.

Lemma unknown_code_runs_default_case_witness :
  decodeData initTables "XAgAD" = Ok ("", "AgAD").
Proof.
  refine (proj1
    (unknown_code_runs_default_case false (sampleEnv true true []) None
       (mkCallbackQuery "q1" (mkUser (Some "alice") "Alice") (Some samplePrompt)
          (Some "XAgAD"))
       "X"%char "AgAD" _ _ _)).
  - reflexivity.
  - discriminate.
  - vm_compute. reflexivity.
Defined.

(** C5, as the claim has it, fails: for the token [XAgAD], whose first
    character is no registered code, nothing fails at decode time, the file
    is fetched, the task is started, and the reply is the acknowledgment, not
    "Unprocessable message.". *)
Lemma unknown_code_is_fetched_and_started :
  cmdsMap initTables !! GoString.of_byte "X" = None
  ∧ decodeData initTables "XAgAD" = Ok ("", "AgAD")
  ∧ run (processCallbackQuery initTables false (sampleEnv true true [])
           (sampleSelection "XAgAD"))
    = (Ok true,
       [ EvGetFile "AgAD";
         EvGo 7 42 "https://api.telegram.org/file/bot/AgAD" "";
         EvAnswerCallbackQuery "q1";
         EvEditMessageText "Processing '' on received image..."
           (editOptions samplePrompt) ])
  ∧ "Processing '' on received image..." ≠ MessageUnprocessable.
Proof. repeat split; try discriminate; vm_compute; reflexivity. Qed.

(** ** Go integers *)

Lemma wrap_small (z : Z) : (- 2 ^ 63 ≤ z < 2 ^ 63)%Z → GoInt.wrap z = z.
Proof. intros Hz. unfold GoInt.wrap. rewrite Z.mod_small; lia. Qed.

Lemma add_small (a b : Z) : (- 2 ^ 63 ≤ a + b < 2 ^ 63)%Z → GoInt.add a b = (a + b)%Z.
Proof. apply wrap_small. Qed.

Lemma div_small (a : Z) : (- 2 ^ 63 ≤ a < 2 ^ 63)%Z → GoInt.div a 8 = Z.quot a 8.
Proof.
  intros Ha. apply wrap_small.
  destruct (Z.le_gt_cases 0 a) as [Hpos | Hneg].
  - rewrite Z.quot_div_nonneg by lia.
    pose proof (Z.div_pos a 8). pose proof (Z.div_le_upper_bound a 8 a). lia.
  - replace a with (- (- a))%Z by lia. rewrite Z.quot_opp_l by lia.
    rewrite Z.quot_div_nonneg by lia.
    pose proof (Z.div_pos (- a) 8). pose proof (Z.div_le_upper_bound (- a) 8 (- a)). lia.
Qed.

(** ** Pixelation *)

(** C7, as the code has it.  The block size handed to [gift.Pixelate] for a
    face rectangle of width [w] is [w / 8], Go's integer division, with no
    lower bound: it is [max(1, w / 8)] from width 8 on and 0 for
    [0 <= w < 8].  The case of the face-mask command draws nothing else. *)
Theorem pixelate_size_is_width_div_8 (logger : bool) (env : Env) (newImg : Image)
    (i : Z) (f : DetectedFace) (strs : list string) (tr : list Event) :
  let rect := FaceRectangle f in
  (- 2 ^ 63 ≤ Width rect < 2 ^ 63)%Z →
  pixelateSize rect = Z.quot (Width rect) 8
  ∧ (8 ≤ Width rect → pixelateSize rect = Z.max 1 (Width rect / 8))%Z
  ∧ (0 ≤ Width rect < 8 → pixelateSize rect = 0)%Z
  ∧ annotateFace logger env MaskFaces newImg i f strs tr
    = (Ok strs,
       (tr ++ [EvDraw (GiftPixelateDrawAt (Z.quot (Width rect) 8)
                         (Left rect) (Top rect)
                         (GoInt.add (Left rect) (Width rect))
                         (GoInt.add (Top rect) (Height rect))
                         (Left rect) (Top rect))])%list).
Proof.
  intros rect Hw.
  assert (Hsize : pixelateSize rect = Z.quot (Width rect) 8) by by apply div_small.
  split; [done |]. split; [| split].
  - intros H8. rewrite Hsize, Z.quot_div_nonneg by lia.
    pose proof (Z.div_le_lower_bound (Width rect) 8 1). lia.
  - intros H07. rewrite Hsize. apply Z.quot_small. lia.
  - unfold annotateFace, pixelateFace. fold rect. rewrite Hsize. reflexivity.
Qed.

Lemma pixelate_size_is_width_div_8_witness :
  pixelateSize (FaceRectangle sampleFace) = Z.quot 96 8.
Proof.
  refine (proj1
    (pixelate_size_is_width_div_8 false (sampleEnv true true []) (mkImage 400 300)
       0 sampleFace [] [] _)).
  simpl. lia.
Defined.

(** C7, as the claim has it, fails: for a face 7 pixels wide the block size
    is 0, not [max(1, 7 / 8) = 1]. *)
Lemma narrow_face_block_size_is_zero :
  pixelateSize (mkRectangle 10 20 7 9) = 0%Z
  ∧ Z.max 1 (7 / 8) = 1%Z
  ∧ run (annotateFace false (sampleEnv true true []) MaskFaces (mkImage 400 300)
           1 samplePartialFace [])
    = (Ok [], [EvDraw (GiftPixelateDrawAt 0 10 20 17 29 10 20)]).
Proof. repeat split; vm_compute; reflexivity. Qed.

(** ** The landmark gate *)

Lemma hasAllKeys_spec (keys : list string) (points : gmap string Point) :
  hasAllKeys keys points = true ↔ ∀ k, k ∈ keys → is_Some (points !! k).
Proof.
  induction keys as [| k keys IH]; simpl.
  - split; [| done]. intros _ k Hk. by apply elem_of_nil in Hk.
  - destruct (points !! k) as [p |] eqn:Hk.
    + rewrite IH. split.
      * intros Hall k' Hk'. apply elem_of_cons in Hk' as [-> | Hk']; [by exists p | auto].
      * intros Hall k' Hk'. apply Hall. by apply elem_of_cons; right.
    + split; [done |]. intros Hall.
      destruct (Hall k) as [p Hp]; [by apply elem_of_cons; left | congruence].
Qed.

Lemma hasAllKeys_missing (keys : list string) (points : gmap string Point) (k : string) :
  k ∈ keys → points !! k = None → hasAllKeys keys points = false.
Proof.
  intros Hk Hnone. apply not_true_is_false. rewrite hasAllKeys_spec.
  intros Hall. destruct (Hall k Hk) as [p Hp]. congruence.
Qed.

Lemma colorForIndex_total (i : Z) : (0 ≤ i)%Z → ∃ c, colorForIndex i = Ok c ∧ c ∈ colors.
Proof.
  intros Hi. unfold colorForIndex, GoInt.index, GoInt.rem.
  change (Z.of_nat (length colors)) with 6%Z.
  assert (Hr : (0 ≤ Z.rem i 6 < 6)%Z) by (apply Z.rem_bound_pos; lia).
  destruct (Z.ltb_spec (Z.rem i 6) 0) as [Hneg | _]; [lia |].
  assert (Hcases : (Z.rem i 6 = 0 ∨ Z.rem i 6 = 1 ∨ Z.rem i 6 = 2 ∨ Z.rem i 6 = 3
                    ∨ Z.rem i 6 = 4 ∨ Z.rem i 6 = 5)%Z) by lia.
  clear Hr.
  destruct Hcases as [H | [H | [H | [H | [H | H]]]]]; rewrite H;
    eexists; (split; [reflexivity |]); unfold colors; set_solver.
Qed.

Lemma drawFaceLabel_run (logger : bool) (env : Env) (fontSize : float) (i : Z)
    (rect : Rectangle) (tr : list Event) :
  drawFaceLabel logger env fontSize i rect tr
  = (Ok tt, (tr ++ trace_of (drawFaceLabel logger env fontSize i rect))%list).
Proof.
  unfold trace_of, run, drawFaceLabel, logError. run_m.
  repeat (case_match; run_m; simplify_eq); rewrite <- ?app_assoc; reflexivity.
Qed.

(** The label is drawn first, then a failure is logged. *)
Lemma drawFaceLabel_trace (logger : bool) (env : Env) (fontSize : float) (i : Z)
    (rect : Rectangle) :
  (0 ≤ i < 2 ^ 63 - 1)%Z →
  let y := Z.shiftr (ft_PointToFixed env
             (GoInt.to_float64 (GoInt.add (Top rect) (Height rect)) + fontSize)%float) 6 in
  ∃ logs, trace_of (drawFaceLabel logger env fontSize i rect)
          = EvDraw (FcDrawString ("Face #" +:+ pretty (i + 1)%Z) (Left rect) y) :: logs
          ∧ Forall (fun e => is_draw e = false) logs.
Proof.
  intros Hi y. unfold trace_of, run, drawFaceLabel, logError.
  rewrite add_small by lia. run_m.
  repeat (case_match; run_m; simplify_eq); eexists; (split; [reflexivity |]);
    repeat constructor.
Qed.

Lemma draws_run (ds : list Draw) (tr : list Event) :
  draws ds tr = (Ok tt, (tr ++ (EvDraw <$> ds))%list).
Proof. reflexivity. Qed.

(** The events of the face-detection case for one face. *)
Lemma annotateFace_Face (logger : bool) (env : Env) (newImg : Image) (i : Z)
    (f : DetectedFace) (strs : list string) (tr : list Event) (color : Color) :
  colorForIndex i = Ok color →
  let rect := FaceRectangle f in
  let fontSize := (GoInt.to_float64 (Dy newImg) / 24.0)%float in
  annotateFace logger env Face newImg i f strs tr
  = (Ok (strs ++ [faceDescription env i (FaceAttrs f)])%list,
     (tr ++ (EvDraw <$> ([FcNewContext 72 fontSize; GcSetStrokeColor color; FcSetSrc color]
                           ++ rectOutline rect))
         ++ trace_of (drawFaceLabel logger env fontSize i rect)
         ++ (if hasAllKeys faceMarkerKeys (FaceLandmarks f)
             then EvDraw <$> faceMarkers (FaceLandmarks f) else []))%list).
Proof.
  intros Hcolor rect fontSize. unfold annotateFace.
  change (String.eqb Face Face) with true. cbv iota.
  unfold mbind, M_bind. rewrite !draws_run. unfold lift. rewrite Hcolor.
  rewrite !draws_run, drawFaceLabel_run.
  destruct (hasAllKeys faceMarkerKeys (FaceLandmarks f)).
  - rewrite draws_run. unfold mret, M_ret. f_equal.
    rewrite fmap_app, <- !app_assoc. reflexivity.
  - unfold mret, M_ret. f_equal. rewrite fmap_app, <- !app_assoc, app_nil_r. reflexivity.
Qed.

(** C8 (landmark completeness gate).  In the face-detection case, for a face
    that lacks one of the five names [noseTip], [pupilRight], [pupilLeft],
    [mouthRight], [mouthLeft], the loop body returns without error and draws
    the outline of the rectangle (from its upper left corner through the
    upper right, lower right and lower left corner and back, closed and
    stroked) and the label [Face #<i+1>] and nothing else: no circle and no
    mouth line (what follows the label is at most the log of a label that
    could not be drawn).  With all five names present the same outline and
    label are followed by the circles on nose tip, right pupil and left
    pupil and the line from the right to the left corner of the mouth. *)
Theorem landmark_completeness_gate (logger : bool) (env : Env) (newImg : Image)
    (i : Z) (f : DetectedFace) (strs : list string) (tr : list Event) (k : string) :
  (0 ≤ i < 2 ^ 63 - 1)%Z →
  k ∈ ["noseTip"; "pupilRight"; "pupilLeft"; "mouthRight"; "mouthLeft"] →
  FaceLandmarks f !! k = None →
  let fontSize := (GoInt.to_float64 (Dy newImg) / 24.0)%float in
  let outlined (rect : Rectangle) (color : Color) : list Draw :=
    let l := GoInt.to_float64 (Left rect) in
    let t := GoInt.to_float64 (Top rect) in
    let r := GoInt.to_float64 (GoInt.add (Left rect) (Width rect)) in
    let b := GoInt.to_float64 (GoInt.add (Top rect) (Height rect)) in
    [ FcNewContext 72 fontSize; GcSetStrokeColor color; FcSetSrc color;
      GcMoveTo l t; GcLineTo r t; GcLineTo r b; GcLineTo l b; GcLineTo l t;
      GcClose; GcFillStroke;
      FcDrawString ("Face #" +:+ pretty (i + 1)%Z) (Left rect)
        (Z.shiftr (ft_PointToFixed env (b + fontSize)%float) 6) ] in
  let circle (p : Point) : list Draw :=
    [ GcMoveTo (X p) (Y p);
      GcArcTo (X p) (Y p) 6 6 0 (-6.283185307179586);
      GcClose; GcFillStroke ] in
  ∃ color,
    colorForIndex i = Ok color
    ∧ (∃ logs,
         Forall (fun e => is_draw e = false) logs
         ∧ annotateFace logger env Face newImg i f strs tr
           = (Ok (strs ++ [faceDescription env i (FaceAttrs f)])%list,
              (tr ++ (EvDraw <$> outlined (FaceRectangle f) color) ++ logs)%list))
    ∧ (∀ f' n r l m1 m2,
         FaceLandmarks f' !! "noseTip" = Some n →
         FaceLandmarks f' !! "pupilRight" = Some r →
         FaceLandmarks f' !! "pupilLeft" = Some l →
         FaceLandmarks f' !! "mouthRight" = Some m1 →
         FaceLandmarks f' !! "mouthLeft" = Some m2 →
         ∃ logs,
           Forall (fun e => is_draw e = false) logs
           ∧ annotateFace logger env Face newImg i f' strs tr
             = (Ok (strs ++ [faceDescription env i (FaceAttrs f')])%list,
                (tr ++ (EvDraw <$> outlined (FaceRectangle f') color) ++ logs
                    ++ (EvDraw <$> (circle n ++ circle r ++ circle l
                                      ++ [ GcMoveTo (X m1) (Y m1); GcLineTo (X m2) (Y m2);
                                           GcClose; GcFillStroke ])))%list)).
Proof.
  intros Hi Hk Hnone fontSize outlined circle.
  destruct (colorForIndex_total i) as (color & Hcolor & _); [lia |].
  exists color. split; [done |]. split.
  - destruct (drawFaceLabel_trace logger env fontSize i (FaceRectangle f) Hi)
      as (logs & Hlabel & Hlogs).
    exists logs. split; [done |].
    rewrite (annotateFace_Face _ _ _ _ _ _ _ color Hcolor).
    assert (Hgate : hasAllKeys faceMarkerKeys (FaceLandmarks f) = false)
      by exact (hasAllKeys_missing _ _ k Hk Hnone).
    rewrite Hgate. fold fontSize. rewrite Hlabel, app_nil_r. reflexivity.
  - intros f' n r l m1 m2 Hn Hr Hl Hm1 Hm2.
    destruct (drawFaceLabel_trace logger env fontSize i (FaceRectangle f') Hi)
      as (logs & Hlabel & Hlogs).
    exists logs. split; [done |].
    rewrite (annotateFace_Face _ _ _ _ _ _ _ color Hcolor). fold fontSize.
    unfold hasAllKeys, faceMarkerKeys, faceMarkers, landmark.
    rewrite Hn, Hr, Hl, Hm1, Hm2, Hlabel. reflexivity.
Qed.

Lemma landmark_completeness_gate_witness :
  ∃ color logs,
    colorForIndex 1 = Ok color
    ∧ annotateFace false (sampleEnv true true []) Face (mkImage 400 300) 1
        samplePartialFace [] []
      = (Ok [faceDescription (sampleEnv true true []) 1 (FaceAttrs samplePartialFace)],
         ((EvDraw <$> [ FcNewContext 72 12.5; GcSetStrokeColor color; FcSetSrc color;
                        GcMoveTo 10 20; GcLineTo 17 20; GcLineTo 17 29; GcLineTo 10 29;
                        GcLineTo 10 20; GcClose; GcFillStroke;
                        FcDrawString "Face #2" 10 41 ])
            ++ logs)%list).
Proof.
  destruct (landmark_completeness_gate false (sampleEnv true true [])
              (mkImage 400 300) 1 samplePartialFace [] [] "mouthLeft")
    as (color & Hcolor & (logs & _ & Hrun) & _).
  - lia.
  - repeat constructor.
  - vm_compute. reflexivity.
  - exists color, logs. split; [exact Hcolor | exact Hrun].
Defined.

(** ** binary64 arithmetic *)

Lemma SFmul_comm (x y : spec_float) : SF64mul x y = SF64mul y x.
Proof.
  unfold SF64mul.
  destruct x as [sx | sx | | sx mx ex], y as [sy | sy | | sy my ey]; simpl;
    rewrite ?(xorb_comm sx sy); try reflexivity.
  by rewrite (Pos.mul_comm mx my), (Z.add_comm ex ey).
Qed.

Lemma float_mul_comm (x y : float) : (x * y)%float = (y * x)%float.
Proof. apply Prim2SF_inj. rewrite !mul_spec. apply SFmul_comm. Qed.

Lemma SFcompare_Lt_Gt (x y : spec_float) :
  SFcompare x y = Some Lt → SFcompare y x = Some Gt.
Proof.
  destruct x as [sx | sx | | sx mx ex], y as [sy | sy | | sy my ey]; simpl;
    try discriminate; try (destruct sx; discriminate || reflexivity);
    try (destruct sy; discriminate || reflexivity);
    try (destruct sx, sy; discriminate || reflexivity).
  rewrite (Z.compare_antisym ex ey).
  pose proof (Pos.compare_cont_antisym mx my Eq) as Hanti. simpl in Hanti.
  rewrite <- Hanti.
  destruct sx, sy; try discriminate; try reflexivity;
    destruct (ex ?= ey)%Z; simpl; try discriminate; try reflexivity;
    destruct (Pos.compare_cont Eq mx my); simpl; intros; congruence.
Qed.

Lemma float_ltb_asym (x y : float) : (x <? y)%float = true → (y <? x)%float = false.
Proof.
  rewrite !ltb_spec. unfold SFltb.
  destruct (SFcompare (Prim2SF x) (Prim2SF y)) as [[| |] |] eqn:Hxy; try discriminate.
  intros _. by rewrite (SFcompare_Lt_Gt _ _ Hxy).
Qed.

(** C6 (mask geometry).  With the eye heights and the eye width the
    Euclidean distances of the specification, [marginX = 0.2 * eyesWidth],
    [marginY = 0.3 * max(lEyeHeight, rEyeHeight)] and [dX], [dY] the largest
    absolute offsets of the top and bottom points of the reference eye from
    its outer point plus the margins, [genMaskPoints] returns the left top
    point moved by [(-dX, -dY)], the left bottom point by [(-dX, +dY)], the
    right bottom point by [(+dX, +dY)] and the right top point by
    [(+dX, -dY)]; the reference eye is an eye of the larger height: the left
    one when it is strictly higher, the right one otherwise. *)
Theorem genMaskPoints_geometry (math : Math) (lt lb lo rt rb ro : Point) :
  let lEyeHeight := distance math lt lb in
  let rEyeHeight := distance math rt rb in
  let eye := referenceEye lEyeHeight rEyeHeight in
  largerEye lEyeHeight rEyeHeight eye
  ∧ genMaskPoints math lt lb lo rt rb ro = maskCorners_spec math eye lt lb lo rt rb ro.
Proof.
  intros lEyeHeight rEyeHeight eye. subst eye. unfold referenceEye. split.
  - destruct (rEyeHeight <? lEyeHeight)%float eqn:Hlt; simpl; [| done].
    by apply float_ltb_asym.
  - unfold genMaskPoints, maskCorners_spec, maxOffsetX, maxOffsetY.
    fold (distance math lt lb) (distance math rt rb) (distance math lo ro).
    fold lEyeHeight rEyeHeight.
    rewrite (float_mul_comm (distance math lo ro) 0.2).
    rewrite (float_mul_comm (Max math lEyeHeight rEyeHeight) 0.3).
    by destruct (rEyeHeight <? lEyeHeight)%float.
Qed.

(** The corners for the eye points of [sampleFace]: heights 10 and 9, so the
    left eye is the reference, [dX = 14 + 0.2 * sqrt 5188] and [dY = 6 + 3]. *)
Example genMaskPoints_sample :
  genMaskPoints sampleMath
    (mkPoint 126 114) (mkPoint 126 124) (mkPoint 112 120)
    (mkPoint 170 113) (mkPoint 170 122) (mkPoint 184 118)
  = (mkPoint 97.594445515704706 105, mkPoint 97.594445515704706 133,
     mkPoint 198.40555448429529 131, mkPoint 198.40555448429529 104)%float.
Proof. vm_compute. reflexivity. Qed.

(** ** The keyboard offered for a photo *)

(** The buttons of the keyboard: one per registered command, carrying the
    token of that command, and the cancel button. *)
Lemma genImageInlineKeyboards_buttons (fileId : string) (row : list InlineKeyboardButton) :
  row ∈ genImageInlineKeyboards initTables fileId ↔
  row = [mkButton (GoString.Title CommandCancel) (Some CommandCancel)]
  ∨ ∃ op, op ∈ allCmds ∧ row = [mkButton op (Some (callbackData initTables op fileId))].
Proof.
  unfold genImageInlineKeyboards, NewInlineKeyboardButtonsAsRowsWithCallbackData.
  rewrite elem_of_app, list_elem_of_fmap, list_elem_of_singleton. split.
  - intros [((k & v) & -> & Hkv) | ->]; [right | by left].
    apply elem_of_map_to_list in Hkv. simpl in Hkv. exists k.
    repeat (apply lookup_insert_Some in Hkv as [[<- <-] | [_ Hkv]];
            [split; [unfold allCmds; set_solver | reflexivity] |]).
    by rewrite lookup_empty in Hkv.
  - intros [-> | (op & Hop & ->)]; [by right | left].
    exists (op, callbackData initTables op fileId). split; [reflexivity |].
    apply elem_of_map_to_list. simpl.
    by_cmd op Hop; by repeat (rewrite lookup_insert_ne by discriminate);
      rewrite lookup_insert_eq.
Qed.

Lemma index_last {A} (l : list A) (x : A) :
  GoInt.index (l ++ [x]) (Z.of_nat (length (l ++ [x])) - 1) = Ok x.
Proof.
  unfold GoInt.index. rewrite length_app. simpl.
  destruct (Z.ltb_spec (Z.of_nat (length l + 1) - 1) 0) as [Hneg | _]; [lia |].
  replace (Z.to_nat (Z.of_nat (length l + 1) - 1)) with (length l) by lia.
  by rewrite list_lookup_middle.
Qed.

Lemma HasPhoto_snoc (msg : Message) (photos : list PhotoSize) (p : PhotoSize) :
  Photo msg = (photos ++ [p])%list → HasPhoto msg = true.
Proof. unfold HasPhoto. intros ->. by destruct photos. Qed.

(** C9 (the largest rendition).  For a message with photos, the last element
    of [Photo] being [p]: the reply is the prompt with the keyboard built
    for the file identifier of [p]; its rows are the cancel button and one
    button per registered command; every callback data other than the cancel
    data is the code of a command followed by the file identifier of [p],
    and is taken apart to that command and that identifier. *)
Theorem largest_photo_is_offered (logger : bool) (env : Env) (u : Update)
    (msg : Message) (photos : list PhotoSize) (p : PhotoSize) :
  UpdMessage u = Some msg →
  Photo msg = (photos ++ [p])%list →
  let kb := genImageInlineKeyboards initTables (PhotoFileId p) in
  let options : Options :=
    <["reply_markup" := OptMarkup kb]>
      {[ "reply_to_message_id" := OptInt (MessageId msg) ]} in
  (∃ tl, trace_of (processUpdate initTables logger env u)
         = EvSendMessage (ChatId (MsgChat msg)) MessageActionImage options :: tl
         ∧ ∀ c t o, EvSendMessage c t o ∉ tl)
  ∧ (∀ row, row ∈ kb ↔
       row = [mkButton (GoString.Title CommandCancel) (Some CommandCancel)]
       ∨ ∃ op, op ∈ allCmds
               ∧ row = [mkButton op (Some (callbackData initTables op (PhotoFileId p)))])
  ∧ (∀ row button data,
       row ∈ kb → button ∈ row → CallbackData button = Some data →
       data = CommandCancel
       ∨ ∃ op, op ∈ allCmds
               ∧ data = callbackData initTables op (PhotoFileId p)
               ∧ decodeData initTables data = Ok (op, PhotoFileId p)).
Proof.
  intros Hu Hphoto kb options. split; [| split].
  - unfold trace_of, run, processUpdate. run_m. rewrite Hu. run_m.
    rewrite (HasPhoto_snoc _ _ _ Hphoto), Hphoto, index_last. run_m.
    fold kb options. unfold logError.
    repeat (case_match; run_m; simplify_eq); eexists; (split; [reflexivity |]);
      intros c t o Hin;
      repeat (apply elem_of_cons in Hin as [Heq | Hin]; [discriminate |]);
      by apply elem_of_nil in Hin.
  - intros row. apply genImageInlineKeyboards_buttons.
  - intros row button data Hrow Hbutton Hdata.
    apply genImageInlineKeyboards_buttons in Hrow as [-> | (op & Hop & ->)];
      apply list_elem_of_singleton in Hbutton as ->; simpl in Hdata;
      injection Hdata as <-; [by left | right].
    exists op. split; [done |]. split; [done |].
    destruct (callbackData_code op (PhotoFileId p) Hop) as (b & Htok & Hb).
    by rewrite Htok, decodeData_cons, Hb.
Qed.

Lemma largest_photo_is_offered_witness :
  [mkButton Face (Some "Flarge")] ∈ genImageInlineKeyboards initTables "large".
Proof.
  apply (proj1 (proj2
    (largest_photo_is_offered false (sampleEnv true true [])
       (mkUpdate (Some (mkMessage 41 (mkChat 7)
                          [mkPhotoSize "small"; mkPhotoSize "medium"; mkPhotoSize "large"]
                          None None)) None)
       (mkMessage 41 (mkChat 7)
          [mkPhotoSize "small"; mkPhotoSize "medium"; mkPhotoSize "large"] None None)
       [mkPhotoSize "small"; mkPhotoSize "medium"] (mkPhotoSize "large")
       eq_refl eq_refl))).
  right. exists Face. split.
  - unfold allCmds. repeat constructor.
  - reflexivity.
Defined.

(** ** Scenarios *)

(** The colors rotate with period 6. *)
Lemma colorForIndex_cycle (i : Z) :
  (0 ≤ i)%Z → colorForIndex (i + 6) = colorForIndex i.
Proof.
  intros Hi. unfold colorForIndex, GoInt.rem.
  change (Z.of_nat (length colors)) with 6%Z.
  replace (i + 6)%Z with (i + 1 * 6)%Z by lia.
  rewrite !Z.rem_mod_nonneg by lia. by rewrite Z.mod_add.
Qed.

(** Cancel: the prompt is replaced by "Canceled.", nothing is fetched or
    started. *)
Example scenario_cancel :
  run (processCallbackQuery initTables false (sampleEnv true true [])
         (sampleSelection CommandCancel))
  = (Ok true,
     [ EvAnswerCallbackQuery "q1";
       EvEditMessageText MessageCanceled (editOptions samplePrompt) ]).
Proof. vm_compute. reflexivity. Qed.

(** No face detected: a notice and no image. *)
Example scenario_empty_detection :
  trace_of (processImage false (sampleEnv true true []) 7 42 "u" Face)
  = [ EvSendChatAction 7 ChatActionTyping;
      EvVision (FaceDetect "u" true true faceAttributeNames);
      EvDeleteMessage 7 42;
      EvSendMessage 7 "No face detected on this image." ∅;
      EvLogPrintln "No face detected on this image." ].
Proof. vm_compute. reflexivity. Qed.

(** Face detection on an image 400 pixels wide and 300 high: the second face,
    without its left mouth corner, gets its outline in the second color and
    its label, and no marker. *)
Example scenario_partial_landmarks :
  run (annotateFace false (sampleEnv true true []) Face (mkImage 400 300)
         1 samplePartialFace [])
  = (Ok [faceDescription (sampleEnv true true []) 1 (FaceAttrs samplePartialFace)],
     EvDraw <$>
       [ FcNewContext 72 12.5;
         GcSetStrokeColor (RGBA 0 255 255 255);
         FcSetSrc (RGBA 0 255 255 255);
         GcMoveTo 10 20; GcLineTo 17 20; GcLineTo 17 29; GcLineTo 10 29; GcLineTo 10 20;
         GcClose; GcFillStroke;
         FcDrawString "Face #2" 10 41 ])%float.
Proof. vm_compute. reflexivity. Qed.

(** The same image with the eyes censored: the mask with the corners of
    [genMaskPoints_sample] is filled. *)
Example scenario_censor_eyes :
  filter (fun e => is_draw e = true)
    (trace_of (processImage false (sampleEnv true true [sampleFace]) 7 42 "u" CensorEyes))
  = EvDraw <$>
      [ NewCanvas 400 300; GcSetLineWidth 7; GcSetFillColor Transparent;
        GcSetFillColor maskColor;
        GcMoveTo 97.594445515704706 105;
        GcLineTo 97.594445515704706 133;
        GcLineTo 198.40555448429529 131;
        GcLineTo 198.40555448429529 104;
        GcLineTo 97.594445515704706 105;
        GcClose; GcFill; GcSave ]%float.
Proof. vm_compute. reflexivity. Qed.

(** ** Further properties of the handlers *)

(** ** The lookup tables of an arbitrary list of commands *)

Lemma of_byte_ascii (b : ascii) :
  (N_of_ascii b < 128)%N → GoString.of_byte b = String b "".
Proof.
  intros Hb. unfold GoString.of_byte.
  by destruct (N.ltb_spec (N_of_ascii b) 128) as [_ | Hge]; [| lia].
Qed.

Lemma of_byte_high (b : ascii) :
  (128 ≤ N_of_ascii b)%N →
  GoString.of_byte b
  = String (ascii_of_N (192 + N_of_ascii b / 64))
      (String (ascii_of_N (128 + N_of_ascii b mod 64)) "").
Proof.
  intros Hb. unfold GoString.of_byte.
  by destruct (N.ltb_spec (N_of_ascii b) 128) as [Hlt | _]; [lia |].
Qed.

(** An entry of [shortCmdsMap] with the code of its key survives the loop. *)
Lemma registerCmds_short_keeps (t0 t : Tables) (cmds : list CognitiveCommand)
    (b : ascii) (rest : string) :
  registerCmds t0 cmds = Ok t →
  shortCmdsMap t0 !! String b rest = Some (GoString.of_byte b) →
  shortCmdsMap t !! String b rest = Some (GoString.of_byte b).
Proof.
  revert t0. induction cmds as [| c cmds IH]; intros t0 Hrun Hin.
  - simpl in Hrun. by injection Hrun as <-.
  - destruct c as [| b' rest']; [discriminate |]. simpl in Hrun.
    apply (IH _ Hrun). simpl.
    destruct (decide (String b' rest' = String b rest)) as [Heq | Hne].
    + injection Heq as -> ->. apply lookup_insert_eq.
    + by rewrite lookup_insert_ne.
Qed.

(** Every command of the list gets its code in [shortCmdsMap]. *)
Lemma registerCmds_short (t0 t : Tables) (cmds : list CognitiveCommand)
    (b : ascii) (rest : string) :
  registerCmds t0 cmds = Ok t →
  String b rest ∈ cmds →
  shortCmdsMap t !! String b rest = Some (GoString.of_byte b).
Proof.
  revert t0. induction cmds as [| c cmds IH]; intros t0 Hrun Hin.
  - by apply elem_of_nil in Hin.
  - destruct c as [| b' rest']; [discriminate |]. simpl in Hrun.
    apply elem_of_cons in Hin as [Heq | Hin].
    + injection Heq as <- <-.
      apply (registerCmds_short_keeps _ _ _ _ _ Hrun). simpl. apply lookup_insert_eq.
    + by apply (IH _ Hrun).
Qed.

(** A list that is registered has no empty label. *)
Lemma registerCmds_nonempty (t0 t : Tables) (cmds : list CognitiveCommand) :
  registerCmds t0 cmds = Ok t → Forall (fun c => c ≠ "") cmds.
Proof.
  revert t0. induction cmds as [| c cmds IH]; intros t0 Hrun; [constructor |].
  destruct c as [| b rest]; [discriminate |]. simpl in Hrun.
  constructor; [done | by apply (IH _ Hrun)].
Qed.

(** The token of a registered command whose first byte is ASCII is taken
    apart to the last command registered with the same first byte. *)
Lemma decodeData_callbackData_last (t : Tables) (cmds1 cmds2 : list CognitiveCommand)
    (c : CognitiveCommand) (b : ascii) (rest ref : string) :
  registerCmds emptyTables (cmds1 ++ c :: cmds2)%list = Ok t →
  codeOf c = Ok (GoString.of_byte b) →
  Forall (fun c' => codeOf c' ≠ Ok (GoString.of_byte b)) cmds2 →
  String b rest ∈ (cmds1 ++ c :: cmds2)%list →
  (N_of_ascii b < 128)%N →
  decodeData t (callbackData t (String b rest) ref) = Ok (c, ref).
Proof.
  intros Hrun Hc Hlater Hop Hb.
  pose proof (registerCmds_short _ _ _ _ _ Hrun Hop) as Hshort.
  pose proof (registerCmds_last_wins _ _ _ _ _ _ Hrun Hc Hlater) as Hlast.
  unfold callbackData, lookupStr. rewrite Hshort. simpl.
  rewrite of_byte_ascii by done. rewrite append_cons. simpl.
  rewrite decodeData_cons. unfold lookupStr. by rewrite Hlast.
Qed.

(** X2.  When two commands of the registered list start with the same ASCII
    byte and no later command has that code, the callback data of both
    commands is taken apart to the later one: a press on the button of the
    earlier command selects the later command. *)
Theorem colliding_code_decodes_to_last (t : Tables) (cmds1 cmds2 cmds3 : list CognitiveCommand)
    (b : ascii) (rest1 rest2 ref : string) :
  registerCmds emptyTables (cmds1 ++ String b rest1 :: cmds2 ++ String b rest2 :: cmds3)%list
  = Ok t →
  Forall (fun c' => codeOf c' ≠ Ok (GoString.of_byte b)) cmds3 →
  (N_of_ascii b < 128)%N →
  decodeData t (callbackData t (String b rest1) ref) = Ok (String b rest2, ref)
  ∧ decodeData t (callbackData t (String b rest2) ref) = Ok (String b rest2, ref).
Proof.
  intros Hrun Hlater Hb.
  replace (cmds1 ++ String b rest1 :: cmds2 ++ String b rest2 :: cmds3)%list
    with ((cmds1 ++ String b rest1 :: cmds2) ++ String b rest2 :: cmds3)%list in Hrun
    by (by rewrite <- app_assoc).
  split; eapply decodeData_callbackData_last; eauto.
  - apply elem_of_app. left. apply elem_of_app. right. apply elem_of_cons. by left.
  - apply elem_of_app. right. apply elem_of_cons. by left.
Qed.

Lemma colliding_code_decodes_to_last_witness :
  decodeData (tablesOf ["Censor Eyes"; "Caption"])
    (callbackData (tablesOf ["Censor Eyes"; "Caption"]) "Censor Eyes" "file-1")
  = Ok ("Caption", "file-1").
Proof.
  refine (proj1 (colliding_code_decodes_to_last _ [] [] [] "C" "ensor Eyes" "aption"
                   "file-1" _ _ _)).
  - reflexivity.
  - constructor.
  - reflexivity.
Defined.

(** X1.  For tables built by the loop of [init] from any list of commands whose
    codes are pairwise distinct, and for a command of the list whose first
    byte is ASCII: the callback data that [genImageInlineKeyboards] builds
    for the command and a file identifier is taken apart by
    [processCallbackQuery] to that command and that identifier. *)
Theorem round_trip_with_distinct_codes (t : Tables) (cmds : list CognitiveCommand)
    (op : CognitiveCommand) (ref : string) :
  registerCmds emptyTables cmds = Ok t →
  (∀ c1 c2, c1 ∈ cmds → c2 ∈ cmds → codeOf c1 = codeOf c2 → c1 = c2) →
  op ∈ cmds →
  (∀ b rest, op = String b rest → (N_of_ascii b < 128)%N) →
  decodeData t (callbackData t op ref) = Ok (op, ref).
Proof.
  intros Hrun Hdistinct Hop Hascii.
  destruct (list_elem_of_split_r cmds op Hop) as (cmds1 & cmds2 & -> & Hnotin).
  pose proof (registerCmds_nonempty _ _ _ Hrun) as Hne.
  destruct op as [| b rest].
  { apply Forall_app in Hne as [_ Hne]. by inversion Hne. }
  apply (decodeData_callbackData_last t cmds1 cmds2 (String b rest) b rest ref Hrun).
  - reflexivity.
  - apply Forall_forall. intros c' Hc' Hcode. apply Hnotin.
    assert (c' = String b rest) as <-; [| done].
    apply Hdistinct; [| | by rewrite Hcode].
    + apply elem_of_app. right. apply elem_of_cons. by right.
    + apply elem_of_app. right. apply elem_of_cons. by left.
  - apply elem_of_app. right. apply elem_of_cons. by left.
  - by apply (Hascii b rest).
Qed.

Lemma round_trip_with_distinct_codes_witness :
  decodeData (tablesOf ["Blur"; "Sharpen"])
    (callbackData (tablesOf ["Blur"; "Sharpen"]) "Sharpen" "file-1")
  = Ok ("Sharpen", "file-1").
Proof.
  apply (round_trip_with_distinct_codes _ ["Blur"; "Sharpen"]).
  - reflexivity.
  - intros c1 c2 H1 H2.
    repeat (apply elem_of_cons in H1 as [-> | H1]);
      repeat (apply elem_of_cons in H2 as [-> | H2]);
      try (by apply elem_of_nil in H1); try (by apply elem_of_nil in H2);
      vm_compute; congruence.
  - apply elem_of_cons. right. apply elem_of_cons. by left.
  - intros b rest [= <- <-]. reflexivity.
Defined.

(** X3.  For a registered command whose first byte is 0x80 or above, the code
    [string(string(c)[0])] is the two-byte UTF-8 encoding of that byte as a
    code point; the callback data is these two bytes followed by the file
    identifier; [processCallbackQuery] looks up the first byte alone and takes
    the second byte as the start of the file identifier, so the data is never
    taken apart to the command and the identifier it was built from. *)
Theorem non_ascii_code_breaks_round_trip (t : Tables) (cmds : list CognitiveCommand)
    (b : ascii) (rest ref : string) :
  registerCmds emptyTables cmds = Ok t →
  String b rest ∈ cmds →
  (128 ≤ N_of_ascii b)%N →
  let b1 := ascii_of_N (192 + N_of_ascii b / 64) in
  let b2 := ascii_of_N (128 + N_of_ascii b mod 64) in
  callbackData t (String b rest) ref = String b1 (String b2 ref)
  ∧ decodeData t (callbackData t (String b rest) ref)
    = Ok (lookupStr (cmdsMap t) (GoString.of_byte b1), String b2 ref)
  ∧ decodeData t (callbackData t (String b rest) ref) ≠ Ok (String b rest, ref).
Proof.
  intros Hrun Hop Hb b1 b2.
  pose proof (registerCmds_short _ _ _ _ _ Hrun Hop) as Hshort.
  assert (Htok : callbackData t (String b rest) ref = String b1 (String b2 ref)).
  { unfold callbackData, lookupStr. rewrite Hshort. simpl.
    rewrite of_byte_high by done. reflexivity. }
  split; [done |]. rewrite Htok, decodeData_cons. split; [done |].
  intros Heq. injection Heq as _ Href.
  apply (f_equal String.length) in Href. simpl in Href. lia.
Qed.

Lemma non_ascii_code_breaks_round_trip_witness :
  callbackData (tablesOf [sampleNonAsciiLabel]) sampleNonAsciiLabel "file-1"
  = String (ascii_of_N 195) (String (ascii_of_N 131) "file-1")
  ∧ decodeData (tablesOf [sampleNonAsciiLabel])
      (callbackData (tablesOf [sampleNonAsciiLabel]) sampleNonAsciiLabel "file-1")
    ≠ Ok (sampleNonAsciiLabel, "file-1").
Proof.
  destruct (non_ascii_code_breaks_round_trip (tablesOf [sampleNonAsciiLabel])
              [sampleNonAsciiLabel] (ascii_of_N 195) (String (ascii_of_N 137) "motions")
              "file-1") as (Htoken & _ & Hneq).
  - reflexivity.
  - apply elem_of_cons. by left.
  - vm_compute. discriminate.
  - split; [exact Htoken | exact Hneq].
Defined.

(** ** More on the callback handler *)

(** X4.  A callback query whose data is [cancel] is only answered and the
    prompt edited to [Canceled.]: no file is fetched, no task is started, no
    vision service is called, and no other text replaces the prompt. *)
Theorem cancel_fetches_nothing (tables : Tables) (logger : bool) (env : Env)
    (m : option Message) (q : CallbackQuery) :
  Data q = Some CommandCancel →
  let handler := processCallbackQuery tables logger env (mkUpdate m (Some q)) in
  run handler
  = (result_of (answerAndEdit logger env q MessageCanceled),
     trace_of (answerAndEdit logger env q MessageCanceled))
  ∧ Forall quiet (trace_of handler)
  ∧ (∀ t o, EvEditMessageText t o ∈ trace_of handler → t = MessageCanceled).
Proof.
  intros Hd handler.
  assert (Hrun : run handler
                 = (result_of (answerAndEdit logger env q MessageCanceled),
                    trace_of (answerAndEdit logger env q MessageCanceled))).
  { subst handler. rewrite (processCallbackQuery_run _ _ _ _ _ _ Hd).
    unfold selectReply. change (String.eqb CommandCancel CommandCancel) with true.
    cbv iota. unfold mret, M_ret. by rewrite answerAndEdit_run. }
  assert (Htr : trace_of handler = (run handler).2) by reflexivity.
  rewrite Hrun in Htr. simpl in Htr.
  split; [done |]. rewrite Htr. split; [apply answerAndEdit_quiet |].
  intros t o Hin. by apply answerAndEdit_edits in Hin as [-> _].
Qed.

Lemma cancel_fetches_nothing_witness :
  Forall quiet
    (trace_of (processCallbackQuery initTables false (sampleEnv true true [])
                 (sampleSelection CommandCancel))).
Proof.
  refine (proj1 (proj2 (cancel_fetches_nothing initTables false (sampleEnv true true [])
                          None
                          (mkCallbackQuery "q1" (mkUser (Some "alice") "Alice")
                             (Some samplePrompt) (Some CommandCancel)) _))).
  reflexivity.
Defined.

(** X5.  When [GetFile] fails for the file identifier of the callback data, the
    handler logs [Failed to get file from url: <description>], then answers
    the query and edits the prompt to [Failed to get file from the server.];
    no task is started. *)
Theorem file_not_found_starts_nothing (tables : Tables) (logger : bool) (env : Env)
    (m : option Message) (q : CallbackQuery) (b : ascii) (rest desc : string) :
  Data q = Some (String b rest) →
  String b rest ≠ CommandCancel →
  FileOk (bot_GetFile env rest) = false →
  FileDescription (bot_GetFile env rest) = Some desc →
  let handler := processCallbackQuery tables logger env (mkUpdate m (Some q)) in
  trace_of handler
  = (EvGetFile rest
       :: trace_of (logError logger ("Failed to get file from url: " +:+ desc))
       ++ trace_of (answerAndEdit logger env q MessageFailedToGetFile))%list
  ∧ result_of handler = result_of (answerAndEdit logger env q MessageFailedToGetFile)
  ∧ existsb is_go (trace_of handler) = false
  ∧ (∀ t o, EvEditMessageText t o ∈ trace_of handler → t = MessageFailedToGetFile).
Proof.
  intros Hd Hc Hok Hdesc handler.
  assert (Hrun : run handler
                 = (result_of (answerAndEdit logger env q MessageFailedToGetFile),
                    (EvGetFile rest
                       :: trace_of (logError logger ("Failed to get file from url: " +:+ desc))
                       ++ trace_of (answerAndEdit logger env q MessageFailedToGetFile))%list)).
  { subst handler. rewrite (processCallbackQuery_run _ _ _ _ _ _ Hd).
    unfold selectReply. apply String.eqb_neq in Hc. rewrite Hc, decodeData_cons.
    run_m. rewrite Hok, Hdesc. run_m. rewrite logError_run. cbn -[trace_of].
    rewrite answerAndEdit_run. reflexivity. }
  assert (Htr : trace_of handler = (run handler).2) by reflexivity.
  assert (Hres : result_of handler = (run handler).1) by reflexivity.
  rewrite Hrun in Htr, Hres. simpl in Htr, Hres.
  split; [done |]. split; [done |]. rewrite Htr.
  assert (Hq : Forall quiet
                 (trace_of (logError logger ("Failed to get file from url: " +:+ desc))
                    ++ trace_of (answerAndEdit logger env q MessageFailedToGetFile))%list).
  { apply Forall_app. split; [| apply answerAndEdit_quiet].
    unfold trace_of, run, logError. destruct logger; run_m; repeat constructor. }
  split.
  - simpl. by apply quiet_no_go.
  - intros t o Hin. apply elem_of_cons in Hin as [Heq | Hin]; [discriminate |].
    apply elem_of_app in Hin as [Hin | Hin].
    + unfold trace_of, run, logError in Hin. destruct logger; run_m;
        repeat (apply elem_of_cons in Hin as [Heq | Hin]; [discriminate |]);
        by apply elem_of_nil in Hin.
    + by apply answerAndEdit_edits in Hin as [-> _].
Qed.

Lemma file_not_found_starts_nothing_witness :
  existsb is_go
    (trace_of (processCallbackQuery initTables false
                 (withGetFile (mkApiResultFile false (Some "file is gone") None)
                    (sampleEnv true true []))
                 (sampleSelection "FAgAD"))) = false.
Proof.
  refine (proj1 (proj2 (proj2
            (file_not_found_starts_nothing initTables false
               (withGetFile (mkApiResultFile false (Some "file is gone") None)
                  (sampleEnv true true []))
               None
               (mkCallbackQuery "q1" (mkUser (Some "alice") "Alice")
                  (Some samplePrompt) (Some "FAgAD"))
               "F" "AgAD" "file is gone" _ _ _ _)))).
  - reflexivity.
  - discriminate.
  - reflexivity.
  - reflexivity.
Defined.

(** X6.  [processCallbackQuery] returns [true] only if the query carried a
    message, answering the callback query succeeded and editing the prompt
    succeeded; the edit is then the last event of the handler. *)
Theorem true_means_acknowledged (tables : Tables) (logger : bool) (env : Env)
    (m : option Message) (q : CallbackQuery) :
  let handler := processCallbackQuery tables logger env (mkUpdate m (Some q)) in
  result_of handler = Ok true →
  ∃ qmsg message,
    QueryMessage q = Some qmsg
    ∧ ResOk (bot_AnswerCallbackQuery env (QueryId q)) = true
    ∧ ResOk (bot_EditMessageText env message (editOptions qmsg)) = true
    ∧ last (trace_of handler) = Some (EvEditMessageText message (editOptions qmsg)).
Proof.
  intros handler. unfold result_of, trace_of. subst handler.
  destruct (Data q) as [data |] eqn:Hd.
  2:{ unfold run, processCallbackQuery. run_m. rewrite Hd. discriminate. }
  rewrite (processCallbackQuery_run _ _ _ _ _ _ Hd).
  destruct (selectReply tables logger env q data []) as [[message | msg] tr];
    [| discriminate].
  unfold answerAndEdit, logError. run_m.
  repeat (case_match; run_m; simplify_eq); try discriminate.
  intros _. eexists _, _. repeat (split; [eassumption || reflexivity |]).
  by rewrite <- app_assoc, last_app.
Qed.

Lemma true_means_acknowledged_witness :
  ∃ qmsg message,
    last (trace_of (processCallbackQuery initTables false (sampleEnv true true [])
                      (sampleSelection CommandCancel)))
    = Some (EvEditMessageText message (editOptions qmsg)).
Proof.
  destruct (true_means_acknowledged initTables false (sampleEnv true true []) None
              (mkCallbackQuery "q1" (mkUser (Some "alice") "Alice")
                 (Some samplePrompt) (Some CommandCancel)))
    as (qmsg & message & _ & _ & _ & Hlast).
  - vm_compute. reflexivity.
  - exists qmsg, message. exact Hlast.
Defined.

(** X7.  For every update, [processCallbackQuery] fetches at most one file and
    starts at most as many tasks as it fetched files (so at most one); the
    handler itself calls no vision service and draws nothing. *)
Theorem at_most_one_fetch_and_task (tables : Tables) (logger : bool) (env : Env)
    (u : Update) :
  let tr := trace_of (processCallbackQuery tables logger env u) in
  (length (List.filter is_get_file tr) ≤ 1)%nat
  ∧ (length (List.filter is_go tr) ≤ length (List.filter is_get_file tr))%nat
  ∧ existsb is_vision tr = false
  ∧ (∀ e, e ∈ tr → is_draw e = false).
Proof.
  intros tr. subst tr.
  unfold trace_of, run, processCallbackQuery, selectReply, answerAndEdit, decodeData,
    logError, logRequest.
  run_m.
  repeat (case_match; run_m; simplify_eq);
    (split; [simpl; lia |]); (split; [simpl; lia |]); (split; [reflexivity |]);
    intros e Hin;
    repeat (apply elem_of_cons in Hin as [-> | Hin]; [reflexivity |]);
    by apply elem_of_nil in Hin.
Qed.

(** ** More on [processUpdate] *)

(** X8.  A message without photo and without image document is answered with
    the help text, in reply to the message and without a keyboard; the only
    events that follow are log entries. *)
Theorem help_without_keyboard (tables : Tables) (logger : bool) (env : Env)
    (u : Update) (msg : Message) :
  UpdMessage u = Some msg →
  noImage msg →
  ∃ tl, trace_of (processUpdate tables logger env u)
        = EvSendMessage (ChatId (MsgChat msg)) MessageHelp (replyOptions msg) :: tl
        ∧ (∀ e, e ∈ tl → is_log e = true ∨ ∃ entry, e = EvLoggly entry)
        ∧ replyOptions msg !! "reply_markup" = None.
Proof.
  intros Hu (Hphoto & Hdoc).
  unfold trace_of, run, processUpdate, HasPhoto, HasDocument, logError. run_m.
  rewrite Hu. run_m. rewrite Hphoto.
  destruct Hdoc as [Hnone | (doc & mime & Hdoc & Hmime & Hprefix)].
  - rewrite Hnone. run_m. fold (replyOptions msg).
    repeat (case_match; run_m; simplify_eq); eexists; (split; [reflexivity |]);
      (split; [| reflexivity]); intros e Hin;
      repeat (apply elem_of_cons in Hin as [-> | Hin]; [eauto |]);
      by apply elem_of_nil in Hin.
  - rewrite Hdoc. run_m. rewrite Hmime. run_m. rewrite Hprefix. run_m.
    fold (replyOptions msg).
    repeat (case_match; run_m; simplify_eq); eexists; (split; [reflexivity |]);
      (split; [| reflexivity]); intros e Hin;
      repeat (apply elem_of_cons in Hin as [-> | Hin]; [eauto |]);
      by apply elem_of_nil in Hin.
Qed.

Lemma help_without_keyboard_witness :
  ∃ tl, trace_of (processUpdate initTables false (sampleEnv true true [])
                    (mkUpdate (Some sampleText) None))
        = EvSendMessage 7 MessageHelp (replyOptions sampleText) :: tl.
Proof.
  destruct (help_without_keyboard initTables false (sampleEnv true true [])
              (mkUpdate (Some sampleText) None) sampleText) as (tl & Htrace & _).
  - reflexivity.
  - split; [reflexivity | left; reflexivity].
  - exists tl. exact Htrace.
Defined.

(** X9.  A message without photo whose document has a MIME type starting with
    [image/] is answered with the prompt and the keyboard built for the file
    identifier of the document; every callback data of that keyboard other
    than [cancel] is taken apart to a registered command and that
    identifier. *)
Theorem image_document_is_offered (logger : bool) (env : Env)
    (u : Update) (msg : Message) (doc : Document) (mime : string) :
  UpdMessage u = Some msg →
  Photo msg = [] →
  MsgDocument msg = Some doc →
  MimeType doc = Some mime →
  GoString.HasPrefix mime "image/" = true →
  let kb := genImageInlineKeyboards initTables (DocFileId doc) in
  (∃ tl, trace_of (processUpdate initTables logger env u)
         = EvSendMessage (ChatId (MsgChat msg)) MessageActionImage
             (<["reply_markup" := OptMarkup kb]> (replyOptions msg)) :: tl)
  ∧ (∀ row button data,
       row ∈ kb → button ∈ row → CallbackData button = Some data →
       data = CommandCancel
       ∨ ∃ op, op ∈ allCmds ∧ decodeData initTables data = Ok (op, DocFileId doc)).
Proof.
  intros Hu Hphoto Hdoc Hmime Hprefix kb. split.
  - unfold trace_of, run, processUpdate, HasPhoto, HasDocument, logError. run_m.
    rewrite Hu. run_m. rewrite Hphoto, Hdoc. run_m. rewrite Hmime. run_m.
    rewrite Hprefix. run_m. fold kb (replyOptions msg).
    repeat (case_match; run_m; simplify_eq); eexists; reflexivity.
  - intros row button data Hrow Hbutton Hdata.
    apply genImageInlineKeyboards_buttons in Hrow as [-> | (op & Hop & ->)];
      apply list_elem_of_singleton in Hbutton as ->; simpl in Hdata;
      injection Hdata as <-; [by left | right].
    exists op. split; [done |].
    destruct (callbackData_code op (DocFileId doc) Hop) as (b & Htok & Hb).
    by rewrite Htok, decodeData_cons, Hb.
Qed.

Lemma image_document_is_offered_witness :
  ∃ tl, trace_of (processUpdate initTables false (sampleEnv true true [])
                    (mkUpdate (Some sampleImageDocument) None))
        = EvSendMessage 7 MessageActionImage
            (<["reply_markup" := OptMarkup (genImageInlineKeyboards initTables "doc-1")]>
               (replyOptions sampleImageDocument)) :: tl.
Proof.
  refine (proj1 (image_document_is_offered false (sampleEnv true true [])
                   (mkUpdate (Some sampleImageDocument) None) sampleImageDocument
                   (mkDocument "doc-1" (Some "image/png")) "image/png" _ _ _ _ _)).
  - reflexivity.
  - reflexivity.
  - reflexivity.
  - reflexivity.
  - reflexivity.
Defined.

(** X10.  A message without photo whose document has no MIME type makes
    [processUpdate] panic on the nil pointer before anything is sent. *)
Theorem document_without_mime_type_panics (tables : Tables) (logger : bool) (env : Env)
    (u : Update) (msg : Message) (doc : Document) :
  UpdMessage u = Some msg →
  Photo msg = [] →
  MsgDocument msg = Some doc →
  MimeType doc = None →
  run (processUpdate tables logger env u) = (Panic nil_dereference, []).
Proof.
  intros Hu Hphoto Hdoc Hmime.
  unfold run, processUpdate, HasPhoto, HasDocument. run_m.
  rewrite Hu. run_m. rewrite Hphoto, Hdoc. run_m. by rewrite Hmime.
Qed.

Lemma document_without_mime_type_panics_witness :
  run (processUpdate initTables false (sampleEnv true true [])
         (mkUpdate (Some sampleUntypedDocument) None))
  = (Panic nil_dereference, []).
Proof.
  apply (document_without_mime_type_panics initTables false (sampleEnv true true [])
           (mkUpdate (Some sampleUntypedDocument) None) sampleUntypedDocument
           (mkDocument "doc-2" None)).
  - reflexivity.
  - reflexivity.
  - reflexivity.
  - reflexivity.
Defined.

(** X11.  Whenever [processUpdate] returns, it has sent exactly one message, to
    the chat of the incoming message and in reply to it; the returned value
    is the [Ok] of that send; on [true] nothing follows, on [false] the
    failure is logged with the description of the send. *)
Theorem processUpdate_result (tables : Tables) (logger : bool) (env : Env)
    (u : Update) (r : bool) :
  result_of (processUpdate tables logger env u) = Ok r →
  ∃ msg message options tl,
    UpdMessage u = Some msg
    ∧ trace_of (processUpdate tables logger env u)
      = EvSendMessage (ChatId (MsgChat msg)) message options :: tl
    ∧ r = MsgOk (bot_SendMessage env (ChatId (MsgChat msg)) message options)
    ∧ options !! "reply_to_message_id" = Some (OptInt (MessageId msg))
    ∧ (if r then tl = []
       else ∃ desc,
         MsgDescription (bot_SendMessage env (ChatId (MsgChat msg)) message options)
         = Some desc
         ∧ tl = trace_of (logError logger ("Failed to send message: " +:+ desc))).
Proof.
  unfold result_of, trace_of, run, processUpdate, logError. run_m.
  repeat (case_match; run_m; simplify_eq); intros Hr; simplify_eq;
    eexists _, _, _, _; (split; [reflexivity |]); (split; [reflexivity |]);
    (split; [by symmetry |]); (split; [reflexivity |]);
    try reflexivity; eexists; (split; [eassumption | reflexivity]).
Qed.

Lemma processUpdate_result_witness :
  ∃ message options,
    trace_of (processUpdate initTables false (sampleEnv true true [])
                (mkUpdate (Some sampleText) None))
    = [EvSendMessage 7 message options]
    ∧ options !! "reply_to_message_id" = Some (OptInt 41).
Proof.
  destruct (processUpdate_result initTables false (sampleEnv true true [])
              (mkUpdate (Some sampleText) None) true)
    as (msg & message & options & tl & Hmsg & Htrace & _ & Hreply & Htl).
  - vm_compute. reflexivity.
  - injection Hmsg as <-. simpl in Htl. subst tl.
    exists message, options. split; [exact Htrace | exact Hreply].
Defined.

(** ** More on [processImage] *)

(** X12.  For each of the eight commands, when the vision service of the command
    returns an error, [processImage] sends the typing action, calls the
    service once, deletes the prompt, sends the failure notice of the command
    followed by the error as a plain message, and logs it; the image is never
    opened and no photo is sent. *)
Theorem service_failure_is_reported (logger : bool) (env : Env) (chatId mid : Z)
    (fileUrl : string) (op : CognitiveCommand) (err : string) :
  op ∈ allCmds →
  serviceError env op fileUrl = Some err →
  run (processImage logger env chatId mid fileUrl op)
  = (Ok tt,
     ([ EvSendChatAction chatId ChatActionTyping;
        EvVision (visionCallOf op fileUrl);
        EvDeleteMessage chatId mid;
        EvSendMessage chatId (failureNotice op +:+ err) ∅ ]
        ++ trace_of (logError logger (failureNotice op +:+ err)))%list).
Proof.
  intros Hop. unfold run.
  by_cmd op Hop;
    (unfold serviceError, failureNotice, visionCallOf, processImage;
     simpl (String.eqb _ _); cbv iota; simpl orb; cbv iota;
     unfold caseEmotion, caseFaces, caseDescribe, caseOcr, caseHandwritten, caseTag;
     intros Herr; run_m; case_match; simplify_eq; run_m;
     rewrite append_nonempty; run_m; rewrite logError_run; by rewrite <- ?app_assoc).
Qed.

Lemma service_failure_is_reported_witness :
  run (processImage false (sampleEnv true true []) 7 42 "https://files/AgAD" Emotion)
  = (Ok tt,
     ([ EvSendChatAction 7 ChatActionTyping;
        EvVision (visionCallOf Emotion "https://files/AgAD");
        EvDeleteMessage 7 42;
        EvSendMessage 7 (failureNotice Emotion +:+ "unavailable") ∅ ]
        ++ trace_of (logError false (failureNotice Emotion +:+ "unavailable")))%list).
Proof.
  apply (service_failure_is_reported false (sampleEnv true true []) 7 42
           "https://files/AgAD" Emotion "unavailable").
  - unfold allCmds. repeat constructor.
  - reflexivity.
Defined.

(** X13.  When the emotion service or the face service (for the face, censor and
    mask commands) succeeds with an empty list, the image is not opened and
    nothing is drawn: the prompt is deleted and the notice that nothing was
    found is sent and logged. *)
Theorem nothing_detected_sends_no_image (logger : bool) (env : Env) (chatId mid : Z)
    (fileUrl : string) (op : CognitiveCommand) :
  detectsNothing env op fileUrl →
  run (processImage logger env chatId mid fileUrl op)
  = (Ok tt,
     ([ EvSendChatAction chatId ChatActionTyping;
        EvVision (visionCallOf op fileUrl);
        EvDeleteMessage chatId mid;
        EvSendMessage chatId (nothingNotice op) ∅ ]
        ++ trace_of (logError logger (nothingNotice op)))%list).
Proof.
  unfold run. intros [[-> Hnone] | [Hop Hnone]].
  - unfold processImage, caseEmotion, visionCallOf, nothingNotice.
    simpl (String.eqb _ _). cbv iota. run_m. rewrite Hnone.
    unfold trace_of, run, logError. destruct logger; run_m; by rewrite <- ?app_assoc.
  - repeat (apply elem_of_cons in Hop as [-> | Hop]);
      [| | | by apply elem_of_nil in Hop];
      unfold processImage, caseFaces, visionCallOf, nothingNotice;
      simpl (String.eqb _ _); cbv iota; simpl orb; cbv iota; run_m;
      rewrite Hnone; unfold trace_of, run, logError; destruct logger; run_m;
      by rewrite <- ?app_assoc.
Qed.

Lemma nothing_detected_sends_no_image_witness :
  run (processImage false (sampleEnv true true []) 7 42 "https://files/AgAD" Face)
  = (Ok tt,
     ([ EvSendChatAction 7 ChatActionTyping;
        EvVision (visionCallOf Face "https://files/AgAD");
        EvDeleteMessage 7 42;
        EvSendMessage 7 (nothingNotice Face) ∅ ]
        ++ trace_of (logError false (nothingNotice Face)))%list).
Proof.
  apply (nothing_detected_sends_no_image false (sampleEnv true true []) 7 42
           "https://files/AgAD" Face).
  right. split; [repeat constructor | reflexivity].
Defined.

(** *** White space

    Bytes that are ASCII and not white space. *)
Lemma visible_app (s1 s2 : string) :
  has_visible (s1 +:+ s2) = has_visible s1 || has_visible s2.
Proof.
  induction s1 as [| c s1 IH]; [reflexivity |].
  rewrite append_cons. simpl. by rewrite IH, orb_assoc.
Qed.

Lemma between_high (lo hi : N) (b : ascii) :
  (128 ≤ lo)%N → GoString.between lo hi b = true → visible b = false.
Proof.
  unfold GoString.between, visible. intros Hlo [Hb _]%andb_true_iff.
  apply N.leb_le in Hb. apply andb_false_iff. left. apply N.ltb_ge. lia.
Qed.

(** A text with such a byte is not blank, whatever the other bytes are. *)
Lemma has_visible_non_space (s : string) :
  has_visible s = true → GoString.has_non_space s = true.
Proof.
  remember (String.length s) as n eqn:Hn.
  assert (Hlen : (String.length s ≤ n)%nat) by lia. clear Hn.
  revert s Hlen. induction n as [| n IH]; intros s Hlen Hs.
  { destruct s; [discriminate | simpl in Hlen; lia]. }
  destruct s as [| b0 s1]; [discriminate |].
  simpl in Hlen. simpl in Hs. cbn [GoString.has_non_space].
  destruct (N_of_ascii b0 <? 128)%N eqn:H0.
  - apply orb_true_iff in Hs as [Hs | Hs].
    + unfold visible in Hs. rewrite H0 in Hs. simpl in Hs. by rewrite Hs.
    + rewrite IH by (done || lia). apply orb_true_r.
  - assert (Hv0 : visible b0 = false) by (unfold visible; by rewrite H0).
    rewrite Hv0 in Hs. simpl in Hs.
    destruct s1 as [| b1 s2]; [done |].
    simpl in Hlen. simpl in Hs.
    destruct (GoString.valid2 b0 b1) eqn:H2.
    + apply andb_true_iff in H2 as [_ H2].
      apply between_high in H2; [| lia]. rewrite H2 in Hs. simpl in Hs.
      rewrite IH by (done || lia). apply orb_true_r.
    + destruct s2 as [| b2 s3]; [done |].
      simpl in Hlen. simpl in Hs.
      destruct (GoString.valid3 b0 b1 b2) eqn:H3; [| done].
      apply andb_true_iff in H3 as [[_ H31]%andb_true_iff H32].
      apply between_high in H31; [| destruct (_ =? _)%N; lia].
      apply between_high in H32; [| lia]. rewrite H31, H32 in Hs. simpl in Hs.
      rewrite IH by (done || lia). apply orb_true_r.
Qed.

(** White space in front of a text does not count. *)
Lemma blank_app (s t : string) :
  GoString.has_non_space s = false →
  GoString.has_non_space (s +:+ t) = GoString.has_non_space t.
Proof.
  remember (String.length s) as n eqn:Hn.
  assert (Hlen : (String.length s ≤ n)%nat) by lia. clear Hn.
  revert s Hlen. induction n as [| n IH]; intros s Hlen Hs.
  { destruct s; [reflexivity | simpl in Hlen; lia]. }
  destruct s as [| b0 s1]; [reflexivity |].
  simpl in Hlen. rewrite append_cons. cbn [GoString.has_non_space] in *.
  destruct (N_of_ascii b0 <? 128)%N.
  - apply orb_false_iff in Hs as [-> Hs]. rewrite IH by (done || lia). reflexivity.
  - destruct s1 as [| b1 s2]; [done |].
    simpl in Hlen. rewrite append_cons.
    destruct (GoString.valid2 b0 b1).
    + apply orb_false_iff in Hs as [-> Hs]. rewrite IH by (done || lia). reflexivity.
    + destruct s2 as [| b2 s3]; [done |].
      simpl in Hlen. rewrite append_cons.
      destruct (GoString.valid3 b0 b1 b2); [| done].
      apply orb_false_iff in Hs as [-> Hs]. rewrite IH by (done || lia). reflexivity.
Qed.

(** White space beyond ASCII: the no-break space U+00A0 and the ideographic
    space U+3000 are blank; a letter with an accent and a byte that is not
    UTF-8 are not. *)
Lemma has_non_space_unicode :
  GoString.has_non_space (String (ascii_of_N 0xC2) (String (ascii_of_N 0xA0) " ")) = false
  ∧ GoString.has_non_space
      (String (ascii_of_N 0xE3) (String (ascii_of_N 0x80) (String (ascii_of_N 0x80) LF)))
    = false
  ∧ GoString.has_non_space (String (ascii_of_N 0xC3) (String (ascii_of_N 0xA9) "")) = true
  ∧ GoString.has_non_space (String (ascii_of_N 0xA0) "") = true.
Proof. repeat split. Qed.

(** X14.  The message of the describe case always contains the parentheses
    around the tags, so it is never blank: after a successful description the
    message is sent as built, and [Could not describe given image.] is never
    sent. *)
Theorem description_is_never_blank (logger : bool) (env : Env) (chatId mid : Z)
    (fileUrl : string) (d : Described) :
  cv_DescribeImage env fileUrl = inl d →
  GoString.has_non_space (describeMessage env d) = true
  ∧ ∃ tl, trace_of (processImage logger env chatId mid fileUrl Describe)
          = EvSendChatAction chatId ChatActionTyping
              :: EvVision (CvDescribeImage fileUrl 0)
              :: EvSendMessage chatId (describeMessage env d) ∅ :: tl
          ∧ ∀ t o, EvSendMessage chatId t o ∈ tl → t ≠ "Could not describe given image.".
Proof.
  intros Hd.
  assert (Hns : GoString.has_non_space (describeMessage env d) = true).
  { apply has_visible_non_space. unfold describeMessage. rewrite !visible_app.
    change (has_visible "(") with true. by rewrite !orb_true_r. }
  split; [done |].
  unfold trace_of, run, processImage, caseDescribe, sendText, logError.
  simpl (String.eqb _ _). cbv iota. run_m. rewrite Hd. fold (describeMessage env d).
  rewrite Hns. run_m.
  repeat (case_match; run_m; simplify_eq); eexists; (split; [reflexivity |]);
    intros t o Hin;
    repeat (apply elem_of_cons in Hin as [Heq | Hin];
            [try discriminate; injection Heq as -> ->; rewrite append_cons;
             discriminate |]);
    by apply elem_of_nil in Hin.
Qed.

Lemma description_is_never_blank_witness :
  GoString.has_non_space
    (describeMessage (withDescribed (inl sampleDescribed) (sampleEnv true true []))
       sampleDescribed) = true.
Proof.
  refine (proj1 (description_is_never_blank false
                   (withDescribed (inl sampleDescribed) (sampleEnv true true []))
                   7 42 "https://files/AgAD" sampleDescribed _)).
  reflexivity.
Defined.

(** X15.  When the OCR or the handwriting service succeeds with nothing but
    white space (that of ASCII or of Unicode, as [strings.TrimSpace] trims
    it), or the tag service with no tag, nothing is sent before the prompt is
    deleted; then the notice of the command is sent and logged. *)
Theorem nothing_recognized_is_reported (logger : bool) (env : Env) (chatId mid : Z)
    (fileUrl : string) (op : CognitiveCommand) :
  recognizesNothing env op fileUrl →
  run (processImage logger env chatId mid fileUrl op)
  = (Ok tt,
     ([ EvSendChatAction chatId ChatActionTyping;
        EvVision (visionCallOf op fileUrl);
        EvDeleteMessage chatId mid;
        EvSendMessage chatId (blankNotice op) ∅ ]
        ++ trace_of (logError logger (blankNotice op)))%list).
Proof.
  unfold run.
  intros [[-> (regions & Hr & Hblank)] | [[-> (lines & Hr & Hblank)] | [-> Hr]]];
    unfold processImage, caseOcr, caseHandwritten, caseTag, sendText, visionCallOf,
      blankNotice;
    simpl (String.eqb _ _); cbv iota; run_m; rewrite Hr;
    rewrite ?(blank_app _ _ Hblank), ?Hblank; simpl;
    unfold trace_of, run, logError; destruct logger; run_m; by rewrite <- ?app_assoc.
Qed.

Lemma nothing_recognized_is_reported_witness :
  run (processImage false
         (withHandwritten (inl [sampleNoBreakSpace; " "]) (sampleEnv true true []))
         7 42 "https://files/AgAD" Handwritten)
  = (Ok tt,
     ([ EvSendChatAction 7 ChatActionTyping;
        EvVision (visionCallOf Handwritten "https://files/AgAD");
        EvDeleteMessage 7 42;
        EvSendMessage 7 (blankNotice Handwritten) ∅ ]
        ++ trace_of (logError false (blankNotice Handwritten)))%list).
Proof.
  apply (nothing_recognized_is_reported false
           (withHandwritten (inl [sampleNoBreakSpace; " "]) (sampleEnv true true []))
           7 42 "https://files/AgAD" Handwritten).
  right. left. split; [reflexivity |].
  exists [sampleNoBreakSpace; " "]. split; reflexivity.
Defined.

(** ** What a computation may emit *)

Section EmitsOnly.
Variable P : Event → bool.

Lemma emitsOnly_ret {A} (a : A) : emitsOnly P (mret a : M A).
Proof. intros tr. exists []. by rewrite app_nil_r. Qed.

Lemma emitsOnly_lift {A} (o : outcome A) : emitsOnly P (lift o).
Proof. intros tr. exists []. by rewrite app_nil_r. Qed.

Lemma emitsOnly_get_trace : emitsOnly P get_trace.
Proof. intros tr. exists []. by rewrite app_nil_r. Qed.

Lemma emitsOnly_emits (es : list Event) : forallb P es = true → emitsOnly P (emits es).
Proof. intros Hes tr. by exists es. Qed.

Lemma emitsOnly_emit (e : Event) : P e = true → emitsOnly P (emit e).
Proof. intros He tr. exists [e]. simpl. by rewrite He. Qed.

Lemma emitsOnly_draws (ds : list Draw) :
  (∀ d, P (EvDraw d) = true) → emitsOnly P (draws ds).
Proof.
  intros Hd. apply emitsOnly_emits. apply forallb_forall. intros e He.
  apply in_map_iff in He as (d & <- & _). apply Hd.
Qed.

Lemma emitsOnly_bind {A B} (m : M A) (f : A → M B) :
  emitsOnly P m → (∀ a, emitsOnly P (f a)) → emitsOnly P (m ≫= f).
Proof.
  intros Hm Hf tr. unfold mbind, M_bind.
  destruct (Hm tr) as (evs & Hevs & HP).
  destruct (m tr) as [[a | msg] tr']; simpl in Hevs; subst tr'.
  - destruct (Hf a (tr ++ evs)%list) as (evs' & Hevs' & HP').
    exists (evs ++ evs')%list. rewrite Hevs', app_assoc. split; [done |].
    rewrite forallb_app. by rewrite HP, HP'.
  - by exists evs.
Qed.

Lemma emitsOnly_range_from {A S} (i : Z) (xs : list A) (acc : S)
    (body : Z → A → S → M S) :
  (∀ j x s, emitsOnly P (body j x s)) → emitsOnly P (range_from i xs acc body).
Proof.
  intros Hbody. revert i acc. induction xs as [| x xs IH]; intros i acc; simpl.
  - apply emitsOnly_ret.
  - apply emitsOnly_bind; [apply Hbody | intros acc'; apply IH].
Qed.

Hypothesis P_log : ∀ message, P (EvLogPrintln message) = true.
Hypothesis P_loggly : ∀ entry, P (EvLoggly entry) = true.
Hypothesis P_draw : ∀ d, P (EvDraw d) = true.

Lemma emitsOnly_logError (logger : bool) (msg : string) : emitsOnly P (logError logger msg).
Proof.
  unfold logError. apply emitsOnly_bind; [by apply emitsOnly_emit |].
  intros _. destruct logger; [by apply emitsOnly_emit | apply emitsOnly_ret].
Qed.

Lemma emitsOnly_drawFaceLabel (logger : bool) (env : Env) (fs : float) (i : Z)
    (rect : Rectangle) : emitsOnly P (drawFaceLabel logger env fs i rect).
Proof.
  unfold drawFaceLabel. apply emitsOnly_bind; [by apply emitsOnly_draws |].
  intros _. destruct (ft_DrawString _ _ _ _);
    [apply emitsOnly_logError | apply emitsOnly_ret].
Qed.

End EmitsOnly.

Ltac emitsOnly_step :=
  first
    [ apply emitsOnly_ret | apply emitsOnly_lift | apply emitsOnly_get_trace
    | apply emitsOnly_logError; intros; reflexivity
    | apply emitsOnly_drawFaceLabel; intros; reflexivity
    | apply emitsOnly_draws; intros; reflexivity
    | apply emitsOnly_emit; simpl; rewrite ?Z.eqb_refl; reflexivity
    | apply emitsOnly_bind; [| intros ?]
    | apply emitsOnly_range_from; intros ? ? ?
    | match goal with |- emitsOnly _ (match ?x with _ => _ end) => destruct x end
    | progress cbv zeta ].

Lemma emitsOnly_annotateFace (logger : bool) (env : Env) (chatId : Z)
    (command : CognitiveCommand) (img : Image) (i : Z) (f : DetectedFace)
    (strs : list string) :
  emitsOnly (taskEvent chatId) (annotateFace logger env command img i f strs).
Proof. unfold annotateFace. repeat emitsOnly_step. Qed.

Lemma emitsOnly_annotateEmotion (logger : bool) (env : Env) (chatId : Z) (fs : float)
    (i : Z) (emo : RecognizedEmotion) (emos : list string) :
  emitsOnly (taskEvent chatId) (annotateEmotion logger env fs i emo emos).
Proof. unfold annotateEmotion. repeat emitsOnly_step. Qed.

Lemma emitsOnly_sendText (env : Env) (chatId : Z) (message failed blank : string) :
  emitsOnly (taskEvent chatId) (sendText env chatId message failed blank).
Proof. unfold sendText. repeat emitsOnly_step. Qed.

Lemma emitsOnly_dispatchCase (logger : bool) (env : Env) (chatId : Z) (fileUrl : string)
    (command : CognitiveCommand) :
  emitsOnly (taskEvent chatId) (dispatchCase logger env chatId fileUrl command).
Proof.
  unfold dispatchCase, caseEmotion, caseFaces, caseDescribe, caseOcr, caseHandwritten,
    caseTag, range.
  repeat (emitsOnly_step || apply emitsOnly_annotateFace || apply emitsOnly_annotateEmotion
          || apply emitsOnly_sendText).
Qed.

Lemma processImage_run (logger : bool) (env : Env) (chatId mid : Z) (fileUrl : string)
    (command : CognitiveCommand) :
  run (processImage logger env chatId mid fileUrl command)
  = match dispatchCase logger env chatId fileUrl command
            [EvSendChatAction chatId ChatActionTyping] with
    | (Ok (errorMessage, opened), tr) =>
        (Ok tt, (tr ++ endEvents logger chatId mid errorMessage opened)%list)
    | (Panic msg, tr) => (Panic msg, tr)
    end.
Proof.
  unfold run, processImage. fold (dispatchCase logger env chatId fileUrl command).
  unfold mbind at 1, M_bind at 1. unfold emit at 1. simpl app.
  unfold mbind at 1, M_bind at 1.
  destruct (dispatchCase _ _ _ _ _ _) as [[[errorMessage opened] | msg] tr]; [| done].
  unfold endEvents. run_m.
  destruct (String.eqb errorMessage "") eqn:He; run_m.
  - destruct opened; run_m; by rewrite <- ?app_assoc, ?app_nil_r.
  - rewrite logError_run. destruct opened; run_m; by rewrite <- ?app_assoc, ?app_nil_r.
Qed.

Lemma returnsFlag_ret (b : bool) (msg : string) : returnsFlag b (mret (msg, b)).
Proof. intros tr r tr' [= <- _]. reflexivity. Qed.

Lemma returnsFlag_bind {A} (b : bool) (m : M A) (f : A → M (string * bool)) :
  (∀ a, returnsFlag b (f a)) → returnsFlag b (m ≫= f).
Proof.
  intros Hf tr r tr'. unfold mbind, M_bind.
  destruct (m tr) as [[a | msg] tr1]; [apply Hf | discriminate].
Qed.

Ltac returnsFlag_step :=
  first
    [ apply returnsFlag_ret
    | apply returnsFlag_bind; intros ?
    | match goal with |- returnsFlag _ (match ?x with _ => _ end) => destruct x end
    | match goal with |- returnsFlag _ (if ?x then _ else _) => destruct x end
    | progress cbv zeta ].

(** Where the body is opened: the shape that the emotion case and the face
    cases share. *)
Lemma opened_after_get {A} (env : Env) (fileUrl : string) (answer : A + string)
    (nonempty : A → bool) (rest : A → string → M (string * bool))
    (failed : string → string) (nothing : string) (unopened : string → string)
    (call : VisionCall) (tr0 : list Event) (msg : string) (opened : bool)
    (tr' : list Event) :
  (∀ a body, returnsFlag true (rest a body)) →
  (∀ a body, extends (rest a body)) →
  (emit (EvVision call);;
   match answer with
   | inl a =>
       if nonempty a then
         emit (EvHttpGet fileUrl);;
         match http_Get env fileUrl with
         | inl body => rest a body
         | inr err => mret (unopened err, false)
         end
       else mret (nothing, false)
   | inr err => mret (failed err, false)
   end) tr0 = (Ok (msg, opened), tr') →
  ∃ evs, tr' = (tr0 ++ evs)%list
         ∧ (opened = true ↔
            EvHttpGet fileUrl ∈ evs ∧ ∃ body, http_Get env fileUrl = inl body).
Proof.
  intros Hflag Hext. unfold mbind, M_bind, emit, mret, M_ret.
  destruct answer as [a | err].
  2: { intros [= <- <- <-]. exists [EvVision call]. split; [done |].
       split; [done |]. intros [Hin _].
       apply list_elem_of_singleton in Hin. discriminate. }
  destruct (nonempty a).
  2: { intros [= <- <- <-]. exists [EvVision call]. split; [done |].
       split; [done |]. intros [Hin _].
       apply list_elem_of_singleton in Hin. discriminate. }
  destruct (http_Get env fileUrl) as [body | err] eqn:Hget.
  2: { intros [= <- <- <-]. exists [EvVision call; EvHttpGet fileUrl].
       split; [by rewrite <- app_assoc |].
       split; [done |]. by intros [_ [body [=]]]. }
  intros Hrun.
  pose proof (Hflag a body _ _ _ Hrun) as Hopened. simpl in Hopened. subst opened.
  destruct (Hext a body ((tr0 ++ [EvVision call]) ++ [EvHttpGet fileUrl])%list)
    as (evs & Hevs).
  rewrite Hrun in Hevs. simpl in Hevs. subst tr'.
  exists ([EvVision call; EvHttpGet fileUrl] ++ evs)%list.
  split; [by rewrite <- !app_assoc |].
  split; [| done]. intros _. split; [| by exists body].
  apply elem_of_app. left. apply elem_of_cons. right. by apply elem_of_cons; left.
Qed.

Lemma unopened_case (env : Env) (fileUrl : string) (m : M (string * bool))
    (tr0 : list Event) (msg : string) (opened : bool) (tr' : list Event) :
  returnsFlag false m → emitsOnly notHttpGet m →
  m tr0 = (Ok (msg, opened), tr') →
  ∃ evs, tr' = (tr0 ++ evs)%list
         ∧ (opened = true ↔
            EvHttpGet fileUrl ∈ evs ∧ ∃ body, http_Get env fileUrl = inl body).
Proof.
  intros Hflag Honly Hrun.
  pose proof (Hflag _ _ _ Hrun) as Hopened. simpl in Hopened. subst opened.
  destruct (Honly tr0) as (evs & Hevs & HP). rewrite Hrun in Hevs. simpl in Hevs.
  exists evs. split; [done |]. split; [done |]. intros [Hin _].
  rewrite forallb_forall in HP. apply list_elem_of_In in Hin.
  by apply HP in Hin.
Qed.

Lemma dispatchCase_opened (logger : bool) (env : Env) (chatId : Z) (fileUrl : string)
    (command : CognitiveCommand) (tr0 : list Event) (msg : string) (opened : bool)
    (tr' : list Event) :
  dispatchCase logger env chatId fileUrl command tr0 = (Ok (msg, opened), tr') →
  ∃ evs, tr' = (tr0 ++ evs)%list
         ∧ (opened = true ↔
            EvHttpGet fileUrl ∈ evs ∧ ∃ body, http_Get env fileUrl = inl body).
Proof.
  unfold dispatchCase.
  destruct (String.eqb command Emotion).
  { unfold caseEmotion. apply opened_after_get.
    - intros a body. repeat returnsFlag_step.
    - intros a body. unfold range.
      repeat (extends_step || apply extends_annotateEmotion). }
  destruct (_ || _ || _).
  { unfold caseFaces. apply opened_after_get.
    - intros a body. repeat returnsFlag_step.
    - intros a body. unfold range.
      repeat (extends_step || apply extends_annotateFace). }
  repeat match goal with |- context [if ?c then _ else _] => destruct c end;
    apply unopened_case;
    unfold caseDescribe, caseOcr, caseHandwritten, caseTag, sendText;
    try (repeat returnsFlag_step); repeat emitsOnly_step.
Qed.

(** X16.  Whenever [processImage] returns, for any command, its trace is the
    typing action, then events of the task (vision call, opening the image,
    drawing, actions, photo and messages to its chat, logs), then the deletion
    of the prompt, then the error message with its log line (and its Loggly
    entry when there is a logger) if there is one, then the closing of the
    response body, which is there exactly when the task called [http.Get] on
    the file and the call succeeded. *)
Theorem prompt_deleted_last (logger : bool) (env : Env) (chatId mid : Z)
    (fileUrl : string) (command : CognitiveCommand) :
  result_of (processImage logger env chatId mid fileUrl command) = Ok tt →
  ∃ (before : list Event) (errorMessage : string) (opened : bool),
    trace_of (processImage logger env chatId mid fileUrl command)
    = (EvSendChatAction chatId ChatActionTyping
         :: before
         ++ EvDeleteMessage chatId mid
         :: (if String.eqb errorMessage "" then []
             else EvSendMessage chatId errorMessage ∅
                    :: EvLogPrintln errorMessage
                    :: (if logger
                        then [EvLoggly (mkLogglyLog "MSCognitiveServicesBot" "Error"
                                          errorMessage None)]
                        else []))
         ++ (if opened then [EvBodyClose] else []))%list
    ∧ forallb (taskEvent chatId) before = true
    ∧ (opened = true ↔
       EvHttpGet fileUrl ∈ before ∧ ∃ body, http_Get env fileUrl = inl body).
Proof.
  unfold result_of, trace_of. rewrite processImage_run.
  destruct (emitsOnly_dispatchCase logger env chatId fileUrl command
              [EvSendChatAction chatId ChatActionTyping]) as (evs & Hevs & HP).
  destruct (dispatchCase _ _ _ _ _ _) as [[[errorMessage opened] | msg] tr] eqn:Hrun;
    [| discriminate].
  simpl in Hevs. subst tr. intros _.
  destruct (dispatchCase_opened _ _ _ _ _ _ _ _ _ Hrun) as (evs' & Heq & Hopened).
  injection Heq as <-.
  exists evs, errorMessage, opened. split; [| done].
  unfold endEvents, trace_of, run, logError. simpl.
  destruct (String.eqb errorMessage ""), logger; reflexivity.
Qed.

Lemma prompt_deleted_last_witness :
  ∃ (before : list Event) (errorMessage : string) (opened : bool),
    trace_of (processImage false (sampleEnv true true [sampleFace]) 7 42
                "https://files/AgAD" MaskFaces)
    = (EvSendChatAction 7 ChatActionTyping
         :: before
         ++ EvDeleteMessage 7 42
         :: (if String.eqb errorMessage "" then []
             else EvSendMessage 7 errorMessage ∅
                    :: EvLogPrintln errorMessage
                    :: (if false
                        then [EvLoggly (mkLogglyLog "MSCognitiveServicesBot" "Error"
                                          errorMessage None)]
                        else []))
         ++ (if opened then [EvBodyClose] else []))%list
    ∧ forallb (taskEvent 7) before = true
    ∧ (opened = true ↔
       EvHttpGet "https://files/AgAD" ∈ before
       ∧ ∃ body, http_Get (sampleEnv true true [sampleFace]) "https://files/AgAD"
                 = inl body).
Proof.
  apply (prompt_deleted_last false (sampleEnv true true [sampleFace]) 7 42
           "https://files/AgAD" MaskFaces).
  vm_compute. reflexivity.
Defined.

Lemma taskEvent_taskOrEndEvent (chatId mid : Z) (e : Event) :
  taskEvent chatId e = true → taskOrEndEvent chatId mid e = true.
Proof. by destruct e. Qed.

Lemma endEvents_allowed (logger : bool) (chatId mid : Z) (errorMessage : string)
    (opened : bool) :
  forallb (taskOrEndEvent chatId mid) (endEvents logger chatId mid errorMessage opened)
  = true.
Proof.
  unfold endEvents, trace_of, run, logError.
  destruct (String.eqb errorMessage ""), opened, logger; run_m;
    by rewrite ?Z.eqb_refl.
Qed.

(** X17.  Whatever the command and the collaborators' answers, also when it
    panics, every chat action, photo and message of [processImage] goes to the
    chat it was started for, and the only message it deletes is the prompt of
    that chat. *)
Theorem task_stays_in_its_chat (logger : bool) (env : Env) (chatId mid : Z)
    (fileUrl : string) (command : CognitiveCommand) :
  forallb (taskOrEndEvent chatId mid)
    (trace_of (processImage logger env chatId mid fileUrl command)) = true.
Proof.
  unfold trace_of. rewrite processImage_run.
  destruct (emitsOnly_dispatchCase logger env chatId fileUrl command
              [EvSendChatAction chatId ChatActionTyping]) as (evs & Hevs & HP).
  assert (Hevs' : forallb (taskOrEndEvent chatId mid) evs = true).
  { apply forallb_forall. intros e He. apply taskEvent_taskOrEndEvent.
    by apply (proj1 (forallb_forall _ _) HP). }
  destruct (dispatchCase _ _ _ _ _ _) as [[[errorMessage opened] | msg] tr];
    simpl in Hevs; subst tr; simpl; rewrite Z.eqb_refl; simpl.
  - by rewrite forallb_app, Hevs', endEvents_allowed.
  - done.
Qed.

(** ** The loops over the detected faces *)

(** [run_m] that leaves the loops alone. *)
Ltac run_loop :=
  repeat (progress (unfold mbind, mret, M_bind, M_ret, lift, emit, emits, draws, deref,
                      get_trace;
                    cbn -[range_from filter]));
  unfold range.

Lemma annotateFace_overlay (logger : bool) (env : Env) (command : CognitiveCommand)
    (img : Image) (i : Z) (f : DetectedFace) (strs : list string) (tr : list Event) :
  command = CensorEyes ∨ command = MaskFaces →
  annotateFace logger env command img i f strs tr
  = (Ok strs, (tr ++ (EvDraw <$> overlay env command f))%list).
Proof.
  intros [-> | ->]; unfold annotateFace, overlay; simpl (String.eqb _ _); cbv iota.
  - destruct (hasAllKeys eyeKeys (FaceLandmarks f)); run_m; by rewrite ?app_nil_r.
  - reflexivity.
Qed.

Lemma overlay_loop (logger : bool) (env : Env) (command : CognitiveCommand)
    (img : Image) (i : Z) (faces : list DetectedFace) (strs : list string)
    (tr : list Event) :
  command = CensorEyes ∨ command = MaskFaces →
  range_from i faces strs (annotateFace logger env command img) tr
  = (Ok strs, (tr ++ (EvDraw <$> concat (overlay env command <$> faces)))%list).
Proof.
  intros Hc. revert i tr. induction faces as [| f faces IH]; intros i tr; simpl.
  - unfold mret, M_ret. by rewrite app_nil_r.
  - unfold mbind, M_bind. rewrite (annotateFace_overlay _ _ _ _ _ _ _ _ Hc).
    rewrite IH. by rewrite fmap_app, app_assoc.
Qed.

Lemma filter_draws (ds : list Draw) :
  filter (fun e => is_draw e = true) (EvDraw <$> ds) = EvDraw <$> ds.
Proof.
  induction ds as [| d ds IH]; [reflexivity |].
  rewrite fmap_cons, filter_cons_True by reflexivity. by rewrite IH.
Qed.

(** X18.  For the censor and the mask command, with at least one face detected
    and opening, decoding, encoding and sending all successful: the trace is
    exactly typing action, detection, opening the image, the canvas of the
    overlays of the faces in detection order, upload action, one photo with
    the caption of the command, deletion of the prompt, closing the body; no
    text message is sent. *)
Theorem overlay_commands_send_one_photo (logger : bool) (env : Env) (chatId mid : Z)
    (fileUrl : string) (op : CognitiveCommand) (f : DetectedFace)
    (faces : list DetectedFace) (body bytes : string) (img : Image) :
  op = CensorEyes ∨ op = MaskFaces →
  face_Detect env fileUrl = inl (f :: faces) →
  http_Get env fileUrl = inl body →
  image_Decode env body = inl img →
  jpeg_Encode env (mkImage (Dx img) (Dy img))
    (EvDraw <$> overlayCanvas env op img (f :: faces)) = inl bytes →
  MsgOk (bot_SendPhotoWithBytes env chatId bytes (caption op)) = true →
  run (processImage logger env chatId mid fileUrl op)
  = (Ok tt,
     ([ EvSendChatAction chatId ChatActionTyping;
        EvVision (FaceDetect fileUrl true true faceAttributeNames);
        EvHttpGet fileUrl ]
        ++ (EvDraw <$> overlayCanvas env op img (f :: faces))
        ++ [ EvSendChatAction chatId ChatActionUploadPhoto;
             EvSendPhotoWithBytes chatId bytes (caption op);
             EvDeleteMessage chatId mid;
             EvBodyClose ])%list).
Proof.
  intros Hop Hfaces Hget Hdecode Hencode Hsent. rewrite processImage_run.
  assert (Hcase : dispatchCase logger env chatId fileUrl op
                  = caseFaces logger env chatId fileUrl op) by by destruct Hop as [-> | ->].
  rewrite Hcase. clear Hcase.
  assert (Hnotface : String.eqb op Face = false) by by destruct Hop as [-> | ->].
  unfold caseFaces. run_loop. rewrite Hfaces. run_loop. rewrite Hget, Hdecode. run_loop.
  assert (Hlen : (0 <? Z.of_nat (S (length faces)))%Z = true) by (apply Z.ltb_lt; lia).
  rewrite Hlen. run_loop.
  rewrite (overlay_loop _ _ _ _ _ _ _ _ Hop). run_loop.
  rewrite Hnotface. run_loop.
  set (tr := filter _ _).
  assert (Htr : tr = EvDraw <$> overlayCanvas env op img (f :: faces)).
  { subst tr. unfold overlayCanvas.
    rewrite <- !app_assoc. simpl.
    rewrite !filter_cons_False by (simpl; discriminate).
    rewrite !filter_cons_True by reflexivity.
    rewrite filter_app, filter_draws.
    rewrite filter_cons_True by reflexivity.
    rewrite filter_cons_False by (simpl; discriminate).
    rewrite filter_nil. by rewrite (fmap_app _ _ [GcSave]). }
  rewrite Htr, Hencode. run_m. rewrite Hsent. run_m.
  unfold endEvents, overlayCanvas. simpl. rewrite !fmap_app, <- !app_assoc. reflexivity.
Qed.

Lemma overlay_commands_send_one_photo_witness :
  run (processImage false (sampleEnv true true [sampleFace]) 7 42 "https://files/AgAD"
         CensorEyes)
  = (Ok tt, ([EvSendChatAction 7 ChatActionTyping;
              EvVision (FaceDetect "https://files/AgAD" true true faceAttributeNames);
              EvHttpGet "https://files/AgAD"]
               ++ (EvDraw <$> overlayCanvas (sampleEnv true true [sampleFace]) CensorEyes
                                (mkImage 400 300) [sampleFace])
               ++ [EvSendChatAction 7 ChatActionUploadPhoto;
                   EvSendPhotoWithBytes 7 "annotated-jpeg-bytes" (caption CensorEyes);
                   EvDeleteMessage 7 42; EvBodyClose])%list).
Proof.
  apply (overlay_commands_send_one_photo false (sampleEnv true true [sampleFace]) 7 42
           "https://files/AgAD" CensorEyes sampleFace [] "jpeg-bytes"
           "annotated-jpeg-bytes" (mkImage 400 300)).
  - left. reflexivity.
  - reflexivity.
  - reflexivity.
  - reflexivity.
  - reflexivity.
  - reflexivity.
Defined.

(** *** The face-detection loop *)

Lemma add1_small (i : Z) : (0 ≤ i < 2 ^ 63 - 1)%Z → GoInt.add i 1 = (i + 1)%Z.
Proof. intros Hi. apply add_small. lia. Qed.

Lemma annotateFace_Face_frame (logger : bool) (env : Env) (img : Image) (i : Z)
    (f : DetectedFace) (strs : list string) (tr : list Event) :
  (0 ≤ i)%Z →
  annotateFace logger env Face img i f strs tr
  = (Ok (strs ++ [faceDescription env i (FaceAttrs f)])%list,
     (tr ++ faceEvents logger env img i f)%list).
Proof.
  intros Hi. destruct (colorForIndex_total i Hi) as (color & Hcolor & _).
  unfold faceEvents, trace_of, run.
  rewrite !(annotateFace_Face _ _ _ _ _ _ _ color Hcolor). simpl.
  rewrite <- ?app_assoc. reflexivity.
Qed.

Lemma face_loop (logger : bool) (env : Env) (img : Image) (i : Z)
    (faces : list DetectedFace) (strs : list string) (tr : list Event) :
  (0 ≤ i)%Z → (i + Z.of_nat (length faces) < 2 ^ 63)%Z →
  range_from i faces strs (annotateFace logger env Face img) tr
  = (Ok (strs ++ imap (fun k f => faceDescription env (i + Z.of_nat k) (FaceAttrs f)) faces)%list,
     (tr ++ concat (imap (fun k f => faceEvents logger env img (i + Z.of_nat k) f) faces))%list).
Proof.
  revert i strs tr. induction faces as [| f faces IH]; intros i strs tr Hi Hlen.
  - simpl. unfold mret, M_ret. by rewrite !app_nil_r.
  - simpl in Hlen. cbn [range_from]. unfold mbind, M_bind.
    rewrite annotateFace_Face_frame by done.
    rewrite add1_small by lia. rewrite IH by lia.
    rewrite !imap_cons. simpl. rewrite Z.add_0_r, <- ?app_assoc. simpl.
    f_equal; [do 3 f_equal | do 3 f_equal];
      apply imap_ext; intros k f' _; simpl; f_equal; lia.
Qed.

Lemma colorForIndex_nat (k : nat) :
  colorForIndex (Z.of_nat k)
  = match colors !! (k mod 6)%nat with
    | Some c => Ok c
    | None => Panic index_out_of_range
    end.
Proof.
  unfold colorForIndex, GoInt.index, GoInt.rem.
  change (Z.of_nat (length colors)) with 6%Z.
  rewrite Z.rem_mod_nonneg by lia.
  change 6%Z with (Z.of_nat 6). rewrite <- Nat2Z.inj_mod, Nat2Z.id.
  by destruct (Z.ltb_spec (Z.of_nat (k mod 6)) 0) as [Hneg | _]; [lia |].
Qed.

(** X19.  The loop of the face-detection command succeeds for any list of faces
    (shorter than 2^63): the report has one section per face, in detection
    order, numbered from 1; the face of position [k] is outlined in the colour
    [colors[k mod 6]] and labelled [Face #<k+1>]. *)
Theorem faces_numbered_in_detection_order (logger : bool) (env : Env) (img : Image)
    (faces : list DetectedFace) (tr : list Event) :
  (Z.of_nat (length faces) < 2 ^ 63)%Z →
  range faces [] (annotateFace logger env Face img) tr
  = (Ok (imap (fun k f => faceDescription env (Z.of_nat k) (FaceAttrs f)) faces),
     (tr ++ concat (imap (fun k f => faceEvents logger env img (Z.of_nat k) f) faces))%list)
  ∧ ∀ k f, faces !! k = Some f →
      ∃ color tl,
        colors !! (k mod 6)%nat = Some color
        ∧ faceEvents logger env img (Z.of_nat k) f
          = ((EvDraw <$> ([ FcNewContext 72 (GoInt.to_float64 (Dy img) / 24.0)%float;
                            GcSetStrokeColor color; FcSetSrc color ]
                            ++ rectOutline (FaceRectangle f)))
               ++ EvDraw (FcDrawString ("Face #" +:+ pretty (Z.of_nat k + 1)%Z)
                            (Left (FaceRectangle f))
                            (Z.shiftr (ft_PointToFixed env
                               (GoInt.to_float64
                                  (GoInt.add (Top (FaceRectangle f)) (Height (FaceRectangle f)))
                                + GoInt.to_float64 (Dy img) / 24.0)%float) 6))
               :: tl)%list.
Proof.
  intros Hlen. split.
  - unfold range. rewrite face_loop by lia. by simpl.
  - intros k f Hk.
    pose proof (lookup_lt_Some _ _ _ Hk) as Hlt.
    destruct (colorForIndex_total (Z.of_nat k)) as (color & Hcolor & _); [lia |].
    pose proof Hcolor as Hnat. rewrite colorForIndex_nat in Hnat.
    destruct (colors !! (k mod 6)%nat) as [c |] eqn:Hc; [| discriminate].
    injection Hnat as ->.
    destruct (drawFaceLabel_trace logger env (GoInt.to_float64 (Dy img) / 24.0)%float
                (Z.of_nat k) (FaceRectangle f)) as (logs & Hlabel & _); [lia |].
    unfold faceEvents, trace_of, run.
    rewrite (annotateFace_Face _ _ _ _ _ _ _ color Hcolor). simpl snd.
    rewrite Hlabel. eexists color, _. split; [done |].
    simpl. reflexivity.
Qed.

Lemma faces_numbered_in_detection_order_witness :
  result_of (range [sampleFace; samplePartialFace] []
               (annotateFace false (sampleEnv true true []) Face (mkImage 400 300)))
  = Ok [ faceDescription (sampleEnv true true []) 0 (FaceAttrs sampleFace);
         faceDescription (sampleEnv true true []) 1 (FaceAttrs samplePartialFace) ].
Proof.
  unfold result_of, run.
  rewrite (proj1 (faces_numbered_in_detection_order false (sampleEnv true true [])
                    (mkImage 400 300) [sampleFace; samplePartialFace] []
                    ltac:(reflexivity))).
  reflexivity.
Defined.

(** *** The emotion case *)

Lemma annotateEmotion_run (logger : bool) (env : Env) (fs : float) (i : Z)
    (e : RecognizedEmotion) (emos : list string) (tr : list Event) (color : Color) :
  colorForIndex i = Ok color →
  annotateEmotion logger env fs i e emos tr
  = (Ok (emos ++ [scoreLines env e])%list,
     (tr ++ (EvDraw <$> ([GcSetStrokeColor color; FcSetSrc color]
                           ++ rectOutline (EmoFaceRectangle e)))
         ++ trace_of (drawFaceLabel logger env fs i (EmoFaceRectangle e)))%list).
Proof.
  intros Hcolor. unfold annotateEmotion, scoreLines. cbv zeta.
  unfold mbind, M_bind, lift. rewrite Hcolor. rewrite !draws_run, drawFaceLabel_run.
  unfold mret, M_ret. f_equal. rewrite fmap_app, <- !app_assoc. reflexivity.
Qed.

Lemma annotateEmotion_frame (logger : bool) (env : Env) (fs : float) (i : Z)
    (e : RecognizedEmotion) (emos : list string) (tr : list Event) :
  (0 ≤ i)%Z →
  annotateEmotion logger env fs i e emos tr
  = (Ok (emos ++ [scoreLines env e])%list, (tr ++ emotionEvents logger env fs i e)%list).
Proof.
  intros Hi. destruct (colorForIndex_total i Hi) as (color & Hcolor & _).
  unfold emotionEvents, trace_of, run.
  rewrite !(annotateEmotion_run _ _ _ _ _ _ _ color Hcolor). reflexivity.
Qed.

Lemma emotion_loop (logger : bool) (env : Env) (fs : float) (i : Z)
    (emotions : list RecognizedEmotion) (emos : list string) (tr : list Event) :
  (0 ≤ i)%Z → (i + Z.of_nat (length emotions) < 2 ^ 63)%Z →
  range_from i emotions emos (annotateEmotion logger env fs) tr
  = (Ok (emos ++ (scoreLines env <$> emotions))%list,
     (tr ++ concat (imap (fun k e => emotionEvents logger env fs (i + Z.of_nat k) e)
                      emotions))%list).
Proof.
  revert i emos tr. induction emotions as [| e emotions IH]; intros i emos tr Hi Hlen.
  - simpl. unfold mret, M_ret. by rewrite !app_nil_r.
  - simpl in Hlen. cbn [range_from]. unfold mbind, M_bind.
    rewrite annotateEmotion_frame by done.
    rewrite add1_small by lia. rewrite IH by lia.
    rewrite !imap_cons. simpl. rewrite Z.add_0_r, <- ?app_assoc. simpl.
    do 4 f_equal. apply imap_ext; intros k e' _; simpl; f_equal; lia.
Qed.

Lemma emotionEvents_drawOrLog (logger : bool) (env : Env) (fs : float) (i : Z)
    (e : RecognizedEmotion) :
  forallb drawOrLog (emotionEvents logger env fs i e) = true.
Proof.
  assert (Honly : emitsOnly drawOrLog (annotateEmotion logger env fs i e [])).
  { unfold annotateEmotion. repeat emitsOnly_step. }
  destruct (Honly []) as (evs & Hevs & Hall).
  unfold emotionEvents, trace_of, run. by rewrite Hevs.
Qed.

Lemma emotionCanvas_drawOrLog (logger : bool) (env : Env) (img : Image)
    (emotions : list RecognizedEmotion) :
  forallb drawOrLog (emotionCanvas logger env img emotions) = true.
Proof.
  unfold emotionCanvas. cbv zeta. rewrite !forallb_app. simpl.
  rewrite andb_true_r.
  set (fs := (GoInt.to_float64 (Dy img) / 24)%float).
  assert (H : ∀ (g : nat → nat),
             forallb drawOrLog
               (concat (imap (fun k e => emotionEvents logger env fs (Z.of_nat (g k)) e)
                          emotions)) = true).
  { induction emotions as [| e emotions IH]; intros g; [done |].
    rewrite imap_cons. simpl. rewrite forallb_app, emotionEvents_drawOrLog. simpl.
    apply (IH (g ∘ S)). }
  apply (H id).
Qed.

Lemma emotion_case_run (logger : bool) (env : Env) (chatId : Z) (fileUrl : string)
    (emotions : list RecognizedEmotion) (body : string) (img : Image) (tr : list Event) :
  emotion_RecognizeImage env fileUrl = inl emotions →
  (0 < Z.of_nat (length emotions) < 2 ^ 63)%Z →
  http_Get env fileUrl = inl body →
  image_Decode env body = inl img →
  caseEmotion logger env chatId fileUrl Emotion tr
  = let tr' := (tr ++ [EvVision (EmotionRecognizeImage fileUrl); EvHttpGet fileUrl]
                  ++ emotionCanvas logger env img emotions
                  ++ [EvSendChatAction chatId ChatActionUploadPhoto])%list in
    match jpeg_Encode env (mkImage (Dx img) (Dy img))
            (filter (fun e => is_draw e = true) tr') with
    | inl bytes =>
        let sent := bot_SendPhotoWithBytes env chatId bytes (caption Emotion) in
        let tr2 := (tr' ++ [EvSendPhotoWithBytes chatId bytes (caption Emotion)])%list in
        if MsgOk sent then
          match MsgResult sent with
          | Some photo =>
              let message := emotionMessage env emotions in
              let sent2 := bot_SendMessage env chatId message (replyTo photo) in
              let tr3 := (tr2 ++ [EvSendMessage chatId message (replyTo photo)])%list in
              if MsgOk sent2 then (Ok ("", true), tr3)
              else match MsgDescription sent2 with
                   | Some desc => (Ok ("Failed to send emotions: " +:+ desc, true), tr3)
                   | None => (Panic nil_dereference, tr3)
                   end
          | None => (Panic nil_dereference, tr2)
          end
        else match MsgDescription sent with
             | Some desc => (Ok ("Failed to send image: " +:+ desc, true), tr2)
             | None => (Panic nil_dereference, tr2)
             end
    | inr _ => (Ok ("", true), tr')
    end.
Proof.
  intros Hemo Hlen Hget Hdecode.
  unfold caseEmotion. run_loop. rewrite Hemo. run_loop.
  assert (Hpos : (0 <? Z.of_nat (length emotions))%Z = true) by (apply Z.ltb_lt; lia).
  rewrite Hpos. run_loop. rewrite Hget, Hdecode. run_loop.
  rewrite emotion_loop by lia. run_loop.
  fold (emotionMessage env emotions).
  match goal with
  | |- context [jpeg_Encode _ _ (filter _ ?t)] => set (tr1 := t)
  end.
  cbv zeta.
  set (tr' := (tr ++ _)%list).
  assert (Htr : tr1 = tr').
  { unfold tr1, tr', emotionCanvas. simpl. rewrite <- ?app_assoc. simpl. reflexivity. }
  rewrite Htr. clearbody tr'. clear tr1 Htr.
  destruct (jpeg_Encode _ _ _) as [bytes | err]; run_m; [| done].
  repeat (case_match; run_m; simplify_eq); try done.
Qed.

Lemma filter_draw_drop (tr1 tr2 tr3 : list Event) :
  Forall (fun e => is_draw e = false) tr1 →
  Forall (fun e => is_draw e = false) tr3 →
  filter (fun e => is_draw e = true) (tr1 ++ tr2 ++ tr3)%list
  = filter (fun e => is_draw e = true) tr2.
Proof.
  intros H1 H3. rewrite !filter_app.
  assert (Hnone : ∀ l, Forall (fun e => is_draw e = false) l →
                       filter (fun e => is_draw e = true) l = []).
  { intros l Hl. induction Hl as [| x l Hx _ IH]; [done |].
    rewrite filter_cons_False; [done | congruence]. }
  by rewrite (Hnone _ H1), (Hnone _ H3), app_nil_r.
Qed.

Lemma filter_draw_task (chatId : Z) (fileUrl : string) (call : VisionCall)
    (canvas : list Event) :
  filter (fun e => is_draw e = true)
    ([EvSendChatAction chatId ChatActionTyping]
       ++ [EvVision call; EvHttpGet fileUrl]
       ++ canvas ++ [EvSendChatAction chatId ChatActionUploadPhoto])%list
  = filter (fun e => is_draw e = true) canvas.
Proof.
  apply (filter_draw_drop
           [EvSendChatAction chatId ChatActionTyping; EvVision call; EvHttpGet fileUrl]);
    repeat constructor.
Qed.


(** X20.  In the emotion case, when the annotated image cannot be encoded as
    JPEG, [processImage] returns without any report: after the upload action
    it only deletes the prompt and closes the body; no photo, no emotion text
    and no error message is sent, and nothing is logged about the failure. *)
Theorem emotion_encoding_failure_is_silent (logger : bool) (env : Env) (chatId mid : Z)
    (fileUrl : string) (emotions : list RecognizedEmotion) (body err : string)
    (img : Image) :
  emotion_RecognizeImage env fileUrl = inl emotions →
  (0 < Z.of_nat (length emotions) < 2 ^ 63)%Z →
  http_Get env fileUrl = inl body →
  image_Decode env body = inl img →
  jpeg_Encode env (mkImage (Dx img) (Dy img))
    (filter (fun e => is_draw e = true) (emotionCanvas logger env img emotions)) = inr err →
  run (processImage logger env chatId mid fileUrl Emotion)
  = (Ok tt, ([EvSendChatAction chatId ChatActionTyping;
              EvVision (EmotionRecognizeImage fileUrl);
              EvHttpGet fileUrl]
               ++ emotionCanvas logger env img emotions
               ++ [EvSendChatAction chatId ChatActionUploadPhoto;
                   EvDeleteMessage chatId mid; EvBodyClose])%list)
  ∧ sendsNothing (trace_of (processImage logger env chatId mid fileUrl Emotion)).
Proof.
  intros Hemo Hlen Hget Hdecode Hencode.
  assert (Hrun : run (processImage logger env chatId mid fileUrl Emotion)
                 = (Ok tt, ([EvSendChatAction chatId ChatActionTyping;
                             EvVision (EmotionRecognizeImage fileUrl);
                             EvHttpGet fileUrl]
                              ++ emotionCanvas logger env img emotions
                              ++ [EvSendChatAction chatId ChatActionUploadPhoto;
                                  EvDeleteMessage chatId mid; EvBodyClose])%list)).
  { rewrite processImage_run.
    change (dispatchCase logger env chatId fileUrl Emotion)
      with (caseEmotion logger env chatId fileUrl Emotion).
    rewrite (emotion_case_run _ _ _ _ _ _ _ _ Hemo Hlen Hget Hdecode). cbv zeta.
    rewrite filter_draw_task.
    rewrite Hencode. unfold endEvents. simpl.
    rewrite <- ?app_assoc. reflexivity. }
  split; [exact Hrun |].
  unfold trace_of. rewrite Hrun. cbn [snd].
  intros ev Hev.
  pose proof (emotionCanvas_drawOrLog logger env img emotions) as Hcanvas.
  rewrite forallb_forall in Hcanvas.
  rewrite !elem_of_app in Hev. destruct Hev as [Hev | [Hin | Hev]].
  - repeat (apply elem_of_cons in Hev as [-> | Hev]; [done |]).
    by apply elem_of_nil in Hev.
  - apply list_elem_of_In in Hin. apply Hcanvas in Hin. by destruct ev.
  - repeat (apply elem_of_cons in Hev as [-> | Hev]; [done |]).
    by apply elem_of_nil in Hev.
Qed.

Lemma emotion_encoding_failure_is_silent_witness :
  run (processImage false
         (withEncode (inr "image is too large")
            (withEmotions (inl [sampleEmotion]) (sampleEnv true true [])))
         7 42 "https://files/AgAD" Emotion)
  = (Ok tt, ([EvSendChatAction 7 ChatActionTyping;
              EvVision (EmotionRecognizeImage "https://files/AgAD");
              EvHttpGet "https://files/AgAD"]
               ++ emotionCanvas false
                    (withEncode (inr "image is too large")
                       (withEmotions (inl [sampleEmotion]) (sampleEnv true true [])))
                    (mkImage 400 300) [sampleEmotion]
               ++ [EvSendChatAction 7 ChatActionUploadPhoto;
                   EvDeleteMessage 7 42; EvBodyClose])%list).
Proof.
  refine (proj1 (emotion_encoding_failure_is_silent false
                   (withEncode (inr "image is too large")
                      (withEmotions (inl [sampleEmotion]) (sampleEnv true true [])))
                   7 42 "https://files/AgAD" [sampleEmotion] "jpeg-bytes"
                   "image is too large" (mkImage 400 300) _ _ _ _ _)).
  - reflexivity.
  - split; reflexivity.
  - reflexivity.
  - reflexivity.
  - reflexivity.
Defined.



(** X22.  The keyboard built after [init] has nine rows of one button each, the
    last one being [Cancel]; two buttons with the same callback data are the
    same row, for every file identifier. *)
Theorem keyboard_rows (fileId : string) :
  let kb := genImageInlineKeyboards initTables fileId in
  length kb = 9%nat
  ∧ last kb = Some [mkButton "Cancel" (Some CommandCancel)]
  ∧ (∀ row, row ∈ kb → length row = 1%nat)
  ∧ (∀ row1 row2 b1 b2,
       row1 ∈ kb → row2 ∈ kb → b1 ∈ row1 → b2 ∈ row2 →
       CallbackData b1 = CallbackData b2 → row1 = row2).
Proof.
  intros kb. split; [| split; [| split]].
  - unfold kb, genImageInlineKeyboards, NewInlineKeyboardButtonsAsRowsWithCallbackData.
    rewrite length_app, length_fmap, length_map_to_list. simpl length.
    cbn [foldl allCmds].
    rewrite !map_size_insert_None, map_size_empty; [done | ..];
      rewrite ?lookup_insert_ne by done; apply lookup_empty.
  - unfold kb, genImageInlineKeyboards. by rewrite last_snoc.
  - intros row Hrow. apply genImageInlineKeyboards_buttons in Hrow.
    by destruct Hrow as [-> | (op & _ & ->)].
  - intros row1 row2 b1 b2 H1 H2 Hb1 Hb2 Hdata.
    apply genImageInlineKeyboards_buttons in H1, H2.
    destruct H1 as [-> | (op1 & Hop1 & ->)], H2 as [-> | (op2 & Hop2 & ->)];
      apply list_elem_of_singleton in Hb1, Hb2; subst b1 b2; simpl in Hdata.
    + done.
    + injection Hdata as Hdata. symmetry in Hdata.
      by apply callbackData_not_cancel in Hdata.
    + injection Hdata as Hdata. by apply callbackData_not_cancel in Hdata.
    + injection Hdata as Hdata. revert Hdata.
      by_cmd op1 Hop1; by_cmd op2 Hop2; vm_compute; intros Hdata;
        first [reflexivity | discriminate].
Qed.

(** X23.  When [init] returns: the tables are those of [allCmds]; the monitor
    interval is at least 1 (the configured value, or 1 if that was not
    positive); the Loggly logger exists exactly when the token is not empty;
    both files were read and parsed; the other fields of the configuration
    are kept. *)
Theorem init_result {Font} (ienv : InitEnv Font) (g : Globals Font) :
  init ienv = Ok g →
  globalTables g = initTables
  ∧ (1 ≤ TelegramMonitorIntervalSeconds (conf g))%Z
  ∧ (hasLogger g = true ↔ LogglyToken (conf g) ≠ "")
  ∧ ∃ file c bytes,
      ioutil_ReadFile ienv configFilename = inl file
      ∧ json_Unmarshal ienv file = inl c
      ∧ ioutil_ReadFile ienv fontFilepath = inl bytes
      ∧ truetype_Parse ienv bytes = inl (font g)
      ∧ TelegramAPIToken (conf g) = TelegramAPIToken c
      ∧ LogglyToken (conf g) = LogglyToken c
      ∧ IsVerbose (conf g) = IsVerbose c
      ∧ TelegramMonitorIntervalSeconds (conf g)
        = Z.max 1 (TelegramMonitorIntervalSeconds c).
Proof.
  unfold init, initWith. intros Hinit.
  destruct (ioutil_ReadFile ienv configFilename) as [file | err] eqn:Hfile; [| done].
  destruct (json_Unmarshal ienv file) as [c | err] eqn:Hjson; [| done].
  rewrite registerCmds_allCmds in Hinit. simpl in Hinit.
  destruct (ioutil_ReadFile ienv fontFilepath) as [bytes | err] eqn:Hfont; [| done].
  destruct (truetype_Parse ienv bytes) as [f | err] eqn:Hparse; [| done].
  injection Hinit as <-. simpl.
  assert (Hint : TelegramMonitorIntervalSeconds (checkInterval c)
                 = Z.max 1 (TelegramMonitorIntervalSeconds c)).
  { unfold checkInterval.
    destruct (Z.leb_spec (TelegramMonitorIntervalSeconds c) 0); simpl; lia. }
  assert (Htok : LogglyToken (checkInterval c) = LogglyToken c).
  { unfold checkInterval. by destruct (_ <=? _)%Z. }
  split; [reflexivity |]. split; [lia |]. split.
  - rewrite negb_true_iff. split.
    + intros Hneq Heq. rewrite Heq in Hneq. discriminate.
    + intros Hne. by apply String.eqb_neq.
  - exists file, c, bytes. repeat split; try done;
      unfold checkInterval; by destruct (_ <=? _)%Z.
Qed.

Lemma init_result_witness :
  globalTables (mkGlobals sampleConfig initTables false tt) = initTables
  ∧ (1 ≤ TelegramMonitorIntervalSeconds (conf (mkGlobals sampleConfig initTables false tt)))%Z.
Proof.
  destruct (init_result sampleInitEnv (mkGlobals sampleConfig initTables false tt))
    as (Htables & Hinterval & _).
  - vm_compute. reflexivity.
  - split; [exact Htables | exact Hinterval].
Defined.

(** X24.  [init] panics exactly when the configuration file cannot be read or
    parsed, or the font file cannot be read or parsed, and with that error;
    registering the commands never makes it panic. *)
Theorem init_panics_only_on_files {Font} (ienv : InitEnv Font) (msg : string) :
  init ienv = Panic msg ↔
  ioutil_ReadFile ienv configFilename = inr msg
  ∨ (∃ file, ioutil_ReadFile ienv configFilename = inl file
       ∧ (json_Unmarshal ienv file = inr msg
          ∨ (∃ c, json_Unmarshal ienv file = inl c)
            ∧ (ioutil_ReadFile ienv fontFilepath = inr msg
               ∨ ∃ bytes, ioutil_ReadFile ienv fontFilepath = inl bytes
                          ∧ truetype_Parse ienv bytes = inr msg))).
Proof.
  unfold init, initWith.
  destruct (ioutil_ReadFile ienv configFilename) as [file | err] eqn:Hfile.
  2: { split; [intros [= ->]; by left |].
       intros [[= ->] | (file & [=] & _)]. done. }
  destruct (json_Unmarshal ienv file) as [c | err] eqn:Hjson.
  2: { split; [intros [= ->]; right; exists file; split; [done | by left] |].
       intros [[=] | (file' & [= <-] & Hrest)].
       rewrite Hjson in Hrest.
       destruct Hrest as [[= ->] | [(c & [=]) _]]. done. }
  rewrite registerCmds_allCmds. simpl.
  destruct (ioutil_ReadFile ienv fontFilepath) as [bytes | err] eqn:Hfont.
  2: { split.
       - intros [= ->]. right. exists file. split; [done |]. right.
         split; [by exists c |]. by left.
       - intros [[=] | (file' & [= <-] & Hrest)]. rewrite Hjson in Hrest.
         destruct Hrest as [[=] | [_ [[= ->] | (bytes & [=] & _)]]]. done. }
  destruct (truetype_Parse ienv bytes) as [f | err] eqn:Hparse.
  - split; [done |].
    intros [[=] | (file' & [= <-] & Hrest)]. rewrite Hjson in Hrest.
    destruct Hrest as [[=] | [_ [[=] | (bytes' & [= <-] & Hp)]]]. congruence.
  - split.
    + intros [= ->]. right. exists file. split; [done |]. right.
      split; [by exists c |]. right. by exists bytes.
    + intros [[=] | (file' & [= <-] & Hrest)]. rewrite Hjson in Hrest.
      destruct Hrest as [[=] | [_ [[=] | (bytes' & [= <-] & Hp)]]]. congruence.
Qed.

(** X25.  [hasAllKeys] of a concatenation is the conjunction of both parts; it
    stays true when landmarks are added; it is false for a list that holds a
    name removed from the landmarks. *)
Theorem hasAllKeys_monotone (keys1 keys2 : list string) (points points' : gmap string Point) :
  hasAllKeys (keys1 ++ keys2) points = hasAllKeys keys1 points && hasAllKeys keys2 points
  ∧ (points ⊆ points' → hasAllKeys keys1 points = true → hasAllKeys keys1 points' = true)
  ∧ (∀ k, hasAllKeys keys1 (delete k points) = true → k ∉ keys1).
Proof.
  split; [| split].
  - induction keys1 as [| k keys1 IH]; [done |]. simpl.
    by destruct (points !! k).
  - rewrite !hasAllKeys_spec. intros Hsub Hall k Hk.
    destruct (Hall k Hk) as [p Hp]. exists p. by eapply lookup_weaken.
  - intros k Hall Hk. rewrite hasAllKeys_spec in Hall.
    destruct (Hall k Hk) as [p Hp]. by rewrite lookup_delete_eq in Hp.
Qed.

Lemma trace_then_ret {A} (m : M A) : trace_of (m ;; mret tt) = trace_of m.
Proof.
  unfold trace_of, run, mbind, M_bind, mret, M_ret. by destruct (m []) as [[a | msg] tr].
Qed.

(** X26.  The handler of [main], for an update that carries a message, runs
    [processUpdate] whatever callback query comes with it: the query is never
    answered; the only events are messages to the chat of the message, in
    reply to it, and log entries. *)
Theorem message_shadows_callback_query (tables : Tables) (logger : bool) (env : Env)
    (msg : Message) (q : option CallbackQuery) :
  let handler := handleUpdate tables logger env (mkUpdate (Some msg) q) None in
  trace_of handler = trace_of (processUpdate tables logger env (mkUpdate (Some msg) None))
  ∧ Forall (replyEvent msg) (trace_of handler).
Proof.
  intros handler.
  assert (Htrace : trace_of handler
                   = trace_of (processUpdate tables logger env (mkUpdate (Some msg) None))).
  { unfold handler, handleUpdate. cbn [HasMessage UpdMessage].
    by rewrite trace_then_ret. }
  split; [exact Htrace |]. rewrite Htrace. clear handler Htrace.
  unfold trace_of, run, processUpdate, logError. run_m.
  repeat (case_match; run_m; simplify_eq); rewrite ?app_nil_l;
    repeat first [apply Forall_nil_2 | apply Forall_cons_2]; simpl; try done;
    (split; [done | by simplify_map_eq]).
Qed.

Lemma processUpdate_sends (tables : Tables) (logger : bool) (env : Env) (u : Update)
    (r : bool) :
  result_of (processUpdate tables logger env u) = Ok r →
  ¬ Forall logEvent (trace_of (processUpdate tables logger env u)).
Proof.
  unfold result_of, trace_of, run, processUpdate, logError. run_m.
  repeat (case_match; run_m; simplify_eq); intros Hr Hall; simplify_eq;
    rewrite ?app_nil_l in Hall; by apply Forall_cons_1 in Hall as [[] _].
Qed.

Lemma processCallbackQuery_answers (tables : Tables) (logger : bool) (env : Env)
    (u : Update) (r : bool) :
  result_of (processCallbackQuery tables logger env u) = Ok r →
  ¬ Forall logEvent (trace_of (processCallbackQuery tables logger env u)).
Proof.
  destruct u as [m [q |]]; [| discriminate].
  destruct (Data q) as [data |] eqn:Hdata.
  2: { unfold result_of, run, processCallbackQuery. run_m. by rewrite Hdata. }
  unfold result_of, trace_of. rewrite (processCallbackQuery_run _ _ _ _ _ _ Hdata).
  destruct (selectReply tables logger env q data []) as [[message | msg] tr];
    [| discriminate].
  rewrite answerAndEdit_run.
  destruct (answerAndEdit_starts logger env q message) as (tl & Htl).
  rewrite Htl. intros _ Hall. simpl in Hall.
  apply Forall_app in Hall as [_ Hall]. by apply Forall_cons_1 in Hall as [[] _].
Qed.

(** X27.  The handler of [main] writes one error to the log (the line, and the
    Loggly entry of severity [Error] when there is a logger) and returns,
    when the client library reports an error, whatever the update carries, or
    when the update has neither message nor callback query.  These are the
    only cases in which it returns after nothing but logging: with a message
    or a callback query at hand, a handler that returns has sent a message or
    answered the query. *)
Theorem unusable_update_is_only_logged (tables : Tables) (logger : bool) (env : Env)
    (u : Update) (err : option string) :
  let handler := handleUpdate tables logger env u err in
  let message := match err with
                 | Some e => "Error while receiving update (" +:+ e +:+ ")"
                 | None => "Update not processable"
                 end in
  (unusable u err →
   run handler
   = (Ok tt,
      EvLogPrintln message
        :: (if logger
            then [EvLoggly (mkLogglyLog "MSCognitiveServicesBot" "Error" message None)]
            else [])))
  ∧ (result_of handler = Ok tt → Forall logEvent (trace_of handler) → unusable u err).
Proof.
  intros handler message. subst handler message. split.
  - intros Hu. unfold handleUpdate, run.
    destruct err as [e |].
    + unfold logError. destruct logger; run_m; reflexivity.
    + destruct Hu as [Hu | [Hm Hq]]; [done |].
      unfold HasMessage, HasCallbackQuery. rewrite Hm, Hq. simpl.
      unfold logError. destruct logger; run_m; reflexivity.
  - destruct err as [e |]; [by left |].
    unfold handleUpdate, HasMessage, HasCallbackQuery.
    destruct (UpdMessage u) as [msg |] eqn:Hm.
    + intros Hres Hall. exfalso.
      rewrite trace_then_ret in Hall.
      destruct (result_of (processUpdate tables logger env u)) as [r | p] eqn:Hr.
      * by apply (processUpdate_sends _ _ _ _ _ Hr).
      * revert Hres Hr. unfold result_of, run, mbind, M_bind.
        by destruct (processUpdate tables logger env u []) as [[r' | p'] tr'].
    + destruct (UpdCallbackQuery u) as [q |] eqn:Hq; [| by right].
      intros Hres Hall. exfalso.
      rewrite trace_then_ret in Hall.
      destruct (result_of (processCallbackQuery tables logger env u)) as [r | p] eqn:Hr.
      * by apply (processCallbackQuery_answers _ _ _ _ _ Hr).
      * revert Hres Hr. unfold result_of, run, mbind, M_bind.
        by destruct (processCallbackQuery tables logger env u []) as [[r' | p'] tr'].
Qed.

Lemma unusable_update_is_only_logged_witness :
  run (handleUpdate initTables true (sampleEnv true true [])
         (sampleSelection CommandCancel) (Some "connection reset"))
  = (Ok tt,
     [ EvLogPrintln "Error while receiving update (connection reset)";
       EvLoggly (mkLogglyLog "MSCognitiveServicesBot" "Error"
                   "Error while receiving update (connection reset)" None) ]).
Proof.
  refine (proj1 (unusable_update_is_only_logged initTables true (sampleEnv true true [])
                   (sampleSelection CommandCancel) (Some "connection reset")) _).
  left. discriminate.
Defined.

(** X28.  For the censor and the mask command, when the annotated image cannot
    be encoded as JPEG, the failure is reported: after the upload action the
    prompt is deleted, [Failed to encode image: <error>] is sent and logged,
    and the body is closed; no photo is sent. *)
Theorem overlay_encoding_failure_is_reported (logger : bool) (env : Env) (chatId mid : Z)
    (fileUrl : string) (op : CognitiveCommand) (f : DetectedFace)
    (faces : list DetectedFace) (body err : string) (img : Image) :
  op = CensorEyes ∨ op = MaskFaces →
  face_Detect env fileUrl = inl (f :: faces) →
  http_Get env fileUrl = inl body →
  image_Decode env body = inl img →
  jpeg_Encode env (mkImage (Dx img) (Dy img))
    (EvDraw <$> overlayCanvas env op img (f :: faces)) = inr err →
  run (processImage logger env chatId mid fileUrl op)
  = (Ok tt,
     ([ EvSendChatAction chatId ChatActionTyping;
        EvVision (FaceDetect fileUrl true true faceAttributeNames);
        EvHttpGet fileUrl ]
        ++ (EvDraw <$> overlayCanvas env op img (f :: faces))
        ++ [ EvSendChatAction chatId ChatActionUploadPhoto;
             EvDeleteMessage chatId mid;
             EvSendMessage chatId ("Failed to encode image: " +:+ err) ∅ ]
        ++ trace_of (logError logger ("Failed to encode image: " +:+ err))
        ++ [EvBodyClose])%list).
Proof.
  intros Hop Hfaces Hget Hdecode Hencode. rewrite processImage_run.
  assert (Hcase : dispatchCase logger env chatId fileUrl op
                  = caseFaces logger env chatId fileUrl op) by by destruct Hop as [-> | ->].
  rewrite Hcase. clear Hcase.
  unfold caseFaces. run_loop. rewrite Hfaces. run_loop. rewrite Hget, Hdecode. run_loop.
  assert (Hlen : (0 <? Z.of_nat (S (length faces)))%Z = true) by (apply Z.ltb_lt; lia).
  rewrite Hlen. run_loop.
  rewrite (overlay_loop _ _ _ _ _ _ _ _ Hop). run_loop.
  set (tr := filter _ _).
  assert (Htr : tr = EvDraw <$> overlayCanvas env op img (f :: faces)).
  { subst tr. unfold overlayCanvas.
    rewrite <- !app_assoc. simpl.
    rewrite !filter_cons_False by (simpl; discriminate).
    rewrite !filter_cons_True by reflexivity.
    rewrite filter_app, filter_draws.
    rewrite filter_cons_True by reflexivity.
    rewrite filter_cons_False by (simpl; discriminate).
    rewrite filter_nil. by rewrite (fmap_app _ _ [GcSave]). }
  rewrite Htr, Hencode. run_m.
  unfold endEvents, overlayCanvas. rewrite append_cons. cbn [String.eqb Ascii.eqb].
  simpl. rewrite !fmap_app, <- !app_assoc. reflexivity.
Qed.

Lemma overlay_encoding_failure_is_reported_witness :
  run (processImage false
         (withEncode (inr "image is too large") (sampleEnv true true [sampleFace]))
         7 42 "https://files/AgAD" MaskFaces)
  = (Ok tt,
     ([ EvSendChatAction 7 ChatActionTyping;
        EvVision (FaceDetect "https://files/AgAD" true true faceAttributeNames);
        EvHttpGet "https://files/AgAD" ]
        ++ (EvDraw <$> overlayCanvas
                         (withEncode (inr "image is too large")
                            (sampleEnv true true [sampleFace]))
                         MaskFaces (mkImage 400 300) [sampleFace])
        ++ [ EvSendChatAction 7 ChatActionUploadPhoto;
             EvDeleteMessage 7 42;
             EvSendMessage 7 "Failed to encode image: image is too large" ∅ ]
        ++ trace_of (logError false "Failed to encode image: image is too large")
        ++ [EvBodyClose])%list).
Proof.
  apply (overlay_encoding_failure_is_reported false
           (withEncode (inr "image is too large") (sampleEnv true true [sampleFace]))
           7 42 "https://files/AgAD" MaskFaces sampleFace [] "jpeg-bytes"
           "image is too large" (mkImage 400 300)).
  - right. reflexivity.
  - reflexivity.
  - reflexivity.
  - reflexivity.
  - reflexivity.
Defined.
